(** * The capture-job queue page of FishFace (old_cq_interface.js)

    A shallow embedding of the script that keeps the capture-job queue page
    in step with the job controller: [repopulate_fields] applies a status
    snapshot to the page, the click and drag handlers turn user edits into
    controller calls, and two timers (a 500 ms interval and 1000 ms
    one-shot delays) re-poll the controller.

    The page is a record of the document parts the script touches, the
    globals it keeps under [window] and [window.ff], the pending timers and
    the log of controller calls.  Every function of the script is an
    [action] over that record; an action either returns or throws, and
    keeps the changes it made in both cases, as a script does. *)

From Stdlib Require Import ZArith String Ascii List Bool Arith Lia DecimalString.
Import ListNotations.
Open Scope string_scope.
Open Scope list_scope.

(** ** The values of the script language *)

Module JS.

(** Numbers are the integers and NaN: experiment ids, job counters and
    seconds are whole numbers, and NaN is what unary plus gives for a
    missing form value. *)
Inductive number : Type :=
| NaN
| Int (z : Z).

Inductive value : Type :=
| Undefined
| Null
| Bool (b : bool)
| Num (n : number)
| Str (s : string).

Definition decimal (z : Z) : string := NilZero.string_of_int (Z.to_int z).

(** ToString, as used by [+] with a string operand and by [attr]. *)
Definition to_string (v : value) : string :=
  match v with
  | Undefined => "undefined"
  | Null => "null"
  | Bool true => "true"
  | Bool false => "false"
  | Num NaN => "NaN"
  | Num (Int z) => decimal z
  | Str s => s
  end.

(** ToBoolean, the test of [if (v)] and of [a && b]. *)
Definition to_boolean (v : value) : bool :=
  match v with
  | Undefined | Null => false
  | Bool b => b
  | Num NaN => false
  | Num (Int z) => negb (z =? 0)%Z
  | Str s => negb (s =? "")
  end.

(** [a + b] where one operand is a string. *)
Definition concat (a b : value) : value := Str (to_string a ++ to_string b).

Definition bool_to_number (b : bool) : number := Int (if b then 1 else 0)%Z.

(** Equality of numbers: NaN differs from everything, itself included. *)
Definition number_eq (a b : number) : bool :=
  match a, b with
  | Int x, Int y => (x =? y)%Z
  | _, _ => false
  end.

(** [v != undefined] holds for everything but [undefined] and [null]. *)
Definition defined (v : value) : bool :=
  match v with
  | Undefined | Null => false
  | _ => true
  end.

Section LooseEquality.

(** The engine's conversion of a text to a number enters the script only
    through [==] and [!=] against numbers and booleans.  [integer_value s]
    is [Some z] when the text converts to the integer [z], and [None] when
    it converts to NaN or to a number that is not whole. *)
Variable integer_value : string -> option Z.

Definition string_to_number (s : string) : number :=
  match integer_value s with
  | Some z => Int z
  | None => NaN
  end.

(** [x == y] on primitive values. *)
Definition loose_eq (x y : value) : bool :=
  match x, y with
  | Undefined, Undefined | Undefined, Null
  | Null, Undefined | Null, Null => true
  | Bool a, Bool b => Bool.eqb a b
  | Num a, Num b => number_eq a b
  | Str a, Str b => (a =? b)
  | Num a, Str b => number_eq a (string_to_number b)
  | Str a, Num b => number_eq (string_to_number a) b
  | Bool a, Num b => number_eq (bool_to_number a) b
  | Num a, Bool b => number_eq a (bool_to_number b)
  | Bool a, Str b => number_eq (bool_to_number a) (string_to_number b)
  | Str a, Bool b => number_eq (string_to_number a) (bool_to_number b)
  | _, _ => false
  end.

Definition loose_neq (x y : value) : bool := negb (loose_eq x y).

End LooseEquality.

(** A reader of plain decimal spellings (an optional sign and digits; the
    empty text reads as zero), used to run the script on concrete pages. *)
Definition digit_of (c : ascii) : option Z :=
  let n := nat_of_ascii c in
  if (48 <=? n)%nat && (n <=? 57)%nat then Some (Z.of_nat (n - 48)) else None.

Fixpoint read_digits (acc : Z) (s : string) : option Z :=
  match s with
  | EmptyString => Some acc
  | String c rest =>
      match digit_of c with
      | Some d => read_digits (10 * acc + d)%Z rest
      | None => None
      end
  end.

Definition read_unsigned (s : string) : option Z :=
  match s with
  | EmptyString => None
  | _ => read_digits 0%Z s
  end.

Definition read_integer (s : string) : option Z :=
  match s with
  | EmptyString => Some 0%Z
  | String "-"%char rest => option_map Z.opp (read_unsigned rest)
  | String "+"%char rest => read_unsigned rest
  | _ => read_unsigned s
  end.

End JS.

Import JS.

(** ** What the controller sends *)

(** A job specification is passed through by this script without being
    looked into. *)
Record JobSpec : Type := {
  js_voltage : value;
  js_current : value;
  js_species : value
}.

(** [data.current_job].  A field the controller left out is [Undefined];
    the status is a text when present. *)
Record CurrentJob : Type := {
  cj_status : option string;
  cj_remaining : value;
  cj_total : value;
  cj_voltage : value;
  cj_current : value;
  cj_seconds_left : value;
  cj_xp_id : value;
  cj_cjr_id : value
}.

Record StagedJob : Type := {
  sj_status : option string;
  sj_voltage : value;
  sj_current : value
}.

(** The [data] argument of [repopulate_fields].  An optional field that is
    [None] is one for which [!= undefined] is false; [queue] is [None] when
    the field is missing, and an array otherwise. *)
Record QueueSnapshot : Type := {
  xp_id : value;
  current_job : option CurrentJob;
  staged_job : option StagedJob;
  queue : option (list JobSpec)
}.

(** ** The page *)

(** The children of [#capture_job_queue]: the placeholder item and the
    items of queued jobs. *)
Inductive node : Type :=
| queue_placeholder
| job_item (j : JobSpec).

(** The part of the document the script reads and writes. *)
#[projections(primitive)] Record document : Type := {
  (** the [data-xp_id] attribute of [#xp_display_wrapper], if it has one *)
  data_xp_id : option string;
  (** the style of an element (by id) for a property *)
  style : string -> string -> string;
  (** the markup inside a text-bearing element (by id) *)
  inner_html : string -> string;
  capture_job_queue : list node;
  (** how many [#no_change_during_run] notices [#xp_display_wrapper] holds *)
  no_change_during_run : nat
}.

(** The position of the dragged item among the children of the list, and
    the [data-attrib_job_spec] attribute of the drag helper. *)
Record sortable_ui : Type := {
  item : nat;
  helper_attrib_job_spec : option string
}.

(** [window.ff]: the globals shared with the other scripts of the page.
    [xp_names] and [xp_species] are tables filled elsewhere; a missing
    entry of [xp_names] is [None]. *)
#[projections(primitive)] Record ff_globals : Type := {
  push_queue_on_update : value;
  keep_job_in_queue : value;
  new_item : option nat;
  attrib_job_spec : option string;
  xp_names : string -> option string;
  xp_species : string -> value
}.

Inductive timer_callback : Type :=
| call_repop_now
| call_remove_no_change_during_run.

Record timer : Type := {
  timer_id : nat;
  repeats : bool;
  delay : Z;
  callback : timer_callback
}.

Inductive completion : Type :=
| then_repop_in_1_second
| then_repopulate_fields.

Inductive queue_argument : Type :=
| as_array (q : list JobSpec)
| as_text (s : string).

(** The arguments of [celery_async] after the task name and the callback,
    in the order they are passed. *)
Inductive argument : Type :=
| boolean (b : bool)
| empty_object
| queue_object (queue : queue_argument) (xp_id : value) (species : value).

Record request : Type := {
  task : string;
  done : completion;
  arguments : list argument
}.

(** [window]: the monitor's two globals, the timers that are pending, the
    controller calls made so far (oldest first) and the console. *)
#[projections(primitive)] Record window_globals : Type := {
  fishface_monitoring : bool;
  fishface_update_loop : option nat;
  timers : list timer;
  next_timer : nat;
  requests : list request;
  console : list string
}.

#[projections(primitive)] Record page : Type := {
  doc : document;
  ff : ff_globals;
  win : window_globals
}.

Definition with_doc (f : document -> document) (p : page) : page :=
  {| doc := f (doc p); ff := ff p; win := win p |}.

Definition with_ff (f : ff_globals -> ff_globals) (p : page) : page :=
  {| doc := doc p; ff := f (ff p); win := win p |}.

Definition with_win (f : window_globals -> window_globals) (p : page) : page :=
  {| doc := doc p; ff := ff p; win := f (win p) |}.

Definition set_data_xp_id (v : option string) (d : document) : document :=
  {| data_xp_id := v; style := style d; inner_html := inner_html d;
     capture_job_queue := capture_job_queue d;
     no_change_during_run := no_change_during_run d |}.

Definition set_style (id prop v : string) (d : document) : document :=
  {| data_xp_id := data_xp_id d;
     style := fun i q => if (i =? id) && (q =? prop) then v else style d i q;
     inner_html := inner_html d;
     capture_job_queue := capture_job_queue d;
     no_change_during_run := no_change_during_run d |}.

Definition set_inner_html (id v : string) (d : document) : document :=
  {| data_xp_id := data_xp_id d; style := style d;
     inner_html := fun i => if i =? id then v else inner_html d i;
     capture_job_queue := capture_job_queue d;
     no_change_during_run := no_change_during_run d |}.

Definition set_capture_job_queue (l : list node) (d : document) : document :=
  {| data_xp_id := data_xp_id d; style := style d; inner_html := inner_html d;
     capture_job_queue := l;
     no_change_during_run := no_change_during_run d |}.

Definition set_no_change_during_run (n : nat) (d : document) : document :=
  {| data_xp_id := data_xp_id d; style := style d; inner_html := inner_html d;
     capture_job_queue := capture_job_queue d;
     no_change_during_run := n |}.

Definition set_push_queue_on_update (v : value) (g : ff_globals) : ff_globals :=
  {| push_queue_on_update := v; keep_job_in_queue := keep_job_in_queue g;
     new_item := new_item g; attrib_job_spec := attrib_job_spec g;
     xp_names := xp_names g; xp_species := xp_species g |}.

Definition set_keep_job_in_queue (v : value) (g : ff_globals) : ff_globals :=
  {| push_queue_on_update := push_queue_on_update g; keep_job_in_queue := v;
     new_item := new_item g; attrib_job_spec := attrib_job_spec g;
     xp_names := xp_names g; xp_species := xp_species g |}.

Definition set_new_item (i : option nat) (a : option string) (g : ff_globals)
  : ff_globals :=
  {| push_queue_on_update := push_queue_on_update g;
     keep_job_in_queue := keep_job_in_queue g;
     new_item := i; attrib_job_spec := a;
     xp_names := xp_names g; xp_species := xp_species g |}.

Definition set_fishface_monitoring (b : bool) (w : window_globals)
  : window_globals :=
  {| fishface_monitoring := b; fishface_update_loop := fishface_update_loop w;
     timers := timers w; next_timer := next_timer w;
     requests := requests w; console := console w |}.

Definition set_fishface_update_loop (i : option nat) (w : window_globals)
  : window_globals :=
  {| fishface_monitoring := fishface_monitoring w; fishface_update_loop := i;
     timers := timers w; next_timer := next_timer w;
     requests := requests w; console := console w |}.

Definition set_timers (l : list timer) (n : nat) (w : window_globals)
  : window_globals :=
  {| fishface_monitoring := fishface_monitoring w;
     fishface_update_loop := fishface_update_loop w;
     timers := l; next_timer := n;
     requests := requests w; console := console w |}.

Definition set_requests (l : list request) (w : window_globals)
  : window_globals :=
  {| fishface_monitoring := fishface_monitoring w;
     fishface_update_loop := fishface_update_loop w;
     timers := timers w; next_timer := next_timer w;
     requests := l; console := console w |}.

Definition set_console (l : list string) (w : window_globals)
  : window_globals :=
  {| fishface_monitoring := fishface_monitoring w;
     fishface_update_loop := fishface_update_loop w;
     timers := timers w; next_timer := next_timer w;
     requests := requests w; console := l |}.

(** ** Actions: state passing with exceptions *)

Inductive exn : Type :=
| TypeError.

(** An action ends by returning or by throwing; the page it leaves behind
    holds whatever it changed before. *)
Inductive outcome (A : Type) : Type :=
| returned (a : A) (p : page)
| thrown (e : exn) (p : page).

Arguments returned {A} a p.
Arguments thrown {A} e p.

Definition action (A : Type) : Type := page -> outcome A.

Definition ret {A : Type} (a : A) : action A := fun p => returned a p.

Definition bind {A B : Type} (m : action A) (k : A -> action B) : action B :=
  fun p =>
    match m p with
    | returned a p' => k a p'
    | thrown e p' => thrown e p'
    end.

Definition throw {A : Type} (e : exn) : action A := fun p => thrown e p.

Declare Scope action_scope.
Delimit Scope action_scope with action.
Notation "x <- m ;; k" := (bind m (fun x => k))
  (at level 61, m at next level, right associativity) : action_scope.
Notation "m ;; k" := (bind m (fun _ => k))
  (at level 61, right associativity) : action_scope.
Open Scope action_scope.

Definition read {A : Type} (f : page -> A) : action A :=
  fun p => returned (f p) p.

Definition update (f : page -> page) : action unit :=
  fun p => returned tt (f p).

(** [if (c) { m }] *)
Definition when (c : bool) (m : action unit) : action unit :=
  if c then m else ret tt.

(** [for (var i in a) { body(a[i]) }] over an array *)
Fixpoint for_in {A : Type} (a : list A) (body : A -> action unit)
  : action unit :=
  match a with
  | [] => ret tt
  | x :: rest => body x ;; for_in rest body
  end.

Definition page_of {A : Type} (o : outcome A) : page :=
  match o with
  | returned _ p => p
  | thrown _ p => p
  end.

Definition completes {A : Type} (o : outcome A) : bool :=
  match o with
  | returned _ _ => true
  | thrown _ _ => false
  end.

(** The page an event handler leaves behind. *)
Definition run (m : action unit) (p : page) : page := page_of (m p).

(** ** The browser and jQuery calls the script makes *)

(** [$('#xp_display_wrapper').attr('data-xp_id')] *)
Definition attr_data_xp_id : action value :=
  read (fun p => match data_xp_id (doc p) with
                 | Some s => Str s
                 | None => Undefined
                 end).

(** [$('#xp_display_wrapper').attr('data-xp_id', v)]: the value is stored as
    a text; [null] removes the attribute and [undefined] sets nothing. *)
Definition attr_set (v : value) (d : document) : document :=
  match v with
  | Undefined => d
  | Null => set_data_xp_id None d
  | _ => set_data_xp_id (Some (to_string v)) d
  end.

Definition attr_data_xp_id_set (v : value) : action unit :=
  update (with_doc (attr_set v)).

(** [$('#id').css(prop, v)] and [$('#id').css(prop)] *)
Definition css (id prop v : string) : action unit :=
  update (with_doc (set_style id prop v)).

Definition css_get (id prop : string) : action value :=
  read (fun p => Str (style (doc p) id prop)).

(** [$('#id').html(v)]; with [undefined] the call only reads. *)
Definition html_set (id : string) (v : option string) (d : document)
  : document :=
  match v with
  | Some s => set_inner_html id s d
  | None => d
  end.

Definition html (id : string) (v : option string) : action unit :=
  update (with_doc (html_set id v)).

(** [$('#capture_job_queue')]: [.empty()], [.append(chunk)] and
    [.html('<li id="queue_placeholder">No queued jobs.</li>')]. *)
Definition cjq_empty : action unit :=
  update (with_doc (set_capture_job_queue [])).

Definition cjq_append (chunk : node) : action unit :=
  update (with_doc (fun d =>
    set_capture_job_queue (capture_job_queue d ++ [chunk]) d)).

Definition cjq_html_queue_placeholder : action unit :=
  update (with_doc (set_capture_job_queue [queue_placeholder])).

(** [$('#queue_placeholder').remove()]: an id selects the first element
    that carries it. *)
Fixpoint without_queue_placeholder (l : list node) : list node :=
  match l with
  | [] => []
  | queue_placeholder :: rest => rest
  | n :: rest => n :: without_queue_placeholder rest
  end.

Definition queue_placeholder_remove : action unit :=
  update (with_doc (fun d =>
    set_capture_job_queue (without_queue_placeholder (capture_job_queue d)) d)).

(** [ui.item.remove()] *)
Fixpoint without_item (i : nat) (l : list node) : list node :=
  match l, i with
  | [], _ => []
  | _ :: rest, O => rest
  | n :: rest, S k => n :: without_item k rest
  end.

Definition item_remove (ui : sortable_ui) : action unit :=
  update (with_doc (fun d =>
    set_capture_job_queue (without_item (item ui) (capture_job_queue d)) d)).

(** The notice appended to [#xp_display_wrapper], and
    [$('#no_change_during_run').remove()]. *)
Definition no_change_during_run_append : action unit :=
  update (with_doc (fun d =>
    set_no_change_during_run (S (no_change_during_run d)) d)).

Definition no_change_during_run_remove : action unit :=
  update (with_doc (fun d =>
    set_no_change_during_run (pred (no_change_during_run d)) d)).

(** [window.setTimeout], [window.setInterval] and [clearInterval]: timers
    get fresh increasing handles, and clearing an unknown handle does
    nothing. *)
Definition add_timer (again : bool) (f : timer_callback) (ms : Z) : action nat :=
  fun p =>
    let h := next_timer (win p) in
    let t := {| timer_id := h; repeats := again; delay := ms; callback := f |} in
    returned h (with_win (set_timers (timers (win p) ++ [t]) (S h)) p).

Definition setTimeout (f : timer_callback) (ms : Z) : action nat :=
  add_timer false f ms.

Definition setInterval (f : timer_callback) (ms : Z) : action nat :=
  add_timer true f ms.

Definition without_timer (h : nat) (l : list timer) : list timer :=
  filter (fun t => negb (timer_id t =? h)%nat) l.

Definition clear_timer (handle : option nat) (w : window_globals)
  : window_globals :=
  match handle with
  | Some h => set_timers (without_timer h (timers w)) (next_timer w) w
  | None => w
  end.

Definition clearInterval (handle : option nat) : action unit :=
  update (with_win (clear_timer handle)).

Definition console_log (s : string) : action unit :=
  update (with_win (fun w => set_console (console w ++ [s]) w)).

(** Modelled from the spec: [window.ff.celery_async], the transport to the
    Remote Job Controller, is defined outside this file.  It issues the
    named operation; the model records the call with its completion
    callback and its further arguments as they are passed. *)
Definition celery_async (name : string) (f : completion) (rest : list argument)
  : action unit :=
  update (with_win (fun w =>
    set_requests
      (requests w ++ [{| task := name; done := f; arguments := rest |}]) w)).

(** Modelled from the spec: the input of an operation is the argument that
    [celery_async] receives right after the callback, the place where
    [push_entire_queue] (lines 112 to 120) passes the queue object and
    [repop_now] (line 156) the empty object; the argument after it is a
    flag. *)
Definition data_argument (r : request) : option argument :=
  hd_error (arguments r).

(** Modelled from the spec: [cq_util.cjt_li_chunk_from_job_spec] is defined
    outside this file.  It builds the list item that shows one job
    specification.  A [node] stands for an item by the job specification
    that [cq_util] reads off it; that the item built for a specification
    reads back as that specification is this model's reading of the
    working copy, and no statement below composes the two. *)
Definition cjt_li_chunk_from_job_spec (job_spec : JobSpec) : node :=
  job_item job_spec.

(** Modelled from the spec: [cq_util.get_queue_array] is defined outside
    this file.  It reads the working copy of the queue off the list: the
    job specifications of its items, in order. *)
Fixpoint queue_array_of (l : list node) : list JobSpec :=
  match l with
  | [] => []
  | queue_placeholder :: rest => queue_array_of rest
  | job_item j :: rest => j :: queue_array_of rest
  end.

Definition get_queue_array : action (list JobSpec) :=
  read (fun p => queue_array_of (capture_job_queue (doc p))).

(** Modelled from the spec: [cq_util.no_jobs_placeholder] is defined outside
    this file.  It shows the empty-queue placeholder when the working copy
    is empty. *)
Definition no_jobs_placeholder : action unit :=
  queue_array <- get_queue_array ;;
  match queue_array with
  | [] => cjq_html_queue_placeholder
  | _ => ret tt
  end.

(** [a != []]: an array is compared with a newly built one by identity, so
    the two always differ. *)
Definition differs_from_new_array {A : Type} (a : list A) : bool := true.

(** [data.queue.length]: reading a property of a missing field throws. *)
Definition queue_length (data : QueueSnapshot) : action nat :=
  match queue data with
  | Some q => ret (length q)
  | None => throw TypeError
  end.

Definition present {A : Type} (o : option A) : bool :=
  match o with
  | Some _ => true
  | None => false
  end.

(** ** The script *)

Section Script.

Variable numeral : string -> option Z.

Definition get_xp_id : action value :=
  get_xp_id <- attr_data_xp_id ;;
  if loose_eq numeral get_xp_id (Str "") then ret (Bool false)
  else ret get_xp_id.

Definition check_xp_id : action value :=
  check_xp_id <- get_xp_id ;;
  if loose_neq numeral check_xp_id (Str "")
     && loose_neq numeral check_xp_id (Str "false")
  then
    css "capturejob_queue_wrapper" "display" "block" ;;
    names <- read (fun p => xp_names (ff p)) ;;
    html "xp_id_header" (names (to_string check_xp_id)) ;;
    css "xp_display_wrapper" "display" "block" ;;
    css "xp_select_wrapper" "display" "none" ;;
    ret check_xp_id
  else
    css "capturejob_queue_wrapper" "display" "none" ;;
    css "xp_display_wrapper" "display" "none" ;;
    css "xp_select_wrapper" "display" "block" ;;
    ret (Bool false).

Definition repop_now : action unit :=
  celery_async "cjc.complete_status" then_repopulate_fields
    [empty_object; boolean true].

(** The two functions below return an empty function that no caller
    uses. *)
Definition repop_in_milliseconds (msec : Z) : action unit :=
  _ <- setTimeout call_repop_now msec ;;
  ret tt.

Definition repop_in_1_second : action unit :=
  _ <- setTimeout call_repop_now 1000 ;;
  ret tt.

Definition start_periodic_monitor : action unit :=
  monitoring <- read (fun p => fishface_monitoring (win p)) ;;
  when (loose_eq numeral (Bool monitoring) (Bool false)) (
    loop <- setInterval call_repop_now 500 ;;
    update (with_win (set_fishface_update_loop (Some loop))) ;;
    update (with_win (set_fishface_monitoring true))).

Definition stop_periodic_monitor : action unit :=
  loop <- read (fun p => fishface_update_loop (win p)) ;;
  clearInterval loop ;;
  update (with_win (set_fishface_monitoring false)).

(** Lines 16 to 29 of [repopulate_fields]: a job is running. *)
Definition render_current_job (cj : CurrentJob) : action unit :=
  css "current_job_wrapper" "display" "block" ;;
  html "current_job_status" (cj_status cj) ;;
  html "current_job_remaining_total"
    (Some (to_string (concat (concat (cj_remaining cj) (Str "/")) (cj_total cj)))) ;;
  html "current_job_psu_setting"
    (Some (to_string
       (concat (concat (concat (cj_voltage cj) (Str "V with a maximum of "))
                       (cj_current cj)) (Str "A")))) ;;
  html "current_job_seconds_left"
    (Some (to_string (concat (Str "") (cj_seconds_left cj)))) ;;
  let slug :=
    if defined (cj_cjr_id cj)
    then concat (concat (concat (concat (Str "(XP_") (cj_xp_id cj)) (Str "_CJR_"))
                        (cj_cjr_id cj)) (Str ")")
    else Str "" in
  html "current_job_slug" (Some (to_string slug)) ;;
  update (with_ff (set_push_queue_on_update (Bool true))) ;;
  start_periodic_monitor.

(** Lines 31 to 34: no job is running. *)
Definition render_no_current_job (data : QueueSnapshot) : action unit :=
  update (with_ff (set_push_queue_on_update (Bool false))) ;;
  css "current_job_wrapper" "display" "none" ;;
  css "go_button" "background-color" "" ;;
  when (negb (present (staged_job data))) stop_periodic_monitor.

(** Lines 37 to 46: the staged job. *)
Definition render_staged_job (data : QueueSnapshot) : action unit :=
  match staged_job data with
  | Some sj =>
      css "staged_job_wrapper" "display" "block" ;;
      html "staged_job_status" (sj_status sj) ;;
      html "staged_job_psu_setting"
        (Some (to_string
           (concat (concat (concat (sj_voltage sj) (Str "V with a maximum of "))
                           (sj_current sj)) (Str "A"))))
  | None => css "staged_job_wrapper" "display" "none"
  end.

(** Lines 48 to 59: the queue. *)
Definition render_queue (data : QueueSnapshot) (repop_xp_id : value)
  : action unit :=
  len <- queue_length data ;;
  if (0 <? len)%nat && to_boolean repop_xp_id then
    cjq_empty ;;
    for_in (match queue data with Some dq => dq | None => [] end)
      (fun job_spec => cjq_append (cjt_li_chunk_from_job_spec job_spec)) ;;
    queue_placeholder_remove
  else cjq_html_queue_placeholder.

(** Lines 5 to 8: the snapshot's experiment is taken over when a job is
    running. *)
Definition adopt_xp_id (data : QueueSnapshot) : action unit :=
  let temp_xp_id := xp_id data in
  when (defined temp_xp_id && present (current_job data))
    (attr_data_xp_id_set temp_xp_id).

(** Lines 13 to 59: the body of [if (repop_xp_id != false)]. *)
Definition render_fields (data : QueueSnapshot) (repop_xp_id : value)
  : action unit :=
  css "capturejob_queue_wrapper" "display" "block" ;;
  match current_job data with
  | Some cj => render_current_job cj
  | None => render_no_current_job data
  end ;;
  render_staged_job data ;;
  render_queue data repop_xp_id.

Definition repopulate_fields (data : QueueSnapshot) : action unit :=
  adopt_xp_id data ;;
  repop_xp_id <- check_xp_id ;;
  when (loose_neq numeral repop_xp_id (Bool false))
    (render_fields data repop_xp_id).

Definition change_experiment : action unit :=
  shown <- css_get "current_job_wrapper" "display" ;;
  if loose_eq numeral shown (Str "none") then
    attr_data_xp_id_set (Str "") ;;
    _ <- check_xp_id ;;
    ret tt
  else
    no_change_during_run_append ;;
    _ <- setTimeout call_remove_no_change_during_run 3000 ;;
    ret tt.

Definition push_entire_queue : action unit :=
  queue_array <- get_queue_array ;;
  when (differs_from_new_array queue_array) (
    xp_id <- get_xp_id ;;
    species <- read (fun p => xp_species (ff p)) ;;
    celery_async "cjc.set_queue" then_repop_in_1_second
      [queue_object (as_array queue_array) xp_id (species (to_string xp_id))]).

Definition start_queue : action unit :=
  css "go_button" "background-color" "green" ;;
  push_entire_queue.

Definition clear_queue : action unit :=
  xp_id <- get_xp_id ;;
  push <- read (fun p => push_queue_on_update (ff p)) ;;
  if to_boolean push then
    species <- read (fun p => xp_species (ff p)) ;;
    celery_async "cjc.set_queue" then_repop_in_1_second
      [boolean false;
       queue_object (as_text "[]") xp_id (species (to_string xp_id))]
  else cjq_html_queue_placeholder.

Definition abort_all : action unit :=
  console_log "Aborting all!" ;;
  celery_async "cjc.abort_all" then_repop_in_1_second [].

(** The submit handler of [#xp_select_form]; [checked] is the value of the
    checked radio button, an experiment key, or [None] when no button is
    checked (unary plus then gives NaN). *)
Definition xp_select_form_submit (checked : option Z) : action unit :=
  let xp_id := match checked with
               | Some z => Num (Int z)
               | None => Num NaN
               end in
  attr_data_xp_id_set xp_id ;;
  _ <- check_xp_id ;;
  repop_now.

(** The handlers given to [$('#capture_job_queue').sortable]. *)
Definition sortable_start : action unit := stop_periodic_monitor.

Definition sortable_over : action unit :=
  update (with_ff (set_keep_job_in_queue (Num (Int 1)))).

Definition sortable_out : action unit :=
  update (with_ff (set_keep_job_in_queue (Num (Int 0)))).

Definition sortable_update : action unit :=
  queue_placeholder_remove ;;
  push <- read (fun p => push_queue_on_update (ff p)) ;;
  when (loose_eq numeral push (Bool true)) (
    push_entire_queue ;;
    repop_now ;;
    start_periodic_monitor) ;;
  no_jobs_placeholder.

Definition sortable_beforeStop (ui : sortable_ui) : action unit :=
  keep <- read (fun p => keep_job_in_queue (ff p)) ;;
  if loose_eq numeral keep (Num (Int 0)) then
    item_remove ui ;;
    queue_array <- get_queue_array ;;
    when (length queue_array =? 0)%nat no_jobs_placeholder ;;
    push <- read (fun p => push_queue_on_update (ff p)) ;;
    when (loose_eq numeral push (Bool true)) (
      push_entire_queue ;;
      repop_now ;;
      start_periodic_monitor)
  else
    update (with_ff (set_new_item (Some (item ui)) (helper_attrib_job_spec ui))).

(** Lines 279 to 283, run once when the document is ready.  (Line 281
    checks the last radio button of the selector form, whose value reaches
    the script when the form is submitted; line 285 refreshes the saved
    queues kept by [cq_util].) *)
Definition ready : action unit :=
  update (with_win (set_fishface_monitoring false)) ;;
  repop_now.

(** ** Events *)

(** A timer comes due: a timeout is spent (it leaves the pending timers as
    a cleared one does), an interval stays. *)
Definition timer_callback_run (f : timer_callback) : action unit :=
  match f with
  | call_repop_now => repop_now
  | call_remove_no_change_during_run => no_change_during_run_remove
  end.

Definition fire (t : timer) : action unit :=
  when (negb (repeats t)) (clearInterval (Some (timer_id t))) ;;
  timer_callback_run (callback t).

(** A controller call completes: its callback runs, [repopulate_fields] on
    the snapshot that came back. *)
Definition complete (r : request) (data : QueueSnapshot) : action unit :=
  match done r with
  | then_repop_in_1_second => repop_in_1_second
  | then_repopulate_fields => repopulate_fields data
  end.

(** The bindings of lines 191 to 213 and 219 to 276, one constructor for
    each handler embedded above.  Three handlers that the script binds are
    not among them.  [receive] (lines 271 to 274) writes the
    [data-attrib_job_spec] attribute of the element kept in
    [window.ff.new_item] and sets [window.ff.keep_job_in_queue] to 1;
    [stop] (lines 248 to 253) changes the classes of the dropped element;
    the click on a [.queue_loader] (lines 201 to 205) calls
    [cq_util.load_queue], which is not in this file.  A [node] is the job
    specification read off an element, not the element with its attribute
    text, its classes and its identity, and [new_item] keeps a position,
    so these three have no transformer on the page record; statements
    over [intent] speak of the handlers listed here. *)
Inductive intent : Type :=
| change_xp_button_click
| go_button_click
| clear_queue_button_click
| abort_all_button_click
| refresh_button_click
| monitor_button_click
| monitor_stop_button_click
| xp_select_form_submitted (checked : option Z)
| sortable_started
| sortable_went_over
| sortable_went_out
| sortable_updated
| sortable_about_to_stop (ui : sortable_ui).

Definition handler (i : intent) : action unit :=
  match i with
  | change_xp_button_click => change_experiment
  | go_button_click => start_queue
  | clear_queue_button_click => clear_queue
  | abort_all_button_click => abort_all
  | refresh_button_click => repop_now
  | monitor_button_click => start_periodic_monitor
  | monitor_stop_button_click => stop_periodic_monitor
  | xp_select_form_submitted checked => xp_select_form_submit checked
  | sortable_started => sortable_start
  | sortable_went_over => sortable_over
  | sortable_went_out => sortable_out
  | sortable_updated => sortable_update
  | sortable_about_to_stop ui => sortable_beforeStop ui
  end.

(** Everything the page reacts to. *)
Inductive event : Type :=
| user (i : intent)
| timer_due (t : timer)
| completed (r : request) (data : QueueSnapshot).

Definition react (e : event) : action unit :=
  match e with
  | user i => handler i
  | timer_due t => fire t
  | completed r data => complete r data
  end.

(** A sequence of snapshots applied one after the other; a call that
    throws leaves the page as it was when it threw. *)
Definition apply_all (snapshots : list QueueSnapshot) (p : page) : page :=
  fold_left (fun q data => run (repopulate_fields data) q) snapshots p.

End Script.

(** ** Reading the decision of [repopulate_fields] off a page *)

Section Selection.

Variable numeral : string -> option Z.

(** The value [get_xp_id] returns for a stored attribute. *)
Definition stored_xp_id (stored : option string) : value :=
  match stored with
  | Some s => if loose_eq numeral (Str s) (Str "") then Bool false else Str s
  | None => Undefined
  end.

(** The value [check_xp_id] returns for a stored attribute. *)
Definition checked_xp_id (stored : option string) : value :=
  let v := stored_xp_id stored in
  if loose_neq numeral v (Str "") && loose_neq numeral v (Str "false")
  then v else Bool false.

(** The attribute once lines 5 to 8 of [repopulate_fields] have run. *)
Definition adopted_xp_id (data : QueueSnapshot) (stored : option string)
  : option string :=
  if defined (xp_id data) && present (current_job data)
  then Some (to_string (xp_id data)) else stored.

(** Whether [repopulate_fields data] gets past [repop_xp_id != false] on
    page [p]. *)
Definition experiment_selected (data : QueueSnapshot) (p : page) : bool :=
  loose_neq numeral
    (checked_xp_id (adopted_xp_id data (data_xp_id (doc p)))) (Bool false).

End Selection.

(** The pending interval of the recurring monitor with handle [h]. *)
Definition monitor_interval (h : nat) : timer :=
  {| timer_id := h; repeats := true; delay := 500; callback := call_repop_now |}.

(** The one-shot re-poll with handle [h]. *)
Definition one_shot_repoll (h : nat) : timer :=
  {| timer_id := h; repeats := false; delay := 1000; callback := call_repop_now |}.

(** The timeout that takes the notice of [change_experiment] away. *)
Definition notice_dismissal (h : nat) : timer :=
  {| timer_id := h; repeats := false; delay := 3000;
     callback := call_remove_no_change_during_run |}.

Definition fetch_status : request :=
  {| task := "cjc.complete_status"; done := then_repopulate_fields;
     arguments := [empty_object; boolean true] |}.

(** The call of [push_entire_queue], and the call of [clear_queue]. *)
Definition replace_queue (q : list JobSpec) (xp species : value) : request :=
  {| task := "cjc.set_queue"; done := then_repop_in_1_second;
     arguments := [queue_object (as_array q) xp species] |}.

Definition clear_queue_request (xp species : value) : request :=
  {| task := "cjc.set_queue"; done := then_repop_in_1_second;
     arguments := [boolean false; queue_object (as_text "[]") xp species] |}.

Definition abort_all_request : request :=
  {| task := "cjc.abort_all"; done := then_repop_in_1_second; arguments := [] |}.

(** The calls that change the controller's state. *)
Definition mutating (r : request) : bool :=
  (task r =? "cjc.set_queue") || (task r =? "cjc.abort_all").

(** The calls an action adds to the log. *)
Definition issued (m : action unit) (p : page) : list request :=
  skipn (length (requests (win p))) (requests (win (run m p))).

(** ** Sample pages and snapshots *)

Definition sample_spec (v : Z) : JobSpec :=
  {| js_voltage := Num (Int v); js_current := Num (Int 2);
     js_species := Str "HP" |}.

Definition sample_current_job : CurrentJob :=
  {| cj_status := Some "running"; cj_remaining := Num (Int 3);
     cj_total := Num (Int 10); cj_voltage := Num (Int 12);
     cj_current := Num (Int 2); cj_seconds_left := Num (Int 45);
     cj_xp_id := Num (Int 5); cj_cjr_id := Num (Int 7) |}.

(** A page with the given experiment attribute, push flag, display of the
    current-job panel and queue list; no timer is pending and no call has
    been made. *)
Definition sample_page (stored : option string) (push : value)
  (panel : string) (l : list node) : page :=
  {| doc := {| data_xp_id := stored;
               style := fun i q =>
                 if (i =? "current_job_wrapper") && (q =? "display")
                 then panel else "";
               inner_html := fun _ => "";
               capture_job_queue := l;
               no_change_during_run := 0 |};
     ff := {| push_queue_on_update := push;
              keep_job_in_queue := Num (Int 1);
              new_item := None; attrib_job_spec := None;
              xp_names := fun _ => None;
              xp_species := fun _ => Undefined |};
     win := {| fishface_monitoring := false; fishface_update_loop := None;
               timers := []; next_timer := 1;
               requests := []; console := [] |} |}.

Definition running_snapshot (xp : value) : QueueSnapshot :=
  {| xp_id := xp; current_job := Some sample_current_job;
     staged_job := None; queue := Some [] |}.

Definition idle_snapshot (xp : value) (q : option (list JobSpec))
  : QueueSnapshot :=
  {| xp_id := xp; current_job := None; staged_job := None; queue := q |}.

Definition staged_snapshot (xp : value) : QueueSnapshot :=
  {| xp_id := xp; current_job := None;
     staged_job := Some {| sj_status := Some "staged";
                           sj_voltage := Num (Int 12);
                           sj_current := Num (Int 2) |};
     queue := Some [] |}.

(** The page on which [repopulate_fields data] takes its decision: the
    experiment is adopted and [check_xp_id] has run. *)
Definition checked_page (numeral : string -> option Z) (data : QueueSnapshot)
  (p : page) : page :=
  page_of (check_xp_id numeral
    (with_doc (set_data_xp_id (adopted_xp_id data (data_xp_id (doc p)))) p)).

(** What [start_periodic_monitor] and [stop_periodic_monitor] make of the
    window globals. *)
Definition armed (w : window_globals) : window_globals :=
  if fishface_monitoring w then w
  else
    set_fishface_monitoring true
      (set_fishface_update_loop (Some (next_timer w))
         (set_timers (timers w ++ [monitor_interval (next_timer w)])
            (S (next_timer w)) w)).

Definition disarmed (w : window_globals) : window_globals :=
  set_fishface_monitoring false (clear_timer (fishface_update_loop w) w).

(** The intervals among the pending timers. *)
Definition intervals (w : window_globals) : list timer :=
  filter repeats (timers w).

(** What a push on drop leaves in the window globals [w] of a page that was
    [p] before: the replace-queue call with the working copy shown by [l],
    then the immediate fetch, and the monitor armed. *)
Definition pushed_on_drop (numeral : string -> option Z) (l : list node)
  (p : page) (w : window_globals) : Prop :=
  let xp := stored_xp_id numeral (data_xp_id (doc p)) in
  requests w
  = requests (win p)
    ++ [replace_queue (queue_array_of l) xp
          (xp_species (ff p) (to_string xp));
        fetch_status]
  /\ fishface_monitoring w = true
  /\ timers w = timers (armed (win p)).

(** A call that changes the controller's state is answered by the one-shot
    re-poll. *)
Definition answered_by_repoll (r : request) : Prop :=
  mutating r = true -> done r = then_repop_in_1_second.

(** What the completion of the call [r] does, on every page: exactly one
    timeout of 1000 ms running [repop_now] is added and no call is made
    yet; when that timeout comes due it makes one status fetch. *)
Definition repolled_on_completion (numeral : string -> option Z) (r : request)
  : Prop :=
  forall (data : QueueSnapshot) (q : page),
    let q' := run (complete numeral r data) q in
    let due := one_shot_repoll (next_timer (win q)) in
    timers (win q') = timers (win q) ++ [due]
    /\ requests (win q') = requests (win q)
    /\ requests (win (run (fire due) q')) = requests (win q) ++ [fetch_status].

(** What a handler that pushes leaves behind, on page [q] reached from
    [p]: the log has grown by exactly the replace-queue call carrying
    [copy] with the stored experiment and its species, and by a status
    fetch right after it; the completion of that call schedules the
    one-shot re-poll; the monitor is running, on the interval it had or on
    a new one. *)
Definition pushed_and_repolled (numeral : string -> option Z)
  (copy : list JobSpec) (p q : page) : Prop :=
  let xp := stored_xp_id numeral (data_xp_id (doc p)) in
  let call := replace_queue copy xp (xp_species (ff p) (to_string xp)) in
  requests (win q) = requests (win p) ++ [call; fetch_status]
  /\ repolled_on_completion numeral call
  /\ fishface_monitoring (win q) = true
  /\ timers (win q) = timers (armed (win p)).

(** The list once an edit left [l]: the placeholder alone when no job is
    left in it. *)
Definition after_edit (l : list node) : list node :=
  match queue_array_of l with
  | [] => [queue_placeholder]
  | _ => l
  end.

(** The calls of a log that replace the queue. *)
Definition replace_queue_calls (log : list request) : list request :=
  filter (fun r => task r =? "cjc.set_queue") log.

(** ** Consistency of the timers with the monitor's globals *)

(** Handles are fresh and distinct, a pending timer that carries the
    stored handle is the monitor's interval, and the intervals pending are
    that one interval while the monitoring flag is set and none while it is
    clear. *)
Record monitor_consistent (w : window_globals) : Prop := {
  handles_below :
    forall t, In t (timers w) -> (timer_id t < next_timer w)%nat;
  handles_distinct : NoDup (map timer_id (timers w));
  stored_handle_below :
    forall h, fishface_update_loop w = Some h -> (h < next_timer w)%nat;
  stored_handle_interval :
    forall t, In t (timers w) ->
      fishface_update_loop w = Some (timer_id t) ->
      t = monitor_interval (timer_id t);
  pending_intervals :
    match fishface_monitoring w, fishface_update_loop w with
    | true, Some h => intervals w = [monitor_interval h]
    | true, None => False
    | false, _ => intervals w = []
    end
}.

(** The ways the script changes the window globals. *)
Inductive win_change : window_globals -> window_globals -> Prop :=
| change_none (w : window_globals) : win_change w w
| change_log (l : list request) (w : window_globals) :
    win_change w (set_requests l w)
| change_console (l : list string) (w : window_globals) :
    win_change w (set_console l w)
| change_armed (w : window_globals) : win_change w (armed w)
| change_disarmed (w : window_globals) : win_change w (disarmed w)
| change_timeout (f : timer_callback) (ms : Z) (w : window_globals) :
    win_change w
      (set_timers
         (timers w ++ [{| timer_id := next_timer w; repeats := false;
                          delay := ms; callback := f |}])
         (S (next_timer w)) w)
| change_spent (t : timer) (w : window_globals) :
    In t (timers w) -> repeats t = false ->
    win_change w (clear_timer (Some (timer_id t)) w)
| change_then (w1 w2 w3 : window_globals) :
    win_change w1 w2 -> win_change w2 w3 -> win_change w1 w3.

(** An action changes the window globals in those ways only. *)
Definition changes {A : Type} (m : action A) : Prop :=
  forall p, win_change (win p) (win (page_of (m p))).

(** A run of events, and the condition that a timer comes due only while
    it is pending. *)
Definition run_events (numeral : string -> option Z) (es : list event)
  (p : page) : page :=
  fold_left (fun q e => run (react numeral e) q) es p.

Definition due_is_pending (e : event) (p : page) : Prop :=
  match e with
  | timer_due t => In t (timers (win p))
  | _ => True
  end.

Fixpoint dues_are_pending (numeral : string -> option Z) (es : list event)
  (p : page) : Prop :=
  match es with
  | [] => True
  | e :: rest =>
      due_is_pending e p
      /\ dues_are_pending numeral rest (run (react numeral e) p)
  end.

(** Named sample pages: no experiment chosen yet; experiment 5 chosen and
    nothing running; experiment 5 chosen, a job running, three jobs
    queued. *)
Definition page_without_experiment : page :=
  sample_page (Some "") (Bool false) "none" [queue_placeholder].

Definition page_with_experiment : page :=
  sample_page (Some "5") (Bool false) "none" [queue_placeholder].

Definition page_with_running_job : page :=
  sample_page (Some "5") (Bool true) "block"
    [job_item (sample_spec 3); job_item (sample_spec 4);
     job_item (sample_spec 6)].

(** A page the user reaches with the monitor running and no experiment
    selected: with experiment 5 chosen a job runs (the monitor starts), then
    the job is over while another is staged (the monitor goes on), then the
    user presses the change-experiment button. *)
Definition page_monitored_without_experiment : page :=
  run_events read_integer
    [completed fetch_status (running_snapshot (Num (Int 5)));
     completed fetch_status (staged_snapshot (Num (Int 5)));
     user change_xp_button_click]
    page_with_experiment.

(** ** Which events write what *)

(** The events that apply a snapshot: a completed call whose callback is
    [repopulate_fields]. *)
Definition applies_snapshot (e : event) : bool :=
  match e with
  | completed r _ =>
      match done r with
      | then_repopulate_fields => true
      | then_repop_in_1_second => false
      end
  | _ => false
  end.

(** The events that may write the stored experiment id. *)
Definition writes_experiment (e : event) : bool :=
  match e with
  | user change_xp_button_click => true
  | user (xp_select_form_submitted _) => true
  | _ => applies_snapshot e
  end.

(** Events that leave the children of the queue list alone. *)
Definition leaves_queue_list (e : event) : bool :=
  match e with
  | user go_button_click | user abort_all_button_click
  | user refresh_button_click | user monitor_button_click
  | user monitor_stop_button_click | user change_xp_button_click
  | user (xp_select_form_submitted _) | user sortable_started
  | user sortable_went_over | user sortable_went_out => true
  | user _ => false
  | timer_due _ => true
  | completed _ _ => negb (applies_snapshot e)
  end.

(** The three timers the handlers set: the monitor's interval (line 176),
    the one-shot re-poll (line 165) and the dismissal of the notice
    (line 73). *)
Definition known_timer (t : timer) : bool :=
  match repeats t, callback t with
  | true, call_repop_now => (delay t =? 500)%Z
  | false, call_repop_now => (delay t =? 1000)%Z
  | false, call_remove_no_change_during_run => (delay t =? 3000)%Z
  | true, call_remove_no_change_during_run => false
  end.

(** The four calls the handlers make: the status fetch (line 156), the
    queue push (line 112), the queue clearing (line 128) and the abort
    (line 171). *)
Definition known_request (r : request) : bool :=
  match done r, arguments r with
  | then_repopulate_fields, [empty_object; boolean true] =>
      task r =? "cjc.complete_status"
  | then_repop_in_1_second, [queue_object (as_array _) _ _] =>
      task r =? "cjc.set_queue"
  | then_repop_in_1_second, [boolean false; queue_object (as_text s) _ _] =>
      (task r =? "cjc.set_queue") && (s =? "[]")
  | then_repop_in_1_second, [] => task r =? "cjc.abort_all"
  | _, _ => false
  end.

(** An action maintains a property of the window globals. *)
Definition maintains {A : Type} (P : window_globals -> Prop) (m : action A)
  : Prop :=
  forall p, P (win p) -> P (win (page_of (m p))).

Definition timers_known (w : window_globals) : Prop :=
  forallb known_timer (timers w) = true.

Definition requests_known (w : window_globals) : Prop :=
  forallb known_request (requests w) = true.

(** Two pages that store the same experiment id and have the same table of
    experiment names: [check_xp_id] and the rendering take the same
    decisions on both. *)
Definition same_experiment (p p' : page) : Prop :=
  data_xp_id (doc p) = data_xp_id (doc p')
  /\ xp_names (ff p) = xp_names (ff p').

(** Run on two such pages, an action ends the same way on both, and an
    observation [f] is afterwards either the same on both, or on each what
    it was before. *)
Definition settled {B : Type} (f : page -> B) (p p' q q' : page) : Prop :=
  same_experiment q q'
  /\ (f q = f q' \/ (f q = f p /\ f q' = f p')).

Definition twin {A B : Type} (f : page -> B) (m : action A) : Prop :=
  forall p p', same_experiment p p' ->
    match m p, m p' with
    | returned a q, returned a' q' => a = a' /\ settled f p p' q q'
    | thrown _ q, thrown _ q' => settled f p p' q q'
    | _, _ => False
    end.

(** The texts of the current-job panel and of the staged-job panel, by the
    ids of their elements. *)
Definition current_job_texts : list string :=
  ["current_job_status"; "current_job_remaining_total";
   "current_job_psu_setting"; "current_job_seconds_left"; "current_job_slug"].

Definition staged_job_texts : list string :=
  ["staged_job_status"; "staged_job_psu_setting"].

(** The values the push flag takes: unset, or a boolean. *)
Definition flag_like (v : value) : bool :=
  match v with
  | Undefined | Null | Bool _ => true
  | _ => false
  end.

(** The timeouts of the notices with the given handles coming due. *)
Definition dismissals (hs : list nat) : list event :=
  map (fun h => timer_due (notice_dismissal h)) hs.

(** The [stop] handler of the sortable list (lines 248 to 253) works on the
    classes of the dropped item alone.  [hasClass], [removeClass] and
    [addClass] of jQuery on the list of an element's classes: removing
    takes every occurrence away, adding appends the class unless the
    element has it. *)
Definition hasClass (c : string) (classes : list string) : bool :=
  existsb (String.eqb c) classes.

Definition removeClass (c : string) (classes : list string) : list string :=
  filter (fun x => negb (x =? c)) classes.

Definition addClass (c : string) (classes : list string) : list string :=
  if hasClass c classes then classes else classes ++ [c].

Definition sortable_stop (item_classes : list string) : list string :=
  if hasClass "fresh_cjt" item_classes
  then addClass "job_queue_item" (removeClass "fresh_cjt" item_classes)
  else item_classes.

(** ** Frames *)

(** An action keeps an observation when running it, to its return or to
    its throw, leaves the observation as it was. *)
Definition keeps {A B : Type} (f : page -> B) (m : action A) : Prop :=
  forall p, f (page_of (m p)) = f p.

Lemma keeps_ret {A B : Type} (f : page -> B) (a : A) : keeps f (ret a).
Proof. intro p. reflexivity. Qed.

Lemma keeps_read {A B : Type} (f : page -> B) (g : page -> A) :
  keeps f (read g).
Proof. intro p. reflexivity. Qed.

Lemma keeps_throw {A B : Type} (f : page -> B) (e : exn) :
  keeps f (@throw A e).
Proof. intro p. reflexivity. Qed.

Lemma keeps_update {B : Type} (f : page -> B) (g : page -> page) :
  (forall p, f (g p) = f p) -> keeps f (update g).
Proof. intros H p. apply H. Qed.

Lemma keeps_bind {A B C : Type} (f : page -> C) (m : action A)
  (k : A -> action B) :
  keeps f m -> (forall a, keeps f (k a)) -> keeps f (bind m k).
Proof.
  intros Hm Hk p. unfold bind. specialize (Hm p).
  destruct (m p) as [a p'|e p']; cbn in *.
  - rewrite Hk. exact Hm.
  - exact Hm.
Qed.

Lemma keeps_when {B : Type} (f : page -> B) (c : bool) (m : action unit) :
  keeps f m -> keeps f (when c m).
Proof. intros H. destruct c; [exact H | apply keeps_ret]. Qed.

Lemma keeps_for_in {A B : Type} (f : page -> B) (l : list A)
  (body : A -> action unit) :
  (forall a, keeps f (body a)) -> keeps f (for_in l body).
Proof.
  intros H. induction l as [|x l IH]; cbn.
  - apply keeps_ret.
  - apply keeps_bind; auto.
Qed.

(** The loop of lines 52 to 55 appends one item for each job of the
    snapshot, in order. *)
Lemma for_in_cjq_append (dq : list JobSpec) (p : page) :
  for_in dq
    (fun job_spec p =>
       returned tt
         (with_doc (fun d =>
            set_capture_job_queue
              (capture_job_queue d ++ [cjt_li_chunk_from_job_spec job_spec]) d)
            p)) p
  = returned tt
      (with_doc (fun d =>
         set_capture_job_queue
           (fold_left (fun l j => l ++ [job_item j]) dq (capture_job_queue d)) d)
         p).
Proof.
  revert p. induction dq as [|j dq IH]; intro p; cbn.
  - reflexivity.
  - unfold bind. rewrite IH. reflexivity.
Qed.

Lemma fold_left_job_items (dq : list JobSpec) (l : list node) :
  fold_left (fun l j => l ++ [job_item j]) dq l = l ++ map job_item dq.
Proof.
  revert l. induction dq as [|j dq IH]; intro l; cbn.
  - now rewrite app_nil_r.
  - rewrite IH, <- app_assoc. reflexivity.
Qed.

Lemma without_queue_placeholder_job_items (dq : list JobSpec) :
  without_queue_placeholder (map job_item dq) = map job_item dq.
Proof. induction dq as [|j dq IH]; cbn; [reflexivity | now rewrite IH]. Qed.

(** Taking the placeholder away does not change the working copy. *)
Lemma queue_array_of_without_queue_placeholder (l : list node) :
  queue_array_of (without_queue_placeholder l) = queue_array_of l.
Proof.
  induction l as [|[|j] l IH]; cbn; [reflexivity | reflexivity | now rewrite IH].
Qed.

Lemma without_timer_idempotent (h : nat) (l : list timer) :
  without_timer h (without_timer h l) = without_timer h l.
Proof.
  unfold without_timer. induction l as [|t l IH]; cbn; [reflexivity|].
  destruct (negb (timer_id t =? h)%nat) eqn:E; cbn.
  - rewrite E, IH. reflexivity.
  - exact IH.
Qed.

Lemma skipn_issued {A : Type} (old new : list A) :
  skipn (length old) (old ++ new) = new.
Proof. induction old as [|x old IH]; cbn; [reflexivity | exact IH]. Qed.

(** ** Tactics: running the script symbolically *)

Ltac open_script :=
  unfold repopulate_fields, adopt_xp_id, render_fields, render_current_job,
    render_no_current_job, render_staged_job, render_queue, check_xp_id,
    get_xp_id, change_experiment, push_entire_queue, start_queue, clear_queue,
    abort_all, xp_select_form_submit, sortable_start, sortable_over,
    sortable_out, sortable_update, sortable_beforeStop, repop_now,
    repop_in_1_second, repop_in_milliseconds, start_periodic_monitor,
    stop_periodic_monitor, no_jobs_placeholder, get_queue_array, queue_length,
    attr_data_xp_id, attr_data_xp_id_set, css, css_get, html, cjq_empty,
    cjq_append, cjq_html_queue_placeholder, queue_placeholder_remove,
    item_remove, no_change_during_run_append, no_change_during_run_remove,
    setTimeout, setInterval, clearInterval, console_log, celery_async,
    timer_callback_run, differs_from_new_array.

Ltac settle_update :=
  intro; cbv beta delta [clear_timer html_set attr_set]; cbn;
  repeat match goal with
         | |- context [match ?x with _ => _ end] => destruct x; cbn
         end;
  reflexivity.

Ltac frame_step :=
  match goal with
  | |- keeps _ (bind _ _) => apply keeps_bind; [|intro]
  | |- keeps _ (ret _) => apply keeps_ret
  | |- keeps _ (read _) => apply keeps_read
  | |- keeps _ (throw _) => apply keeps_throw
  | |- keeps _ (when _ _) => apply keeps_when
  | |- keeps _ (for_in _ _) => apply keeps_for_in; intro
  | |- keeps _ (add_timer _ _ _) => intro; reflexivity
  | |- keeps _ (update _) => apply keeps_update; settle_update
  | |- keeps _ (match ?x with _ => _ end) => destruct x
  end.

Ltac frame := repeat progress open_script; repeat frame_step.

Ltac exec :=
  cbv beta iota delta
    [bind update read ret when throw run page_of completes add_timer
     html_set attr_set clear_timer];
  cbn.

Ltac split_case :=
  match goal with
  | |- context [match ?x with _ => _ end] =>
      lazymatch type of x with
      | outcome _ => fail
      | _ => destruct x eqn:?
      end
  end.

Ltac cases :=
  exec; repeat (split_case; exec); try rewrite for_in_cjq_append; exec.

Ltac settle := cbn in *; solve [reflexivity | congruence].

(** One step at a time: the sequencing of actions is unfolded, the script's
    own functions stay folded for their lemmas. *)
Ltac walk :=
  cbv beta iota delta
    [bind update read ret when throw];
  cbn [doc ff win with_doc with_ff with_win run page_of completes].

(** ** Applying a snapshot *)

Section Snapshots.

Variable numeral : string -> option Z.

Lemma check_xp_id_yields (p : page) :
  check_xp_id numeral p
  = returned (checked_xp_id numeral (data_xp_id (doc p)))
      (page_of (check_xp_id numeral p)).
Proof.
  unfold check_xp_id, get_xp_id, checked_xp_id, stored_xp_id, attr_data_xp_id,
    bind, read, ret.
  destruct (data_xp_id (doc p)) as [s|].
  - destruct (loose_eq numeral (Str s) (Str "")).
    + destruct (loose_neq numeral (Bool false) (Str "")
                && loose_neq numeral (Bool false) (Str "false")); reflexivity.
    + destruct (loose_neq numeral (Str s) (Str "")
                && loose_neq numeral (Str s) (Str "false")); reflexivity.
  - reflexivity.
Qed.

Lemma get_xp_id_yields (p : page) :
  get_xp_id numeral p
  = returned (stored_xp_id numeral (data_xp_id (doc p))) p.
Proof.
  unfold get_xp_id, stored_xp_id, attr_data_xp_id, bind, read, ret.
  destruct (data_xp_id (doc p)) as [s|]; [|reflexivity].
  destruct (loose_eq numeral (Str s) (Str "")); reflexivity.
Qed.

Lemma adopt_xp_id_yields (data : QueueSnapshot) (p : page) :
  adopt_xp_id data p
  = returned tt
      (with_doc (set_data_xp_id (adopted_xp_id data (data_xp_id (doc p)))) p).
Proof.
  unfold adopt_xp_id, adopted_xp_id, when, attr_data_xp_id_set.
  destruct (defined (xp_id data) && present (current_job data)) eqn:E.
  - destruct (xp_id data); try discriminate E; reflexivity.
  - reflexivity.
Qed.

(** [repopulate_fields] adopts the experiment, checks it, and renders the
    snapshot on the page so reached if an experiment is selected. *)
Lemma repopulate_fields_checked (data : QueueSnapshot) (p : page) :
  repopulate_fields numeral data p
  = when (experiment_selected numeral data p)
      (render_fields numeral data
         (checked_xp_id numeral (adopted_xp_id data (data_xp_id (doc p)))))
      (checked_page numeral data p).
Proof.
  unfold repopulate_fields, bind at 1. rewrite adopt_xp_id_yields.
  unfold bind. rewrite check_xp_id_yields. reflexivity.
Qed.

Lemma check_xp_id_keeps_ff : keeps ff (check_xp_id numeral).
Proof. frame. Qed.

Lemma check_xp_id_keeps_win : keeps win (check_xp_id numeral).
Proof. frame. Qed.

Lemma check_xp_id_keeps_data_xp_id :
  keeps (fun p => data_xp_id (doc p)) (check_xp_id numeral).
Proof. frame. Qed.

Lemma check_xp_id_keeps_capture_job_queue :
  keeps (fun p => capture_job_queue (doc p)) (check_xp_id numeral).
Proof. frame. Qed.

Lemma check_xp_id_keeps_no_change_during_run :
  keeps (fun p => no_change_during_run (doc p)) (check_xp_id numeral).
Proof. frame. Qed.

Lemma check_xp_id_keeps_current_job_wrapper :
  keeps (fun p => style (doc p) "current_job_wrapper" "display")
    (check_xp_id numeral).
Proof. frame. Qed.

Lemma checked_page_ff (data : QueueSnapshot) (p : page) :
  ff (checked_page numeral data p) = ff p.
Proof. unfold checked_page. now rewrite check_xp_id_keeps_ff. Qed.

Lemma checked_page_win (data : QueueSnapshot) (p : page) :
  win (checked_page numeral data p) = win p.
Proof. unfold checked_page. now rewrite check_xp_id_keeps_win. Qed.

Lemma checked_page_data_xp_id (data : QueueSnapshot) (p : page) :
  data_xp_id (doc (checked_page numeral data p))
  = adopted_xp_id data (data_xp_id (doc p)).
Proof.
  unfold checked_page.
  now rewrite (check_xp_id_keeps_data_xp_id _).
Qed.

Lemma checked_page_capture_job_queue (data : QueueSnapshot) (p : page) :
  capture_job_queue (doc (checked_page numeral data p))
  = capture_job_queue (doc p).
Proof.
  unfold checked_page.
  now rewrite (check_xp_id_keeps_capture_job_queue _).
Qed.

Lemma checked_page_current_job_wrapper (data : QueueSnapshot) (p : page) :
  style (doc (checked_page numeral data p)) "current_job_wrapper" "display"
  = style (doc p) "current_job_wrapper" "display".
Proof.
  unfold checked_page.
  now rewrite (check_xp_id_keeps_current_job_wrapper _).
Qed.

(** The decision spelled out on the stored text: without the attribute
    the snapshot is rendered; with it, the text must be neither empty nor
    "false", and must not convert to zero. *)
Lemma experiment_selected_reading (data : QueueSnapshot) (p : page) :
  experiment_selected numeral data p
  = match adopted_xp_id data (data_xp_id (doc p)) with
    | None => true
    | Some s =>
        negb (s =? "") && negb (s =? "false")
        && negb (number_eq (string_to_number numeral s) (Int 0))
    end.
Proof.
  unfold experiment_selected, checked_xp_id, stored_xp_id.
  destruct (adopted_xp_id data (data_xp_id (doc p))) as [s|]; [|reflexivity].
  cbn [loose_eq]. destruct (s =? "") eqn:Hempty.
  - destruct (loose_neq numeral (Bool false) (Str "")
              && loose_neq numeral (Bool false) (Str "false")); reflexivity.
  - unfold loose_neq. cbn [loose_eq]. rewrite Hempty.
    destruct (s =? "false"); reflexivity.
Qed.

(** The monitor's two functions touch the window globals only. *)
Lemma start_periodic_monitor_yields (p : page) :
  start_periodic_monitor numeral p = returned tt (with_win armed p).
Proof.
  destruct p as [d f w]; destruct w as [monitoring loop pending next sent out].
  destruct monitoring; reflexivity.
Qed.

Lemma stop_periodic_monitor_yields (p : page) :
  stop_periodic_monitor p = returned tt (with_win disarmed p).
Proof. reflexivity. Qed.

(** *** What rendering does to the flags, the monitor and the list *)

Lemma render_fields_push (data : QueueSnapshot) (v : value) (q : page) :
  push_queue_on_update (ff (page_of (render_fields numeral data v q)))
  = Bool (present (current_job data)).
Proof.
  destruct data as [x [cj|] [sj|] [dq|]]; open_script; cases; settle.
Qed.

Lemma render_fields_win (data : QueueSnapshot) (v : value) (q : page) :
  win (page_of (render_fields numeral data v q))
  = match current_job data, staged_job data with
    | Some _, _ => armed (win q)
    | None, None => disarmed (win q)
    | None, Some _ => win q
    end.
Proof.
  destruct data as [x [cj|] [sj|] [dq|]]; open_script; unfold armed, disarmed;
    cases; settle.
Qed.

Lemma render_fields_completes (data : QueueSnapshot) (v : value) (q : page) :
  completes (render_fields numeral data v q) = present (queue data).
Proof.
  destruct data as [x [cj|] [sj|] [dq|]]; open_script; cases; settle.
Qed.

Lemma render_fields_capture_job_queue (data : QueueSnapshot) (v : value)
  (q : page) :
  capture_job_queue (doc (page_of (render_fields numeral data v q)))
  = match queue data with
    | Some dq =>
        if (0 <? length dq)%nat && to_boolean v then map job_item dq
        else [queue_placeholder]
    | None => capture_job_queue (doc q)
    end.
Proof.
  destruct data as [x [cj|] [sj|] [dq|]]; open_script; cases;
    rewrite ?fold_left_job_items; cbn;
    rewrite ?without_queue_placeholder_job_items; settle.
Qed.

Lemma render_fields_current_job_wrapper (data : QueueSnapshot) (v : value)
  (q : page) :
  style (doc (page_of (render_fields numeral data v q)))
    "current_job_wrapper" "display"
  = if present (current_job data) then "block" else "none".
Proof.
  destruct data as [x [cj|] [sj|] [dq|]]; open_script; cases; settle.
Qed.

Lemma render_fields_keeps_data_xp_id (data : QueueSnapshot)
  (v : value) :
  keeps (fun p => data_xp_id (doc p)) (render_fields numeral data v).
Proof. frame. Qed.

Lemma repopulate_fields_keeps_requests (data : QueueSnapshot) :
  keeps (fun p => requests (win p)) (repopulate_fields numeral data).
Proof. frame. Qed.

Lemma repopulate_fields_push (data : QueueSnapshot) (p : page) :
  push_queue_on_update (ff (run (repopulate_fields numeral data) p))
  = if experiment_selected numeral data p
    then Bool (present (current_job data))
    else push_queue_on_update (ff p).
Proof.
  unfold run. rewrite repopulate_fields_checked.
  destruct (experiment_selected numeral data p); cbn [when].
  - apply render_fields_push.
  - cbn. now rewrite checked_page_ff.
Qed.

Lemma repopulate_fields_win (data : QueueSnapshot) (p : page) :
  win (run (repopulate_fields numeral data) p)
  = if experiment_selected numeral data p
    then match current_job data, staged_job data with
         | Some _, _ => armed (win p)
         | None, None => disarmed (win p)
         | None, Some _ => win p
         end
    else win p.
Proof.
  unfold run. rewrite repopulate_fields_checked.
  destruct (experiment_selected numeral data p); cbn [when].
  - rewrite render_fields_win, checked_page_win. reflexivity.
  - cbn. apply checked_page_win.
Qed.

Lemma repopulate_fields_completes (data : QueueSnapshot) (p : page) :
  completes (repopulate_fields numeral data p)
  = negb (experiment_selected numeral data p) || present (queue data).
Proof.
  rewrite repopulate_fields_checked.
  destruct (experiment_selected numeral data p); cbn [when negb orb].
  - apply render_fields_completes.
  - reflexivity.
Qed.

Lemma repopulate_fields_capture_job_queue (data : QueueSnapshot) (p : page) :
  capture_job_queue (doc (run (repopulate_fields numeral data) p))
  = if experiment_selected numeral data p
    then match queue data with
         | Some dq =>
             if (0 <? length dq)%nat
                && to_boolean
                     (checked_xp_id numeral
                        (adopted_xp_id data (data_xp_id (doc p))))
             then map job_item dq
             else [queue_placeholder]
         | None => capture_job_queue (doc p)
         end
    else capture_job_queue (doc p).
Proof.
  unfold run. rewrite repopulate_fields_checked.
  destruct (experiment_selected numeral data p); cbn [when].
  - rewrite render_fields_capture_job_queue, checked_page_capture_job_queue.
    reflexivity.
  - cbn. apply checked_page_capture_job_queue.
Qed.

Lemma repopulate_fields_current_job_wrapper (data : QueueSnapshot) (p : page) :
  style (doc (run (repopulate_fields numeral data) p))
    "current_job_wrapper" "display"
  = if experiment_selected numeral data p
    then if present (current_job data) then "block" else "none"
    else style (doc p) "current_job_wrapper" "display".
Proof.
  unfold run. rewrite repopulate_fields_checked.
  destruct (experiment_selected numeral data p); cbn [when].
  - apply render_fields_current_job_wrapper.
  - cbn. apply checked_page_current_job_wrapper.
Qed.

Lemma repopulate_fields_data_xp_id (data : QueueSnapshot) (p : page) :
  data_xp_id (doc (run (repopulate_fields numeral data) p))
  = adopted_xp_id data (data_xp_id (doc p)).
Proof.
  unfold run. rewrite repopulate_fields_checked.
  destruct (experiment_selected numeral data p); cbn [when].
  - rewrite (render_fields_keeps_data_xp_id data _ _).
    apply checked_page_data_xp_id.
  - cbn. apply checked_page_data_xp_id.
Qed.

Lemma apply_all_snoc (snapshots : list QueueSnapshot) (data : QueueSnapshot)
  (p : page) :
  apply_all numeral (snapshots ++ [data]) p
  = run (repopulate_fields numeral data) (apply_all numeral snapshots p).
Proof. unfold apply_all. rewrite fold_left_app. reflexivity. Qed.

(** *** What applying a snapshot does *)

(** C1 (as amended).  For every sequence of snapshots applied one after the
    other, the push flag after each call is recomputed from that call's
    snapshot, [true] exactly when it carries a current job, whenever an
    experiment is selected at that call (the stored id, after the
    snapshot's own was adopted, gets past [repop_xp_id != false]); a call
    made while no experiment is selected leaves the flag as the calls
    before it left it. *)
Theorem push_policy_after_each_apply (snapshots : list QueueSnapshot)
  (data : QueueSnapshot) (p : page) :
  let prior := apply_all numeral snapshots p in
  push_queue_on_update (ff (apply_all numeral (snapshots ++ [data]) p))
  = if experiment_selected numeral data prior
    then Bool (present (current_job data))
    else push_queue_on_update (ff prior).
Proof.
  intro prior. rewrite apply_all_snoc. apply repopulate_fields_push.
Qed.

(** C10.  Applying a snapshot stores the snapshot's experiment id in
    [data-xp_id] exactly when the snapshot carries both an id and a current
    job; in every other case, a snapshot with an id but no current job
    included, the stored id is the one the page had. *)
Theorem xp_id_adopted_only_with_current_job (data : QueueSnapshot) (p : page) :
  data_xp_id (doc (run (repopulate_fields numeral data) p))
  = if defined (xp_id data) && present (current_job data)
    then Some (to_string (xp_id data))
    else data_xp_id (doc p).
Proof. apply repopulate_fields_data_xp_id. Qed.

(** C5 (as amended).  When an experiment is selected at the call, applying
    a snapshot with a current job leaves the recurring monitor armed (what
    [start_periodic_monitor] makes of the window globals, monitoring flag
    set), and applying one with neither a current nor a staged job leaves
    it disarmed (what [stop_periodic_monitor] makes of them, flag
    cleared); with a staged job only, and whenever no experiment is
    selected, the monitor and its timers are as they were. *)
Theorem monitor_after_apply (data : QueueSnapshot) (p : page) :
  let later := run (repopulate_fields numeral data) p in
  if experiment_selected numeral data p then
    match current_job data, staged_job data with
    | Some _, _ =>
        win later = win (run (start_periodic_monitor numeral) p)
        /\ fishface_monitoring (win later) = true
    | None, None =>
        win later = win (run stop_periodic_monitor p)
        /\ fishface_monitoring (win later) = false
    | None, Some _ => win later = win p
    end
  else win later = win p.
Proof.
  intro later. subst later. rewrite repopulate_fields_win.
  unfold run. rewrite start_periodic_monitor_yields.
  destruct (experiment_selected numeral data p); [|reflexivity].
  destruct (current_job data) as [cj|]; [|destruct (staged_job data) as [sj|]].
  - split; [reflexivity|].
    unfold armed. destruct (fishface_monitoring (win p)) eqn:E; [exact E|reflexivity].
  - reflexivity.
  - split; reflexivity.
Qed.

(** C3 (as amended).  Applying a snapshot whose queue is the empty array
    always completes, and leaves the list as the empty-queue placeholder
    when an experiment is selected at the call and untouched otherwise.
    Applying a snapshot with no queue field completes exactly when no
    experiment is selected, and never touches the list. *)
Theorem apply_with_empty_or_absent_queue (x : value)
  (cj : option CurrentJob) (sj : option StagedJob) (p : page) :
  let empty := {| xp_id := x; current_job := cj; staged_job := sj;
                  queue := Some [] |} in
  let absent := {| xp_id := x; current_job := cj; staged_job := sj;
                   queue := None |} in
  (completes (repopulate_fields numeral empty p) = true
   /\ capture_job_queue (doc (run (repopulate_fields numeral empty) p))
      = if experiment_selected numeral empty p then [queue_placeholder]
        else capture_job_queue (doc p))
  /\ (completes (repopulate_fields numeral absent p)
      = negb (experiment_selected numeral absent p)
      /\ capture_job_queue (doc (run (repopulate_fields numeral absent) p))
         = capture_job_queue (doc p)).
Proof.
  intros empty absent. repeat split.
  - rewrite repopulate_fields_completes. cbn. apply orb_true_r.
  - rewrite repopulate_fields_capture_job_queue. reflexivity.
  - rewrite repopulate_fields_completes. cbn. apply orb_false_r.
  - rewrite repopulate_fields_capture_job_queue. cbn.
    now destruct (experiment_selected numeral absent p).
Qed.

End Snapshots.

(** ** The handlers *)

Section Handlers.

Variable numeral : string -> option Z.

(** The empty text converts to zero. *)
Hypothesis empty_text_is_zero : numeral "" = Some 0%Z.

Lemma experiment_not_selected (data : QueueSnapshot) (p : page) :
  data_xp_id (doc p) = Some "" \/ data_xp_id (doc p) = Some "false" ->
  defined (xp_id data) && present (current_job data) = false ->
  experiment_selected numeral data p = false.
Proof.
  intros Hstored Hadopt.
  unfold experiment_selected, adopted_xp_id. rewrite Hadopt.
  unfold checked_xp_id, stored_xp_id.
  destruct Hstored as [-> | ->]; cbn.
  - destruct (loose_neq numeral (Bool false) (Str "")
              && loose_neq numeral (Bool false) (Str "false")); reflexivity.
  - reflexivity.
Qed.

Lemma checked_page_without_experiment (data : QueueSnapshot) (p : page) :
  data_xp_id (doc p) = Some "" \/ data_xp_id (doc p) = Some "false" ->
  defined (xp_id data) && present (current_job data) = false ->
  let q := checked_page numeral data p in
  inner_html (doc q) = inner_html (doc p)
  /\ style (doc q) "current_job_wrapper" "display"
     = style (doc p) "current_job_wrapper" "display"
  /\ style (doc q) "staged_job_wrapper" "display"
     = style (doc p) "staged_job_wrapper" "display".
Proof.
  intros Hstored Hadopt. unfold checked_page, adopted_xp_id. rewrite Hadopt.
  open_script. exec.
  destruct Hstored as [-> | ->]; cbn;
    unfold loose_neq, loose_eq, string_to_number;
    rewrite ?empty_text_is_zero; cbn; repeat split; reflexivity.
Qed.

(** C9 (as amended).  When the stored experiment id is the empty text or
    the text "false", applying a snapshot that does not carry both an
    experiment id and a current job completes and leaves the push flag
    (with all of [window.ff]), the monitor with its timers and the call log
    (all of [window]), the stored id, every rendered text, the visibility
    of the two job panels and the queue list as they were.  (A snapshot
    that carries both selects its own experiment first.) *)
Theorem apply_without_experiment (data : QueueSnapshot) (p : page) :
  data_xp_id (doc p) = Some "" \/ data_xp_id (doc p) = Some "false" ->
  defined (xp_id data) && present (current_job data) = false ->
  let later := run (repopulate_fields numeral data) p in
  completes (repopulate_fields numeral data p) = true
  /\ ff later = ff p
  /\ win later = win p
  /\ data_xp_id (doc later) = data_xp_id (doc p)
  /\ inner_html (doc later) = inner_html (doc p)
  /\ style (doc later) "current_job_wrapper" "display"
     = style (doc p) "current_job_wrapper" "display"
  /\ style (doc later) "staged_job_wrapper" "display"
     = style (doc p) "staged_job_wrapper" "display"
  /\ capture_job_queue (doc later) = capture_job_queue (doc p).
Proof.
  intros Hstored Hadopt later. subst later.
  pose proof (experiment_not_selected data p Hstored Hadopt) as Hselected.
  destruct (checked_page_without_experiment data p Hstored Hadopt)
    as (Htexts & Hcurrent & Hstaged).
  rewrite repopulate_fields_completes, repopulate_fields_capture_job_queue.
  rewrite repopulate_fields_data_xp_id. unfold adopted_xp_id.
  rewrite Hadopt.
  unfold run. rewrite repopulate_fields_checked, Hselected. cbn.
  rewrite checked_page_ff, checked_page_win.
  repeat split; assumption.
Qed.

(** C7.  Starting the recurring monitor twice leaves the page exactly as
    starting it once does: the monitoring flag is set and the intervals
    pending are those of the first start, which adds one interval of 500 ms
    running [repop_now] when the monitor was inactive and none when it was
    active.  Stopping it twice leaves the page exactly as stopping it once
    does: the flag is cleared and the interval whose handle is stored is
    no longer pending; when no handle was ever stored the timers are
    untouched. *)
Theorem monitor_start_stop_idempotent (p : page) :
  let start := run (start_periodic_monitor numeral) in
  let stop := run stop_periodic_monitor in
  (start (start p) = start p
   /\ fishface_monitoring (win (start p)) = true
   /\ intervals (win (start p))
      = if fishface_monitoring (win p) then intervals (win p)
        else intervals (win p) ++ [monitor_interval (next_timer (win p))])
  /\ (stop (stop p) = stop p
      /\ fishface_monitoring (win (stop p)) = false
      /\ timers (win (stop p))
         = match fishface_update_loop (win p) with
           | Some h => without_timer h (timers (win p))
           | None => timers (win p)
           end).
Proof.
  intros start stop. subst start stop. unfold run.
  rewrite !start_periodic_monitor_yields, !stop_periodic_monitor_yields.
  destruct p as [d f w]; destruct w as [monitoring loop pending next sent out].
  unfold armed, disarmed, intervals, with_win, set_fishface_monitoring,
    set_fishface_update_loop, clear_timer, set_timers.
  split.
  - destruct monitoring; cbn; repeat split.
    rewrite filter_app. reflexivity.
  - destruct loop as [h|]; with_strategy opaque [without_timer] cbn;
      repeat split.
    rewrite without_timer_idempotent. reflexivity.
Qed.

(** *** The calls an action adds to the log *)

Lemma issued_of_log (m : action unit) (p : page) (new : list request) :
  requests (win (run m p)) = requests (win p) ++ new ->
  issued m p = new.
Proof. intro H. unfold issued. rewrite H. apply skipn_issued. Qed.

Lemma issued_of_keeps (m : action unit) (p : page) :
  keeps (fun q => requests (win q)) m -> issued m p = [].
Proof.
  intro H. apply issued_of_log. rewrite app_nil_r. apply (H p).
Qed.

(** *** What the helpers of the handlers do *)

Lemma repop_now_yields (p : page) :
  repop_now p
  = returned tt
      (with_win (fun w => set_requests (requests w ++ [fetch_status]) w) p).
Proof. reflexivity. Qed.

Lemma repop_in_1_second_yields (p : page) :
  repop_in_1_second p
  = returned tt
      (with_win (fun w =>
         set_timers (timers w ++ [one_shot_repoll (next_timer w)])
           (S (next_timer w)) w) p).
Proof. reflexivity. Qed.

Lemma push_entire_queue_yields (p : page) :
  push_entire_queue numeral p
  = returned tt
      (with_win (fun w =>
         set_requests
           (requests w
            ++ [replace_queue
                  (queue_array_of (capture_job_queue (doc p)))
                  (stored_xp_id numeral (data_xp_id (doc p)))
                  (xp_species (ff p)
                     (to_string (stored_xp_id numeral (data_xp_id (doc p)))))])
           w) p).
Proof.
  unfold push_entire_queue, get_queue_array, differs_from_new_array, bind,
    read, when. rewrite get_xp_id_yields. reflexivity.
Qed.

Lemma no_jobs_placeholder_yields (p : page) :
  no_jobs_placeholder p
  = returned tt
      (with_doc (fun d =>
         set_capture_job_queue
           (match queue_array_of (capture_job_queue d) with
            | [] => [queue_placeholder]
            | _ => capture_job_queue d
            end) d) p).
Proof.
  unfold no_jobs_placeholder, get_queue_array, bind, read.
  destruct (queue_array_of (capture_job_queue (doc p))) eqn:E; cbn;
    unfold cjq_html_queue_placeholder, update, ret, with_doc; cbn;
    rewrite E; reflexivity.
Qed.

(** Showing the placeholder for an empty working copy does not change the
    working copy. *)
Lemma queue_array_of_no_jobs_placeholder (l : list node) :
  queue_array_of
    (match queue_array_of l with
     | [] => [queue_placeholder]
     | _ => l
     end)
  = queue_array_of l.
Proof. destruct (queue_array_of l) eqn:E; [reflexivity | exact E]. Qed.

Lemma sortable_update_yields (p : page) :
  let q := run (sortable_update numeral) p in
  queue_array_of (capture_job_queue (doc q))
  = queue_array_of (capture_job_queue (doc p))
  /\ ff q = ff p
  /\ if loose_eq numeral (push_queue_on_update (ff p)) (Bool true)
     then pushed_on_drop numeral (capture_job_queue (doc p)) p (win q)
     else win q = win p.
Proof.
  unfold run, sortable_update, queue_placeholder_remove. walk.
  destruct (loose_eq numeral (push_queue_on_update (ff p)) (Bool true)).
  - rewrite push_entire_queue_yields. walk.
    rewrite repop_now_yields, start_periodic_monitor_yields. walk.
    rewrite no_jobs_placeholder_yields. cbn.
    rewrite queue_array_of_no_jobs_placeholder.
    rewrite !queue_array_of_without_queue_placeholder.
    unfold pushed_on_drop, armed.
    destruct p as [d f w]; destruct w as [monitoring loop pending next sent out].
    destruct monitoring; cbn; rewrite <- app_assoc; repeat split.
  - rewrite no_jobs_placeholder_yields. cbn.
    rewrite queue_array_of_no_jobs_placeholder.
    rewrite queue_array_of_without_queue_placeholder.
    repeat split.
Qed.

Lemma sortable_beforeStop_yields (ui : sortable_ui) (p : page) :
  let q := run (sortable_beforeStop numeral ui) p in
  if loose_eq numeral (keep_job_in_queue (ff p)) (Num (Int 0)) then
    let l := without_item (item ui) (capture_job_queue (doc p)) in
    queue_array_of (capture_job_queue (doc q)) = queue_array_of l
    /\ ff q = ff p
    /\ if loose_eq numeral (push_queue_on_update (ff p)) (Bool true)
       then pushed_on_drop numeral l p (win q)
       else win q = win p
  else doc q = doc p /\ win q = win p.
Proof.
  unfold run, sortable_beforeStop, item_remove, get_queue_array. walk.
  destruct (loose_eq numeral (keep_job_in_queue (ff p)) (Num (Int 0)));
    [|split; reflexivity].
  cbn [capture_job_queue set_capture_job_queue].
  destruct (length (queue_array_of
              (without_item (item ui) (capture_job_queue (doc p)))) =? 0)%nat.
  - rewrite no_jobs_placeholder_yields. walk.
    destruct (loose_eq numeral (push_queue_on_update (ff p)) (Bool true)).
    + rewrite push_entire_queue_yields. walk.
      rewrite repop_now_yields, start_periodic_monitor_yields. cbn.
      rewrite queue_array_of_no_jobs_placeholder.
      unfold pushed_on_drop, armed.
      destruct p as [d f w];
        destruct w as [monitoring loop pending next sent out].
      destruct monitoring; cbn; rewrite <- app_assoc; repeat split.
    + cbn. rewrite queue_array_of_no_jobs_placeholder. repeat split.
  - walk.
    destruct (loose_eq numeral (push_queue_on_update (ff p)) (Bool true)).
    + rewrite push_entire_queue_yields. walk.
      rewrite repop_now_yields, start_periodic_monitor_yields. cbn.
      unfold pushed_on_drop, armed.
      destruct p as [d f w];
        destruct w as [monitoring loop pending next sent out].
      destruct monitoring; cbn; rewrite <- app_assoc; repeat split.
    + cbn. repeat split.
Qed.

(** [clear_queue], when the push flag is truthy, adds exactly one call to
    the log and changes nothing else: a [cjc.set_queue] call with
    [repop_in_1_second] as its callback, whose arguments are [false] and
    then the object holding the empty queue (as the text of
    [JSON.stringify([])]), the selected experiment id and its species.
    When the flag is not truthy it makes no call and schedules nothing,
    and the list becomes the empty-queue placeholder. *)
Lemma clear_queue_yields (p : page) :
  let q := run (clear_queue numeral) p in
  let xp := stored_xp_id numeral (data_xp_id (doc p)) in
  if to_boolean (push_queue_on_update (ff p)) then
    requests (win q)
    = requests (win p)
      ++ [clear_queue_request xp (xp_species (ff p) (to_string xp))]
    /\ timers (win q) = timers (win p)
    /\ fishface_monitoring (win q) = fishface_monitoring (win p)
    /\ doc q = doc p
    /\ ff q = ff p
  else
    win q = win p
    /\ ff q = ff p
    /\ capture_job_queue (doc q) = [queue_placeholder].
Proof.
  intros q xp. subst q xp.
  unfold run, clear_queue, bind. rewrite get_xp_id_yields. walk.
  destruct (to_boolean (push_queue_on_update (ff p))); cbn; repeat split.
Qed.

(** On every page, what a call of [clear_queue] sends as its input is
    [false], never a queue. *)
Lemma clear_queue_data_argument (p : page) (r : request) :
  In r (issued (clear_queue numeral) p) ->
  data_argument r = Some (boolean false).
Proof.
  intro Hin. pose proof (clear_queue_yields p) as H. cbv zeta in H.
  destruct (to_boolean (push_queue_on_update (ff p))).
  - destruct H as (H & _). rewrite (issued_of_log _ _ _ H) in Hin.
    destruct Hin as [<- | []]. reflexivity.
  - destruct H as (H & _). unfold issued in Hin. rewrite H in Hin.
    rewrite <- (app_nil_r (requests (win p))) in Hin at 2.
    rewrite skipn_issued in Hin. destruct Hin.
Qed.

(** *** Changing the experiment *)

Lemma change_experiment_yields (p : page) :
  let q := run (change_experiment numeral) p in
  if loose_eq numeral (Str (style (doc p) "current_job_wrapper" "display"))
       (Str "none")
  then
    data_xp_id (doc q) = Some ""
    /\ no_change_during_run (doc q) = no_change_during_run (doc p)
    /\ ff q = ff p
    /\ win q = win p
  else
    doc q = set_no_change_during_run (S (no_change_during_run (doc p))) (doc p)
    /\ ff q = ff p
    /\ win q
       = set_timers
           (timers (win p) ++ [notice_dismissal (next_timer (win p))])
           (S (next_timer (win p))) (win p).
Proof.
  intro q. subst q.
  unfold run, change_experiment, css_get, attr_data_xp_id_set,
    no_change_during_run_append, setTimeout, add_timer. walk.
  destruct (loose_eq numeral
              (Str (style (doc p) "current_job_wrapper" "display"))
              (Str "none")).
  - rewrite check_xp_id_yields. walk.
    rewrite (check_xp_id_keeps_data_xp_id _),
      (check_xp_id_keeps_no_change_during_run _),
      check_xp_id_keeps_ff, check_xp_id_keeps_win.
    repeat split.
  - cbn. repeat split.
Qed.

Lemma xp_select_form_submit_yields (checked : option Z) (p : page) :
  let q := run (xp_select_form_submit numeral checked) p in
  data_xp_id (doc q)
  = Some (to_string (Num (match checked with
                          | Some z => Int z
                          | None => NaN
                          end)))
  /\ requests (win q) = requests (win p) ++ [fetch_status]
  /\ timers (win q) = timers (win p).
Proof.
  intro q. subst q.
  unfold run, xp_select_form_submit, attr_data_xp_id_set. walk.
  rewrite check_xp_id_yields. walk. rewrite repop_now_yields. cbn.
  rewrite (check_xp_id_keeps_data_xp_id _), check_xp_id_keeps_win.
  destruct checked; repeat split.
Qed.

(** The timeout of the notice takes one notice away and calls nothing. *)
Lemma fire_notice_dismissal (h : nat) (p : page) :
  let q := run (fire (notice_dismissal h)) p in
  no_change_during_run (doc q) = pred (no_change_during_run (doc p))
  /\ requests (win q) = requests (win p)
  /\ data_xp_id (doc q) = data_xp_id (doc p).
Proof. repeat split. Qed.

(** The one-shot re-poll, when it comes due, makes one fetch-status call. *)
Lemma fire_one_shot_repoll (h : nat) (p : page) :
  requests (win (run (fire (one_shot_repoll h)) p))
  = requests (win p) ++ [fetch_status].
Proof. reflexivity. Qed.

(** *** The calls an event adds to the log *)

Lemma change_experiment_keeps_requests :
  keeps (fun q => requests (win q)) (change_experiment numeral).
Proof. frame. Qed.

Lemma start_periodic_monitor_keeps_requests :
  keeps (fun q => requests (win q)) (start_periodic_monitor numeral).
Proof. frame. Qed.

Lemma stop_periodic_monitor_keeps_requests :
  keeps (fun q => requests (win q)) stop_periodic_monitor.
Proof. frame. Qed.

Lemma handler_issues (i : intent) (p : page) :
  Forall answered_by_repoll (issued (handler numeral i) p).
Proof.
  destruct i; cbn [handler].
  - rewrite issued_of_keeps by apply change_experiment_keeps_requests.
    constructor.
  - erewrite issued_of_log.
    2:{ unfold run, start_queue, css. walk. rewrite push_entire_queue_yields.
        cbn. reflexivity. }
    repeat constructor.
  - pose proof (clear_queue_yields p) as H. cbv zeta in H.
    destruct (to_boolean (push_queue_on_update (ff p))).
    + destruct H as (H & _). rewrite (issued_of_log _ _ _ H).
      repeat constructor.
    + destruct H as (H & _). erewrite issued_of_log.
      2:{ rewrite H, app_nil_r. reflexivity. }
      constructor.
  - erewrite issued_of_log by reflexivity. repeat constructor.
  - erewrite issued_of_log by reflexivity.
    repeat constructor. intro H. discriminate H.
  - rewrite issued_of_keeps by apply start_periodic_monitor_keeps_requests.
    constructor.
  - rewrite issued_of_keeps by apply stop_periodic_monitor_keeps_requests.
    constructor.
  - pose proof (xp_select_form_submit_yields checked p) as H. cbv zeta in H.
    destruct H as (_ & H & _). rewrite (issued_of_log _ _ _ H).
    repeat constructor. intro H'. discriminate H'.
  - rewrite issued_of_keeps by apply stop_periodic_monitor_keeps_requests.
    constructor.
  - erewrite issued_of_log.
    2:{ cbn. rewrite app_nil_r. reflexivity. }
    constructor.
  - erewrite issued_of_log.
    2:{ cbn. rewrite app_nil_r. reflexivity. }
    constructor.
  - pose proof (sortable_update_yields p) as H. cbv zeta in H.
    destruct H as (_ & _ & H).
    destruct (loose_eq numeral (push_queue_on_update (ff p)) (Bool true)).
    + destruct H as (H & _). rewrite (issued_of_log _ _ _ H).
      repeat constructor. intro H'. discriminate H'.
    + erewrite issued_of_log.
      2:{ rewrite H, app_nil_r. reflexivity. }
      constructor.
  - pose proof (sortable_beforeStop_yields ui p) as H. cbv zeta in H.
    destruct (loose_eq numeral (keep_job_in_queue (ff p)) (Num (Int 0))).
    + destruct H as (_ & _ & H).
      destruct (loose_eq numeral (push_queue_on_update (ff p)) (Bool true)).
      * destruct H as (H & _). rewrite (issued_of_log _ _ _ H).
        repeat constructor. intro H'. discriminate H'.
      * erewrite issued_of_log.
        2:{ rewrite H, app_nil_r. reflexivity. }
        constructor.
    + destruct H as (_ & H). erewrite issued_of_log.
      2:{ rewrite H, app_nil_r. reflexivity. }
      constructor.
Qed.

Lemma react_issues (e : event) (p : page) :
  Forall answered_by_repoll (issued (react numeral e) p).
Proof.
  destruct e as [i|t|r data]; cbn [react].
  - apply handler_issues.
  - destruct t as [h again ms [|]]; destruct again.
    + erewrite issued_of_log by reflexivity.
      repeat constructor. intro H. discriminate H.
    + erewrite issued_of_log by reflexivity.
      repeat constructor. intro H. discriminate H.
    + erewrite issued_of_log.
      2:{ cbn. rewrite app_nil_r. reflexivity. }
      constructor.
    + erewrite issued_of_log.
      2:{ cbn. rewrite app_nil_r. reflexivity. }
      constructor.
  - unfold complete. destruct (done r).
    + erewrite issued_of_log.
      2:{ cbn. rewrite app_nil_r. reflexivity. }
      constructor.
    + rewrite issued_of_keeps by apply repopulate_fields_keeps_requests.
      constructor.
Qed.

(** C6.  Every call that changes the controller's state (replace-queue or
    abort-all), whatever event of the page issued it, carries
    [repop_in_1_second] as its completion callback; and when such a call
    completes, on any page and so whether or not the monitor is running,
    exactly one timeout is added, of 1000 ms and running [repop_now], with
    nothing else changed (no call yet, monitor as it was); when that
    timeout comes due it makes exactly one fetch-status call. *)
Theorem one_shot_repoll_after_mutating_call (e : event) (p : page)
  (r : request) :
  In r (issued (react numeral e) p) ->
  mutating r = true ->
  done r = then_repop_in_1_second
  /\ forall (data : QueueSnapshot) (q : page),
       let q' := run (complete numeral r data) q in
       let due := one_shot_repoll (next_timer (win q)) in
       timers (win q') = timers (win q) ++ [due]
       /\ requests (win q') = requests (win q)
       /\ fishface_monitoring (win q') = fishface_monitoring (win q)
       /\ fishface_update_loop (win q') = fishface_update_loop (win q)
       /\ doc q' = doc q
       /\ ff q' = ff q
       /\ requests (win (run (fire due) q'))
          = requests (win q) ++ [fetch_status].
Proof.
  intros Hin Hmut.
  pose proof (react_issues e p) as Hall. rewrite Forall_forall in Hall.
  pose proof (Hall r Hin Hmut) as Hdone. split; [exact Hdone|].
  intros data q. unfold complete. rewrite Hdone. repeat split.
Qed.

End Handlers.

(** ** What a drop pushes *)

Section Drops.

Variable numeral : string -> option Z.

Lemma replace_queue_repolled (copy : list JobSpec) (xp species : value) :
  repolled_on_completion numeral (replace_queue copy xp species).
Proof. intros data q. repeat split. Qed.

Lemma queue_array_of_app (l1 l2 : list node) :
  queue_array_of (l1 ++ l2) = queue_array_of l1 ++ queue_array_of l2.
Proof.
  induction l1 as [|[|j] l1 IH]; cbn; [reflexivity | exact IH | now rewrite IH].
Qed.

Lemma without_item_at (l1 l2 : list node) (n : node) :
  without_item (length l1) (l1 ++ n :: l2) = l1 ++ l2.
Proof. induction l1 as [|x l1 IH]; cbn; [reflexivity | now rewrite IH]. Qed.

Lemma sortable_beforeStop_removes (ui : sortable_ui) (p : page) :
  loose_eq numeral (keep_job_in_queue (ff p)) (Num (Int 0)) = true ->
  let q := run (sortable_beforeStop numeral ui) p in
  let l := without_item (item ui) (capture_job_queue (doc p)) in
  capture_job_queue (doc q)
  = match queue_array_of l with
    | [] => [queue_placeholder]
    | _ => l
    end
  /\ data_xp_id (doc q) = data_xp_id (doc p)
  /\ ff q = ff p.
Proof.
  intros Hkeep q l. subst q l.
  unfold run, sortable_beforeStop, item_remove, get_queue_array. walk.
  rewrite Hkeep. cbn [capture_job_queue set_capture_job_queue].
  destruct (queue_array_of
              (without_item (item ui) (capture_job_queue (doc p))))
    as [|j rest] eqn:Hcopy; cbn [length Nat.eqb].
  - rewrite no_jobs_placeholder_yields. walk.
    destruct (loose_eq numeral (push_queue_on_update (ff p)) (Bool true)).
    + rewrite push_entire_queue_yields. walk.
      rewrite repop_now_yields, start_periodic_monitor_yields. cbn.
      rewrite Hcopy. repeat split.
    + cbn. rewrite Hcopy. repeat split.
  - walk.
    destruct (loose_eq numeral (push_queue_on_update (ff p)) (Bool true)).
    + rewrite push_entire_queue_yields. walk.
      rewrite repop_now_yields, start_periodic_monitor_yields. cbn.
      repeat split.
    + cbn. repeat split.
Qed.

Lemma sortable_update_list (p : page) :
  let q := run (sortable_update numeral) p in
  capture_job_queue (doc q)
  = after_edit (without_queue_placeholder (capture_job_queue (doc p)))
  /\ data_xp_id (doc q) = data_xp_id (doc p).
Proof.
  unfold run, sortable_update, queue_placeholder_remove, after_edit. walk.
  destruct (loose_eq numeral (push_queue_on_update (ff p)) (Bool true)).
  - rewrite push_entire_queue_yields. walk.
    rewrite repop_now_yields, start_periodic_monitor_yields. walk.
    rewrite no_jobs_placeholder_yields. cbn. split; reflexivity.
  - rewrite no_jobs_placeholder_yields. cbn. split; reflexivity.
Qed.

Lemma pushed_on_drop_repolled (l : list node) (p q : page) :
  pushed_on_drop numeral l p (win q) ->
  pushed_and_repolled numeral (queue_array_of l) p q.
Proof.
  intros (Hlog & Hflag & Htimers). unfold pushed_and_repolled.
  repeat split; try assumption; apply replace_queue_repolled.
Qed.

(** C2 (as amended).  Each of the two handlers that run on a drop does
    the following, [update] for an item dropped at a new position and
    [beforeStop] for an item dragged out, which it removes.  When the push
    flag [== true], the handler adds to the log exactly one replace-queue
    call that carries the whole working copy as the list then shows it, in
    order (after a drag-out: the copy without the dragged job and with
    every other job in place), and a status fetch right after it; the
    monitor is running afterwards; and the completion of that
    replace-queue call schedules the one-shot re-poll, one timeout of
    1000 ms that makes one status fetch.  When the flag is not [== true],
    the window globals are untouched (no call, no timer) and the edit is
    in the list alone.  The list afterwards is the edited one, or the
    placeholder alone when no job is left.  A [beforeStop] with the item
    kept makes no call.  On a drop where both handlers run, an item dragged
    out after its position changed, two replace-queue calls are made, with
    the same payload. *)
Theorem drop_handlers_push_under_push_policy (ui : sortable_ui) (p : page)
  (l1 l2 : list node) (j : JobSpec) :
  (let q := run (sortable_update numeral) p in
   capture_job_queue (doc q)
   = after_edit (without_queue_placeholder (capture_job_queue (doc p)))
   /\ queue_array_of (capture_job_queue (doc q))
      = queue_array_of (capture_job_queue (doc p))
   /\ ff q = ff p
   /\ if loose_eq numeral (push_queue_on_update (ff p)) (Bool true)
      then pushed_and_repolled numeral
             (queue_array_of (capture_job_queue (doc p))) p q
      else win q = win p)
  /\ (let q := run (sortable_beforeStop numeral ui) p in
      if loose_eq numeral (keep_job_in_queue (ff p)) (Num (Int 0)) then
        let l := without_item (item ui) (capture_job_queue (doc p)) in
        capture_job_queue (doc q) = after_edit l
        /\ ff q = ff p
        /\ if loose_eq numeral (push_queue_on_update (ff p)) (Bool true)
           then pushed_and_repolled numeral (queue_array_of l) p q
           else win q = win p
      else doc q = doc p /\ win q = win p)
  /\ (queue_array_of (l1 ++ job_item j :: l2)
      = queue_array_of l1 ++ j :: queue_array_of l2
      /\ queue_array_of (without_item (length l1) (l1 ++ job_item j :: l2))
         = queue_array_of l1 ++ queue_array_of l2)
  /\ (let dragged_out :=
        with_ff (fun g => set_keep_job_in_queue (Num (Int 0))
                            (set_push_queue_on_update (Bool true) g)) p in
      let q := run (sortable_update numeral)
                 (run (sortable_beforeStop numeral ui) dragged_out) in
      let xp := stored_xp_id numeral (data_xp_id (doc p)) in
      let call :=
        replace_queue
          (queue_array_of (without_item (item ui) (capture_job_queue (doc p))))
          xp (xp_species (ff p) (to_string xp)) in
      requests (win q)
      = requests (win p) ++ [call; fetch_status; call; fetch_status]
      /\ length (replace_queue_calls [call; fetch_status; call; fetch_status])
         = 2).
Proof.
  split; [|split; [|split]].
  - pose proof (sortable_update_yields numeral p) as H.
    pose proof (sortable_update_list p) as Hlist.
    cbv zeta in H, Hlist |- *. destruct H as (Hcopy & Hff & Hwin).
    destruct Hlist as (Hlist & _).
    repeat split; try assumption.
    destruct (loose_eq numeral (push_queue_on_update (ff p)) (Bool true));
      [now apply pushed_on_drop_repolled | exact Hwin].
  - pose proof (sortable_beforeStop_yields numeral ui p) as H.
    cbv zeta in H |- *.
    destruct (loose_eq numeral (keep_job_in_queue (ff p)) (Num (Int 0)))
      eqn:Hkeep; [|exact H].
    destruct H as (_ & Hff & Hwin).
    destruct (sortable_beforeStop_removes ui p Hkeep) as (Hlist & _).
    repeat split; try assumption.
    destruct (loose_eq numeral (push_queue_on_update (ff p)) (Bool true));
      [now apply pushed_on_drop_repolled | exact Hwin].
  - rewrite without_item_at, !queue_array_of_app. split; reflexivity.
  - cbv zeta.
    set (dragged_out :=
           with_ff (fun g => set_keep_job_in_queue (Num (Int 0))
                               (set_push_queue_on_update (Bool true) g)) p).
    set (q1 := run (sortable_beforeStop numeral ui) dragged_out).
    pose proof (sortable_beforeStop_yields numeral ui dragged_out) as H1.
    cbv zeta in H1. fold q1 in H1.
    change (loose_eq numeral (keep_job_in_queue (ff dragged_out)) (Num (Int 0)))
      with true in H1.
    change (loose_eq numeral (push_queue_on_update (ff dragged_out)) (Bool true))
      with true in H1.
    cbv iota in H1. destruct H1 as (Hcopy1 & Hff1 & Hlog1 & _).
    destruct (sortable_beforeStop_removes ui dragged_out eq_refl)
      as (_ & Hid1 & _). fold q1 in Hid1.
    pose proof (sortable_update_yields numeral q1) as H2. cbv zeta in H2.
    destruct H2 as (_ & _ & H2). rewrite Hff1 in H2.
    change (loose_eq numeral (push_queue_on_update (ff dragged_out)) (Bool true))
      with true in H2.
    cbv iota in H2. destruct H2 as (Hlog2 & _).
    split; [|reflexivity].
    rewrite Hlog2, Hlog1, Hcopy1, Hid1, Hff1, <- app_assoc. reflexivity.
Qed.

End Drops.

(** ** Selecting another experiment *)

Section Selecting.

Variable numeral : string -> option Z.

Lemma checked_page_selector_hidden (data : QueueSnapshot) (p : page) :
  experiment_selected numeral data p = true ->
  style (doc (checked_page numeral data p)) "xp_select_wrapper" "display"
  = "none".
Proof.
  unfold experiment_selected, checked_page, checked_xp_id, stored_xp_id.
  generalize (adopted_xp_id data (data_xp_id (doc p))). intros s Hsel.
  unfold check_xp_id, get_xp_id, attr_data_xp_id, css, html. exec.
  destruct s as [s|].
  - destruct (loose_eq numeral (Str s) (Str "")).
    + destruct (loose_neq numeral (Bool false) (Str "")
                && loose_neq numeral (Bool false) (Str "false"));
        [|discriminate Hsel].
      cbn. destruct (xp_names (ff p) "false"); reflexivity.
    + destruct (loose_neq numeral (Str s) (Str "")
                && loose_neq numeral (Str s) (Str "false"));
        [|discriminate Hsel].
      cbn. destruct (xp_names (ff p) s); reflexivity.
  - cbn. destruct (xp_names (ff p) "undefined"); reflexivity.
Qed.

Lemma render_fields_keeps_selector (data : QueueSnapshot) (v : value) :
  keeps (fun p => style (doc p) "xp_select_wrapper" "display")
    (render_fields numeral data v).
Proof. frame. Qed.

Lemma repopulate_fields_selector_hidden (data : QueueSnapshot) (p : page) :
  experiment_selected numeral data p = true ->
  style (doc (run (repopulate_fields numeral data) p))
    "xp_select_wrapper" "display" = "none".
Proof.
  intro Hsel. unfold run. rewrite repopulate_fields_checked, Hsel. cbn [when].
  rewrite (render_fields_keeps_selector data _ _).
  now apply checked_page_selector_hidden.
Qed.

Lemma xp_select_form_submit_keeps_no_change_during_run (checked : option Z) :
  keeps (fun p => no_change_during_run (doc p))
    (xp_select_form_submit numeral checked).
Proof. destruct checked; frame. Qed.

(** C8 (as amended).  After a snapshot was applied with an experiment
    selected.  If it carried a current job, the change-experiment button
    is turned down on the page alone: the stored experiment id and every
    style stay as they are, the selector stays hidden, one notice is added
    together with a 3000 ms timeout that takes it away again, and no call
    is made, neither then nor when the timeout comes due.  The submit
    handler of the selector form has no such test: run on that same page,
    it stores the chosen id and makes one status fetch, without a notice
    and without a timer.  If the snapshot carried no current job, the
    button clears the stored id without a call, and submitting the form
    then stores the chosen id and makes one status fetch at once.  (A
    snapshot applied while no experiment is selected is not rendered and
    does not count.) *)
Theorem select_experiment_after_snapshot (data : QueueSnapshot) (p : page) :
  experiment_selected numeral data p = true ->
  let shown := run (repopulate_fields numeral data) p in
  let asked := run (change_experiment numeral) shown in
  let stored (checked : option Z) :=
    Some (to_string (Num (match checked with
                          | Some z => Int z
                          | None => NaN
                          end))) in
  match current_job data with
  | Some _ =>
      (data_xp_id (doc asked) = data_xp_id (doc shown)
       /\ style (doc asked) = style (doc shown)
       /\ style (doc asked) "xp_select_wrapper" "display" = "none"
       /\ no_change_during_run (doc asked) = S (no_change_during_run (doc shown))
       /\ timers (win asked)
          = timers (win shown) ++ [notice_dismissal (next_timer (win shown))]
       /\ requests (win asked) = requests (win shown)
       /\ (let dismissed :=
             run (fire (notice_dismissal (next_timer (win shown)))) asked in
           no_change_during_run (doc dismissed)
           = no_change_during_run (doc shown)
           /\ requests (win dismissed) = requests (win shown)
           /\ data_xp_id (doc dismissed) = data_xp_id (doc shown)))
      /\ forall checked : option Z,
           let chosen := run (xp_select_form_submit numeral checked) shown in
           data_xp_id (doc chosen) = stored checked
           /\ requests (win chosen) = requests (win shown) ++ [fetch_status]
           /\ no_change_during_run (doc chosen)
              = no_change_during_run (doc shown)
           /\ timers (win chosen) = timers (win shown)
  | None =>
      data_xp_id (doc asked) = Some ""
      /\ no_change_during_run (doc asked) = no_change_during_run (doc shown)
      /\ win asked = win shown
      /\ forall checked : option Z,
           let chosen := run (xp_select_form_submit numeral checked) asked in
           data_xp_id (doc chosen) = stored checked
           /\ requests (win chosen) = requests (win shown) ++ [fetch_status]
  end.
Proof.
  intros Hselected shown asked stored.
  pose proof (repopulate_fields_current_job_wrapper numeral data p) as Hpanel.
  rewrite Hselected in Hpanel. fold shown in Hpanel.
  pose proof (repopulate_fields_selector_hidden data p Hselected) as Hhidden.
  fold shown in Hhidden.
  pose proof (change_experiment_yields numeral shown) as Hasked.
  fold asked in Hasked. cbv zeta in Hasked. rewrite Hpanel in Hasked.
  destruct (current_job data) as [cj|]; cbn in Hasked.
  - destruct Hasked as (Hdoc & Hff & Hwin). split.
    + pose proof (fire_notice_dismissal (next_timer (win shown)) asked)
        as Hfire.
      cbv zeta in Hfire. destruct Hfire as (Hnotice & Hcalls & Hid).
      cbv zeta. rewrite Hnotice, Hcalls, Hid, Hdoc, Hwin. cbn.
      repeat split. exact Hhidden.
    + intro checked.
      pose proof (xp_select_form_submit_yields numeral checked shown) as H.
      cbv zeta in H |- *. destruct H as (Hid & Hlog & Htimers).
      repeat split; try assumption.
      apply (xp_select_form_submit_keeps_no_change_during_run checked shown).
  - destruct Hasked as (Hid & Hnotice & Hff & Hwin).
    repeat split; try assumption.
    + pose proof (xp_select_form_submit_yields numeral checked asked) as H.
      cbv zeta in H. apply H.
    + pose proof (xp_select_form_submit_yields numeral checked asked) as H.
      cbv zeta in H. destruct H as (_ & H & _). rewrite H, Hwin. reflexivity.
Qed.

End Selecting.

(** ** The monitor's interval along every run *)

Lemma intervals_app (w : window_globals) (l : list timer) (n : nat) :
  intervals (set_timers (timers w ++ l) n w) = intervals w ++ filter repeats l.
Proof. unfold intervals. cbn. apply filter_app. Qed.

Lemma without_timer_intervals (h : nat) (l : list timer) :
  filter repeats (without_timer h l) = without_timer h (filter repeats l).
Proof.
  unfold without_timer. induction l as [|t l IH]; cbn; [reflexivity|].
  destruct (negb (timer_id t =? h)%nat) eqn:E, (repeats t) eqn:R; cbn;
    rewrite ?E, ?R, ?IH; reflexivity.
Qed.

Lemma without_timer_In (h : nat) (l : list timer) (t : timer) :
  In t (without_timer h l) <-> In t l /\ timer_id t <> h.
Proof.
  unfold without_timer. rewrite filter_In, negb_true_iff, Nat.eqb_neq.
  reflexivity.
Qed.

Lemma without_timer_distinct (h : nat) (l : list timer) :
  NoDup (map timer_id l) -> NoDup (map timer_id (without_timer h l)).
Proof.
  unfold without_timer. induction l as [|t l IH]; cbn; intro H; [constructor|].
  inversion H as [|x xs Hnotin Hrest]; subst.
  destruct (negb (timer_id t =? h)%nat); cbn; [|auto].
  constructor; [|auto].
  intro Hin. apply Hnotin. rewrite in_map_iff in *.
  destruct Hin as (t' & Hid & Hin'). exists t'. split; [exact Hid|].
  apply filter_In in Hin'. apply Hin'.
Qed.

Lemma fresh_handle_distinct (l : list timer) (n : nat) (t : timer) :
  (forall t', In t' l -> (timer_id t' < n)%nat) ->
  timer_id t = n ->
  NoDup (map timer_id l) -> NoDup (map timer_id (l ++ [t])).
Proof.
  intros Hbelow Hid Hdistinct. rewrite map_app. cbn.
  apply NoDup_app; [exact Hdistinct | repeat constructor; intros [] |].
  intros x Hin [<- | []]. rewrite in_map_iff in Hin.
  destruct Hin as (t' & Hid' & Hin'). specialize (Hbelow t' Hin'). lia.
Qed.

Lemma adding_a_timer_consistent (w : window_globals) (t : timer) :
  monitor_consistent w ->
  timer_id t = next_timer w ->
  fishface_update_loop w <> Some (next_timer w) ->
  intervals w ++ filter repeats [t]
  = intervals w ->
  monitor_consistent (set_timers (timers w ++ [t]) (S (next_timer w)) w).
Proof.
  intros [Hbelow Hdistinct Hstored Hinterval Hpending] Hid Hloop Hsame.
  constructor; cbn.
  - intros t' Hin. apply in_app_or in Hin. destruct Hin as [Hin | [<- | []]].
    + specialize (Hbelow t' Hin). lia.
    + lia.
  - apply (fresh_handle_distinct _ (next_timer w)); assumption.
  - intros h Hh. specialize (Hstored h Hh). lia.
  - intros t' Hin Hh. apply in_app_or in Hin.
    destruct Hin as [Hin | [<- | []]]; [auto|].
    rewrite Hid in Hh. contradiction.
  - unfold intervals in *. cbn. rewrite filter_app, Hsame. exact Hpending.
Qed.

Lemma stored_handle_is_not_next (w : window_globals) :
  monitor_consistent w -> fishface_update_loop w <> Some (next_timer w).
Proof.
  intros Hw Hloop. pose proof (stored_handle_below w Hw _ Hloop). lia.
Qed.

Lemma timeout_consistent (f : timer_callback) (ms : Z) (w : window_globals) :
  monitor_consistent w ->
  monitor_consistent
    (set_timers
       (timers w ++ [{| timer_id := next_timer w; repeats := false;
                        delay := ms; callback := f |}])
       (S (next_timer w)) w).
Proof.
  intro Hw. apply adding_a_timer_consistent;
    [exact Hw | reflexivity | now apply stored_handle_is_not_next
    | cbn; apply app_nil_r].
Qed.

Lemma armed_consistent (w : window_globals) :
  monitor_consistent w -> monitor_consistent (armed w).
Proof.
  intro Hw. unfold armed.
  destruct (fishface_monitoring w) eqn:Hflag; [exact Hw|].
  pose proof Hw as [Hbelow Hdistinct Hstored Hinterval Hpending].
  rewrite Hflag in Hpending.
  constructor; cbn.
  - intros t Hin. apply in_app_or in Hin. destruct Hin as [Hin | [<- | []]].
    + specialize (Hbelow t Hin). lia.
    + cbn. lia.
  - apply (fresh_handle_distinct _ (next_timer w)); auto.
  - intros h Hh. injection Hh as <-. lia.
  - intros t Hin Hh. apply in_app_or in Hin.
    destruct Hin as [Hin | [<- | []]]; [|reflexivity].
    injection Hh as Hh. specialize (Hbelow t Hin). lia.
  - unfold intervals. cbn. rewrite filter_app.
    unfold intervals in Hpending. rewrite Hpending. reflexivity.
Qed.

Lemma disarmed_consistent (w : window_globals) :
  monitor_consistent w -> monitor_consistent (disarmed w).
Proof.
  intros [Hbelow Hdistinct Hstored Hinterval Hpending]. unfold disarmed.
  destruct (fishface_update_loop w) as [h|] eqn:Hloop; cbn.
  - constructor; cbn; rewrite ?Hloop.
    + intros t Hin. apply without_timer_In in Hin. apply Hbelow, Hin.
    + now apply without_timer_distinct.
    + exact Hstored.
    + intros t Hin Hh. apply without_timer_In in Hin.
      injection Hh as Hh. destruct Hin as (_ & Hneq). congruence.
    + unfold intervals in *. cbn. rewrite without_timer_intervals.
      destruct (fishface_monitoring w); rewrite Hpending; cbn;
        rewrite ?Nat.eqb_refl; reflexivity.
  - constructor; cbn; rewrite ?Hloop; try assumption.
    destruct (fishface_monitoring w); [contradiction | exact Hpending].
Qed.

Lemma spent_consistent (t : timer) (w : window_globals) :
  monitor_consistent w -> In t (timers w) -> repeats t = false ->
  monitor_consistent (clear_timer (Some (timer_id t)) w).
Proof.
  intros [Hbelow Hdistinct Hstored Hinterval Hpending] Hin Hspent.
  constructor; cbn.
  - intros t' Hin'. apply without_timer_In in Hin'. apply Hbelow, Hin'.
  - now apply without_timer_distinct.
  - exact Hstored.
  - intros t' Hin' Hh. apply without_timer_In in Hin'.
    apply Hinterval; [apply Hin' | exact Hh].
  - unfold intervals in *. cbn. rewrite without_timer_intervals.
    destruct (fishface_monitoring w); [|now rewrite Hpending].
    destruct (fishface_update_loop w) as [h|] eqn:Hloop; [|exact Hpending].
    rewrite Hpending. cbn.
    destruct (h =? timer_id t)%nat eqn:E; [|reflexivity].
    apply Nat.eqb_eq in E. subst h.
    specialize (Hinterval t Hin eq_refl). rewrite Hinterval in Hspent.
    discriminate Hspent.
Qed.

Lemma win_change_consistent (w w' : window_globals) :
  win_change w w' -> monitor_consistent w -> monitor_consistent w'.
Proof.
  induction 1 as [w | l w | l w | w | w | f ms w | t w Hin Hspent
                 | w1 w2 w3 _ IH1 _ IH2]; intro Hw.
  - exact Hw.
  - destruct Hw; constructor; assumption.
  - destruct Hw; constructor; assumption.
  - now apply armed_consistent.
  - now apply disarmed_consistent.
  - now apply timeout_consistent.
  - now apply spent_consistent.
  - auto.
Qed.

(** *** Every action of the script changes the window globals in those
    ways *)

Lemma changes_ret {A : Type} (a : A) : changes (ret a).
Proof. intro p. constructor. Qed.

Lemma changes_read {A : Type} (g : page -> A) : changes (read g).
Proof. intro p. constructor. Qed.

Lemma changes_throw {A : Type} (e : exn) : changes (@throw A e).
Proof. intro p. constructor. Qed.

Lemma changes_bind {A B : Type} (m : action A) (k : A -> action B) :
  changes m -> (forall a, changes (k a)) -> changes (bind m k).
Proof.
  intros Hm Hk p. unfold bind. specialize (Hm p).
  destruct (m p) as [a p'|e p']; cbn in *.
  - eapply change_then; [exact Hm | apply Hk].
  - exact Hm.
Qed.

Lemma changes_when (c : bool) (m : action unit) :
  changes m -> changes (when c m).
Proof. intros H. destruct c; [exact H | apply changes_ret]. Qed.

Lemma changes_for_in {A : Type} (l : list A) (body : A -> action unit) :
  (forall a, changes (body a)) -> changes (for_in l body).
Proof.
  intros H. induction l as [|x l IH]; cbn.
  - apply changes_ret.
  - apply changes_bind; auto.
Qed.

Lemma changes_with_doc (f : document -> document) : changes (update (with_doc f)).
Proof. intro p. constructor. Qed.

Lemma changes_with_ff (f : ff_globals -> ff_globals) :
  changes (update (with_ff f)).
Proof. intro p. constructor. Qed.

Lemma changes_celery_async (name : string) (f : completion)
  (rest : list argument) : changes (celery_async name f rest).
Proof. intro p. apply change_log. Qed.

Lemma changes_console_log (s : string) : changes (console_log s).
Proof. intro p. apply change_console. Qed.

Lemma changes_setTimeout (f : timer_callback) (ms : Z) :
  changes (setTimeout f ms).
Proof. intro p. apply change_timeout. Qed.

Lemma changes_stop_periodic_monitor : changes stop_periodic_monitor.
Proof. intro p. apply change_disarmed. Qed.

Ltac changes_step :=
  match goal with
  | |- changes (bind _ _) => apply changes_bind; [|intro]
  | |- changes (ret _) => apply changes_ret
  | |- changes (read _) => apply changes_read
  | |- changes (throw _) => apply changes_throw
  | |- changes (when _ _) => apply changes_when
  | |- changes (for_in _ _) => apply changes_for_in; intro
  | |- changes (update (with_doc _)) => apply changes_with_doc
  | |- changes (update (with_ff _)) => apply changes_with_ff
  | |- changes (celery_async _ _ _) => apply changes_celery_async
  | |- changes (console_log _) => apply changes_console_log
  | |- changes (setTimeout _ _) => apply changes_setTimeout
  | |- changes stop_periodic_monitor => apply changes_stop_periodic_monitor
  | |- changes (match ?x with _ => _ end) => destruct x
  end.

Ltac open_handlers :=
  unfold repopulate_fields, adopt_xp_id, render_fields, render_current_job,
    render_no_current_job, render_staged_job, render_queue, check_xp_id,
    get_xp_id, change_experiment, push_entire_queue, start_queue, clear_queue,
    abort_all, xp_select_form_submit, sortable_start, sortable_over,
    sortable_out, sortable_update, sortable_beforeStop, repop_now,
    repop_in_1_second, repop_in_milliseconds, no_jobs_placeholder,
    get_queue_array, queue_length, attr_data_xp_id, attr_data_xp_id_set, css,
    css_get, html, cjq_empty, cjq_append, cjq_html_queue_placeholder,
    queue_placeholder_remove, item_remove, no_change_during_run_append,
    no_change_during_run_remove, timer_callback_run, differs_from_new_array.

Section Runs.

Variable numeral : string -> option Z.

Lemma changes_start_periodic_monitor :
  changes (start_periodic_monitor numeral).
Proof.
  intro p. rewrite start_periodic_monitor_yields. apply change_armed.
Qed.

Ltac script_changes :=
  repeat progress open_handlers;
  repeat first [apply changes_start_periodic_monitor | changes_step].

Lemma changes_handler (i : intent) : changes (handler numeral i).
Proof. destruct i; cbn [handler]; script_changes. Qed.

Lemma changes_complete (r : request) (data : QueueSnapshot) :
  changes (complete numeral r data).
Proof. unfold complete. script_changes. Qed.

Lemma fire_changes (t : timer) (p : page) :
  In t (timers (win p)) -> win_change (win p) (win (run (fire t) p)).
Proof.
  intro Hin. unfold run, fire.
  destruct (repeats t) eqn:Hrepeats; cbn [negb when].
  - assert (H : changes (ret tt ;; timer_callback_run (callback t))) by
      script_changes.
    apply H.
  - assert (H : changes (timer_callback_run (callback t))) by script_changes.
    eapply change_then; [apply (change_spent t _ Hin Hrepeats)|].
    apply (H (with_win (clear_timer (Some (timer_id t))) p)).
Qed.

Lemma react_changes (e : event) (p : page) :
  due_is_pending e p ->
  win_change (win p) (win (run (react numeral e) p)).
Proof.
  destruct e as [i|t|r data]; cbn [react due_is_pending]; intro Hdue.
  - apply changes_handler.
  - now apply fire_changes.
  - apply changes_complete.
Qed.

(** Along every run of events in which timers come due only while they are
    pending, a consistent page stays consistent. *)
Lemma run_events_consistent (es : list event) (p : page) :
  monitor_consistent (win p) ->
  dues_are_pending numeral es p ->
  monitor_consistent (win (run_events numeral es p)).
Proof.
  revert p. induction es as [|e es IH]; intros p Hw Hdue; [exact Hw|].
  destruct Hdue as (Hfirst & Hrest). cbn [run_events fold_left].
  apply IH; [|exact Hrest].
  eapply win_change_consistent; [apply react_changes, Hfirst | exact Hw].
Qed.

(** So at most one interval is ever pending, and it is the monitor's 500 ms
    interval exactly while the monitoring flag is set. *)
Lemma single_polling_interval (es : list event) (p : page) :
  monitor_consistent (win p) ->
  dues_are_pending numeral es p ->
  let w := win (run_events numeral es p) in
  (length (intervals w) <= 1)%nat
  /\ (fishface_monitoring w = true ->
      exists h, fishface_update_loop w = Some h
                /\ intervals w = [monitor_interval h])
  /\ (fishface_monitoring w = false -> intervals w = []).
Proof.
  intros Hw Hdue w.
  pose proof (run_events_consistent es p Hw Hdue) as Hrun. fold w in Hrun.
  pose proof (pending_intervals w Hrun) as Hpending.
  destruct (fishface_monitoring w).
  - destruct (fishface_update_loop w) as [h|]; [|contradiction].
    rewrite Hpending. cbn. repeat split; [lia | | discriminate].
    intros _. exists h. split; reflexivity.
  - rewrite Hpending. cbn. repeat split; [lia | discriminate].
Qed.

End Runs.

(** The page is consistent once it is ready, before any timer was set. *)
Lemma ready_consistent (p : page) :
  timers (win p) = [] -> fishface_update_loop (win p) = None ->
  monitor_consistent (win (run ready p)).
Proof.
  intros Htimers Hloop.
  constructor; cbn; unfold intervals; cbn; rewrite ?Htimers, ?Hloop; cbn;
    try (intros; contradiction); try discriminate; try reflexivity.
  constructor.
Qed.

Lemma sample_page_consistent (stored : option string) (push : value)
  (panel : string) (l : list node) :
  monitor_consistent (win (sample_page stored push panel l)).
Proof.
  constructor; cbn; try (intros; contradiction); try discriminate;
    try reflexivity.
  constructor.
Qed.

(** ** Concrete runs *)

(** The reader of plain decimal spellings agrees with the engine on the
    texts of the sample pages. *)
Example read_integer_samples :
  read_integer "" = Some 0%Z
  /\ read_integer "5" = Some 5%Z
  /\ read_integer "0" = Some 0%Z
  /\ read_integer "false" = None
  /\ read_integer "NaN" = None.
Proof. repeat split. Qed.

(** The scenario of the specification: a running snapshot is rendered as
    "running" and "3/10", the push flag is set and the monitor goes from
    idle to polling. *)
Example running_snapshot_rendered :
  let q := run (repopulate_fields read_integer (running_snapshot (Num (Int 5))))
             page_with_experiment in
  inner_html (doc q) "current_job_status" = "running"
  /\ inner_html (doc q) "current_job_remaining_total" = "3/10"
  /\ inner_html (doc q) "current_job_psu_setting" = "12V with a maximum of 2A"
  /\ inner_html (doc q) "current_job_slug" = "(XP_5_CJR_7)"
  /\ push_queue_on_update (ff q) = Bool true
  /\ fishface_monitoring (win q) = true
  /\ timers (win q) = [monitor_interval 1]
  /\ capture_job_queue (doc q) = [queue_placeholder].
Proof. vm_compute. repeat split. Qed.

(** Moving the first of three queued jobs to the end and dropping it there
    pushes the three jobs in their new order, once. *)
Example reorder_pushes_new_order :
  let p := sample_page (Some "5") (Bool true) "block"
             [job_item (sample_spec 4); job_item (sample_spec 6);
              job_item (sample_spec 3)] in
  requests (win (run (sortable_update read_integer) p))
  = [replace_queue [sample_spec 4; sample_spec 6; sample_spec 3]
       (Str "5") Undefined;
     fetch_status].
Proof. reflexivity. Qed.

(** Dragging the second job out while the push flag is off removes it from
    the list and calls nothing. *)
Example drag_out_stays_local :
  let p := run sortable_out
             (sample_page (Some "5") (Bool false) "none"
                [job_item (sample_spec 3); job_item (sample_spec 4)]) in
  let q := run (sortable_beforeStop read_integer
                  {| item := 1; helper_attrib_job_spec := None |}) p in
  capture_job_queue (doc q) = [job_item (sample_spec 3)]
  /\ requests (win q) = []
  /\ timers (win q) = [].
Proof. vm_compute. repeat split. Qed.

(** An experiment whose id is the number zero is stored as the text "0",
    which [!= false] takes for no experiment: the running job is not
    rendered. *)
Example zero_id_is_not_rendered :
  let q := run (repopulate_fields read_integer (running_snapshot (Num (Int 0))))
             page_with_experiment in
  data_xp_id (doc q) = Some "0"
  /\ experiment_selected read_integer (running_snapshot (Num (Int 0)))
       page_with_experiment = false
  /\ push_queue_on_update (ff q) = Bool false
  /\ inner_html (doc q) "current_job_status" = "".
Proof. vm_compute. repeat split. Qed.

(** C4 (the code at the failing input).  On a page whose push flag is
    [true], with experiment 5 selected and three jobs queued, [clear_queue]
    issues one [cjc.set_queue] call; its input, the argument after the
    callback, is [false], and the object with the empty queue comes after
    it, where a flag is expected.  [push_entire_queue] on the same page
    passes its queue object as the input. *)
Theorem clear_queue_sends_false_as_data :
  to_boolean (push_queue_on_update (ff page_with_running_job)) = true
  /\ issued (clear_queue read_integer) page_with_running_job
     = [{| task := "cjc.set_queue"; done := then_repop_in_1_second;
           arguments := [boolean false;
                         queue_object (as_text "[]") (Str "5") Undefined] |}]
  /\ map data_argument (issued (clear_queue read_integer) page_with_running_job)
     = [Some (boolean false)]
  /\ map data_argument
       (issued (push_entire_queue read_integer) page_with_running_job)
     = [Some (queue_object
                (as_array [sample_spec 3; sample_spec 4; sample_spec 6])
                (Str "5") Undefined)]
  /\ map data_argument (issued repop_now page_with_running_job)
     = [Some empty_object].
Proof. vm_compute. repeat split. Qed.

(** *** Where the specification's statements fail *)

(** C1, counterexample.  No experiment is selected and the snapshot names
    none: the snapshot carries a current job, yet the push flag stays
    [false]. *)
Lemma push_policy_stale_without_experiment :
  push_queue_on_update
    (ff (apply_all read_integer [running_snapshot Undefined]
           page_without_experiment))
  <> Bool (present (current_job (running_snapshot Undefined))).
Proof. vm_compute. discriminate. Qed.

(** C5, counterexample.  The user has left the experiment while a job was
    staged, so no experiment is selected and the monitor is still running:
    a snapshot with neither a current nor a staged job leaves the monitor
    running, its interval still pending. *)
Lemma monitor_not_disarmed_without_experiment :
  data_xp_id (doc page_monitored_without_experiment) = Some ""
  /\ fishface_monitoring (win page_monitored_without_experiment) = true
  /\ current_job (idle_snapshot (Num (Int 5)) (Some [])) = None
  /\ staged_job (idle_snapshot (Num (Int 5)) (Some [])) = None
  /\ fishface_monitoring
       (win (run (repopulate_fields read_integer
                    (idle_snapshot (Num (Int 5)) (Some [])))
               page_monitored_without_experiment))
     <> false
  /\ timers
       (win (run (repopulate_fields read_integer
                    (idle_snapshot (Num (Int 5)) (Some [])))
               page_monitored_without_experiment))
     = [monitor_interval 1].
Proof. vm_compute. repeat split. discriminate. Qed.

(** C3, counterexample.  With an experiment selected, a snapshot without a
    queue field makes [repopulate_fields] throw; and with none selected, a
    snapshot with an empty queue leaves a queued job in the list instead of
    the placeholder. *)
Lemma apply_fails_on_absent_queue :
  completes
    (repopulate_fields read_integer (idle_snapshot (Num (Int 5)) None)
       page_with_experiment)
  <> true
  /\ capture_job_queue
       (doc (run (repopulate_fields read_integer
                    (idle_snapshot (Num (Int 5)) (Some [])))
               (sample_page (Some "") (Bool false) "none"
                  [job_item (sample_spec 3)])))
     <> [queue_placeholder].
Proof. vm_compute. split; discriminate. Qed.

(** C9, counterexample.  No experiment is selected, and the snapshot
    carries a current job and its experiment id: the id is adopted, the
    push flag and the monitor change and the job is rendered. *)
Lemma apply_without_experiment_adopts_running_job :
  data_xp_id (doc page_without_experiment) = Some ""
  /\ push_queue_on_update
       (ff (run (repopulate_fields read_integer (running_snapshot (Num (Int 5))))
              page_without_experiment))
     <> push_queue_on_update (ff page_without_experiment)
  /\ fishface_monitoring
       (win (run (repopulate_fields read_integer
                    (running_snapshot (Num (Int 5))))
               page_without_experiment))
     <> fishface_monitoring (win page_without_experiment)
  /\ inner_html
       (doc (run (repopulate_fields read_integer
                    (running_snapshot (Num (Int 5))))
               page_without_experiment))
       "current_job_remaining_total"
     = "3/10".
Proof. vm_compute. repeat split; discriminate. Qed.

(** C8, counterexample.  Experiment 5 is selected and its running job is
    shown: the submit handler of the selector form is not turned down, it
    stores experiment 7 and fetches, and no notice is shown.  And with no
    experiment selected, a snapshot that carries a current job but names
    no experiment is not rendered, so [change_experiment] shows no notice
    and schedules nothing, and the form stores the chosen experiment and
    calls the controller. *)
Lemma select_experiment_not_rejected :
  let running := run (repopulate_fields read_integer
                        (running_snapshot (Num (Int 5))))
                   page_with_experiment in
  let chosen := run (xp_select_form_submit read_integer (Some 7%Z)) running in
  let unrendered := run (repopulate_fields read_integer
                           (running_snapshot Undefined))
                      page_without_experiment in
  (present (current_job (running_snapshot (Num (Int 5)))) = true
   /\ style (doc running) "current_job_wrapper" "display" = "block"
   /\ data_xp_id (doc running) = Some "5"
   /\ data_xp_id (doc chosen) = Some "7"
   /\ data_xp_id (doc chosen) <> data_xp_id (doc running)
   /\ no_change_during_run (doc chosen) = 0
   /\ requests (win chosen) = requests (win running) ++ [fetch_status])
  /\ (present (current_job (running_snapshot Undefined)) = true
      /\ no_change_during_run
           (doc (run (change_experiment read_integer) unrendered)) = 0
      /\ timers (win (run (change_experiment read_integer) unrendered)) = []
      /\ data_xp_id
           (doc (run (xp_select_form_submit read_integer (Some 5%Z))
                   unrendered))
         <> data_xp_id (doc unrendered)
      /\ requests
           (win (run (xp_select_form_submit read_integer (Some 5%Z))
                   unrendered))
         = [fetch_status]).
Proof. vm_compute. repeat split; discriminate. Qed.

(** C2, counterexample.  A job is running, experiment 5 is selected and
    three jobs are queued.  The first job is dragged about and out and
    dropped: [beforeStop] removes it and pushes the two jobs left, and
    [update], which runs on the same drop because the position changed,
    pushes them again.  One drop, two replace-queue calls. *)
Lemma one_drop_two_pushes :
  let drop := [user sortable_started; user sortable_went_over;
               user sortable_went_out;
               user (sortable_about_to_stop
                       {| item := 0; helper_attrib_job_spec := None |});
               user sortable_updated] in
  let q := run_events read_integer drop page_with_running_job in
  let call := replace_queue [sample_spec 4; sample_spec 6] (Str "5") Undefined in
  push_queue_on_update (ff page_with_running_job) = Bool true
  /\ requests (win page_with_running_job) = []
  /\ requests (win q) = [call; fetch_status; call; fetch_status]
  /\ length (replace_queue_calls (requests (win q))) <> 1.
Proof. vm_compute. repeat split. discriminate. Qed.

(** *** The theorems with hypotheses, at concrete pages *)

Lemma apply_without_experiment_witness :
  read_integer "" = Some 0%Z
  /\ (data_xp_id (doc page_without_experiment) = Some ""
      \/ data_xp_id (doc page_without_experiment) = Some "false")
  /\ defined (xp_id (running_snapshot Undefined))
     && present (current_job (running_snapshot Undefined)) = false
  /\ (let later :=
        run (repopulate_fields read_integer (running_snapshot Undefined))
          page_without_experiment in
      completes
        (repopulate_fields read_integer (running_snapshot Undefined)
           page_without_experiment) = true
      /\ ff later = ff page_without_experiment
      /\ win later = win page_without_experiment
      /\ data_xp_id (doc later) = data_xp_id (doc page_without_experiment)
      /\ inner_html (doc later) = inner_html (doc page_without_experiment)
      /\ style (doc later) "current_job_wrapper" "display"
         = style (doc page_without_experiment) "current_job_wrapper" "display"
      /\ style (doc later) "staged_job_wrapper" "display"
         = style (doc page_without_experiment) "staged_job_wrapper" "display"
      /\ capture_job_queue (doc later)
         = capture_job_queue (doc page_without_experiment)).
Proof.
  split; [reflexivity|].
  split; [left; reflexivity|].
  split; [reflexivity|].
  apply (apply_without_experiment read_integer);
    [reflexivity | left; reflexivity | reflexivity].
Defined.

Lemma select_experiment_after_snapshot_witness :
  experiment_selected read_integer (running_snapshot (Num (Int 5)))
    page_with_experiment = true
  /\ (let shown :=
        run (repopulate_fields read_integer (running_snapshot (Num (Int 5))))
          page_with_experiment in
      let asked := run (change_experiment read_integer) shown in
      (data_xp_id (doc asked) = data_xp_id (doc shown)
       /\ style (doc asked) = style (doc shown)
       /\ style (doc asked) "xp_select_wrapper" "display" = "none"
       /\ no_change_during_run (doc asked) = S (no_change_during_run (doc shown))
       /\ timers (win asked)
          = timers (win shown) ++ [notice_dismissal (next_timer (win shown))]
       /\ requests (win asked) = requests (win shown)
       /\ (let dismissed :=
             run (fire (notice_dismissal (next_timer (win shown)))) asked in
           no_change_during_run (doc dismissed)
           = no_change_during_run (doc shown)
           /\ requests (win dismissed) = requests (win shown)
           /\ data_xp_id (doc dismissed) = data_xp_id (doc shown)))
      /\ forall checked : option Z,
           let chosen := run (xp_select_form_submit read_integer checked)
                           shown in
           data_xp_id (doc chosen)
           = Some (to_string (Num (match checked with
                                   | Some z => Int z
                                   | None => NaN
                                   end)))
           /\ requests (win chosen) = requests (win shown) ++ [fetch_status]
           /\ no_change_during_run (doc chosen)
              = no_change_during_run (doc shown)
           /\ timers (win chosen) = timers (win shown)).
Proof.
  split; [reflexivity|].
  apply (select_experiment_after_snapshot read_integer
           (running_snapshot (Num (Int 5))) page_with_experiment).
  reflexivity.
Defined.

Lemma one_shot_repoll_after_mutating_call_witness :
  In abort_all_request
    (issued (react read_integer (user abort_all_button_click))
       page_with_running_job)
  /\ mutating abort_all_request = true
  /\ done abort_all_request = then_repop_in_1_second
  /\ forall (data : QueueSnapshot) (q : page),
       let q' := run (complete read_integer abort_all_request data) q in
       let due := one_shot_repoll (next_timer (win q)) in
       timers (win q') = timers (win q) ++ [due]
       /\ requests (win q') = requests (win q)
       /\ fishface_monitoring (win q') = fishface_monitoring (win q)
       /\ fishface_update_loop (win q') = fishface_update_loop (win q)
       /\ doc q' = doc q
       /\ ff q' = ff q
       /\ requests (win (run (fire due) q'))
          = requests (win q) ++ [fetch_status].
Proof.
  split; [left; reflexivity|].
  split; [reflexivity|].
  apply (one_shot_repoll_after_mutating_call read_integer
           (user abort_all_button_click) page_with_running_job
           abort_all_request);
    [left; reflexivity | reflexivity].
Defined.

(** ** What the events may leave pending and call *)

Lemma maintains_ret {A : Type} (P : window_globals -> Prop) (a : A) :
  maintains P (ret a).
Proof. intros p H. exact H. Qed.

Lemma maintains_read {A : Type} (P : window_globals -> Prop) (g : page -> A) :
  maintains P (read g).
Proof. intros p H. exact H. Qed.

Lemma maintains_throw {A : Type} (P : window_globals -> Prop) (e : exn) :
  maintains P (@throw A e).
Proof. intros p H. exact H. Qed.

Lemma maintains_update (P : window_globals -> Prop) (g : page -> page) :
  (forall p, P (win p) -> P (win (g p))) -> maintains P (update g).
Proof. intros H p. apply H. Qed.

Lemma maintains_bind {A B : Type} (P : window_globals -> Prop) (m : action A)
  (k : A -> action B) :
  maintains P m -> (forall a, maintains P (k a)) -> maintains P (bind m k).
Proof.
  intros Hm Hk p Hp. unfold bind. specialize (Hm p Hp).
  destruct (m p) as [a p'|e p']; cbn in *.
  - now apply Hk.
  - exact Hm.
Qed.

Lemma maintains_when (P : window_globals -> Prop) (c : bool)
  (m : action unit) :
  maintains P m -> maintains P (when c m).
Proof. intros H. destruct c; [exact H | apply maintains_ret]. Qed.

Lemma maintains_for_in {A : Type} (P : window_globals -> Prop) (l : list A)
  (body : A -> action unit) :
  (forall a, maintains P (body a)) -> maintains P (for_in l body).
Proof.
  intros H. induction l as [|x l IH]; cbn.
  - apply maintains_ret.
  - apply maintains_bind; auto.
Qed.

Lemma forallb_without_timer (f : timer -> bool) (h : nat) (l : list timer) :
  forallb f l = true -> forallb f (without_timer h l) = true.
Proof.
  unfold without_timer. rewrite !forallb_forall. intros H t Hin.
  apply filter_In in Hin. apply H, Hin.
Qed.

Lemma timers_known_add_timer (again : bool) (f : timer_callback) (ms : Z) :
  known_timer {| timer_id := 0; repeats := again; delay := ms; callback := f |}
  = true ->
  maintains timers_known (add_timer again f ms).
Proof.
  intros Hknown p Hp. unfold timers_known in *. cbn.
  rewrite forallb_app, Hp. cbn. unfold known_timer in *. cbn in *.
  rewrite Hknown. reflexivity.
Qed.

Ltac settle_timers :=
  intros ? ?; unfold timers_known in *; cbv beta delta [clear_timer]; cbn;
  repeat match goal with
         | |- context [match ?x with _ => _ end] => destruct x; cbn
         end;
  first [assumption | apply forallb_without_timer; assumption].

Ltac settle_requests :=
  intros ? ?; unfold requests_known in *; cbv beta delta [clear_timer]; cbn;
  repeat match goal with
         | |- context [match ?x with Some _ => _ | None => _ end] =>
             destruct x; cbn
         end;
  first [assumption
        | rewrite forallb_app;
          match goal with H : forallb _ _ = true |- _ => rewrite H end;
          reflexivity].

Ltac maintain_step settle :=
  match goal with
  | |- maintains _ (bind _ _) => apply maintains_bind; [|intro]
  | |- maintains _ (ret _) => apply maintains_ret
  | |- maintains _ (read _) => apply maintains_read
  | |- maintains _ (throw _) => apply maintains_throw
  | |- maintains _ (when _ _) => apply maintains_when
  | |- maintains _ (for_in _ _) => apply maintains_for_in; intro
  | |- maintains timers_known (add_timer _ _ _) =>
      apply timers_known_add_timer; reflexivity
  | |- maintains requests_known (add_timer _ _ _) =>
      intros ? ?; assumption
  | |- maintains _ (update _) => apply maintains_update; settle
  | |- maintains _ (match ?x with _ => _ end) => destruct x
  end.

Ltac maintain settle :=
  unfold react, handler, fire, complete, ready;
  repeat progress open_script; repeat (maintain_step settle).

Section Known.

Variable numeral : string -> option Z.

Lemma react_timers_known (e : event) :
  maintains timers_known (react numeral e).
Proof.
  destruct e as [i|t|r data]; [destruct i| |]; maintain settle_timers.
Qed.

Lemma react_requests_known (e : event) :
  maintains requests_known (react numeral e).
Proof.
  destruct e as [i|t|r data]; [destruct i| |]; maintain settle_requests.
Qed.

End Known.

Section Writers.

Variable numeral : string -> option Z.

Lemma react_keeps_push_queue_on_update (e : event) :
  applies_snapshot e = false ->
  keeps (fun p => push_queue_on_update (ff p)) (react numeral e).
Proof.
  destruct e as [i|t|r data]; cbn [react applies_snapshot].
  - intros _. destruct i; cbn [handler]; frame.
  - intros _. unfold fire. frame.
  - unfold complete. destruct (done r); [intros _; frame | discriminate].
Qed.

(** X1.  The push flag is written by applying a snapshot and by nothing
    else: every other event of the page (a click, a form submit, a drag, a
    timer coming due, the completion of a replace-queue or abort call)
    leaves [window.ff.push_queue_on_update] as it was. *)
Theorem push_flag_written_by_snapshots_only (e : event) (p : page) :
  applies_snapshot e = false ->
  push_queue_on_update (ff (run (react numeral e) p))
  = push_queue_on_update (ff p).
Proof. intro H. apply (react_keeps_push_queue_on_update e H p). Qed.

(** X2.  The stored experiment id is written by the change-experiment
    button, by the selector form and by applying a snapshot, and by nothing
    else. *)
Theorem experiment_id_writers (e : event) (p : page) :
  writes_experiment e = false ->
  data_xp_id (doc (run (react numeral e) p)) = data_xp_id (doc p).
Proof.
  intro H.
  assert (Hk : keeps (fun p => data_xp_id (doc p)) (react numeral e)).
  { destruct e as [i|t|r data]; cbn [react writes_experiment] in *.
    - destruct i; try discriminate H; cbn [handler]; frame.
    - unfold fire. frame.
    - unfold applies_snapshot in H. unfold complete.
      destruct (done r); [frame | discriminate]. }
  apply (Hk p).
Qed.

(** X3.  Each of these events leaves the children of the queue list
    exactly as they are: the go button, the abort button, the refresh
    button, the two monitor buttons, the change-experiment button, the
    submit of the selector form, the [start], [over] and [out] of a drag,
    every timer that comes due, and the completion of a replace-queue or
    abort call. *)
Theorem queue_list_left_alone (e : event) (p : page) :
  leaves_queue_list e = true ->
  capture_job_queue (doc (run (react numeral e) p))
  = capture_job_queue (doc p).
Proof.
  intro H.
  assert (Hk : keeps (fun p => capture_job_queue (doc p)) (react numeral e)).
  { destruct e as [i|t|r data]; cbn [react leaves_queue_list] in *.
    - destruct i; try discriminate H; cbn [handler]; frame.
    - unfold fire. frame.
    - unfold applies_snapshot in H. unfold complete.
      destruct (done r); [frame | discriminate]. }
  apply (Hk p).
Qed.

End Writers.

(** *** Applying the same snapshot again *)

Lemma twin_ret {A B : Type} (f : page -> B) (a : A) : twin f (ret a).
Proof. intros p p' H. cbn. repeat split; try apply H. right. split; reflexivity. Qed.

Lemma twin_throw {A B : Type} (f : page -> B) (e : exn) : twin f (@throw A e).
Proof. intros p p' H. cbn. repeat split; try apply H. right. split; reflexivity. Qed.

Lemma twin_read {A B : Type} (f : page -> B) (g : page -> A) :
  (forall p p', same_experiment p p' -> g p = g p') -> twin f (read g).
Proof.
  intros Hg p p' H. cbn. repeat split; try apply H; [now apply Hg|].
  right. split; reflexivity.
Qed.

Lemma twin_update {B : Type} (f : page -> B) (g : page -> page) :
  (forall p p', same_experiment p p' -> settled f p p' (g p) (g p')) ->
  twin f (update g).
Proof. intros Hg p p' H. cbn. split; [reflexivity | now apply Hg]. Qed.

Lemma settled_then {B : Type} (f : page -> B) (p p' q q' r r' : page) :
  settled f p p' q q' -> settled f q q' r r' -> settled f p p' r r'.
Proof.
  intros (_ & H1) (Hsame & H2). split; [exact Hsame|].
  destruct H2 as [H2 | (H2 & H2')]; [left; exact H2|].
  destruct H1 as [H1 | (H1 & H1')].
  - left. congruence.
  - right. split; congruence.
Qed.

Lemma twin_bind {A B C : Type} (f : page -> C) (m : action A)
  (k : A -> action B) :
  twin f m -> (forall a, twin f (k a)) -> twin f (bind m k).
Proof.
  intros Hm Hk p p' H. unfold bind. specialize (Hm p p' H).
  destruct (m p) as [a q|e q], (m p') as [a' q'|e' q']; try contradiction.
  - destruct Hm as (<- & Hq). pose proof Hq as (Hsame & _).
    specialize (Hk a q q' Hsame).
    destruct (k a q) as [b r|e r], (k a q') as [b' r'|e' r'];
      try contradiction.
    + destruct Hk as (Hb & Hr). split; [exact Hb|].
      eapply settled_then; eassumption.
    + eapply settled_then; eassumption.
  - exact Hm.
Qed.

Lemma twin_when {B : Type} (f : page -> B) (c : bool) (m : action unit) :
  twin f m -> twin f (when c m).
Proof. intros H. destruct c; [exact H | apply twin_ret]. Qed.

Lemma twin_for_in {A B : Type} (f : page -> B) (l : list A)
  (body : A -> action unit) :
  (forall a, twin f (body a)) -> twin f (for_in l body).
Proof.
  intros H. induction l as [|x l IH]; cbn.
  - apply twin_ret.
  - apply twin_bind; auto.
Qed.

Section Twice.

Variable numeral : string -> option Z.

Lemma twin_start_periodic_monitor {B : Type} (f : page -> B) :
  (forall p g, f (with_win g p) = f p) ->
  twin f (start_periodic_monitor numeral).
Proof.
  intros Hf p p' H. rewrite !start_periodic_monitor_yields.
  split; [reflexivity|]. split; [exact H|]. right. split; apply Hf.
Qed.

Lemma twin_stop_periodic_monitor {B : Type} (f : page -> B) :
  (forall p g, f (with_win g p) = f p) ->
  twin f stop_periodic_monitor.
Proof.
  intros Hf p p' H. rewrite !stop_periodic_monitor_yields.
  split; [reflexivity|]. split; [exact H|]. right. split; apply Hf.
Qed.


Lemma adopted_xp_id_idempotent (data : QueueSnapshot) (s : option string) :
  adopted_xp_id data (adopted_xp_id data s) = adopted_xp_id data s.
Proof.
  unfold adopted_xp_id.
  destruct (defined (xp_id data) && present (current_job data)); reflexivity.
Qed.

Lemma armed_idempotent (w : window_globals) : armed (armed w) = armed w.
Proof.
  destruct w as [monitoring loop pending next sent out].
  destruct monitoring; reflexivity.
Qed.

Lemma disarmed_idempotent (w : window_globals) :
  disarmed (disarmed w) = disarmed w.
Proof.
  destruct w as [monitoring loop pending next sent out].
  unfold disarmed, clear_timer.
  destruct loop as [h|]; with_strategy opaque [without_timer] cbn;
    [|reflexivity].
  rewrite without_timer_idempotent. reflexivity.
Qed.

Lemma render_fields_ff (data : QueueSnapshot) (v : value) (q : page) :
  ff (page_of (render_fields numeral data v q))
  = set_push_queue_on_update (Bool (present (current_job data))) (ff q).
Proof.
  destruct data as [x [cj|] [sj|] [dq|]]; open_script; cases; settle.
Qed.

Lemma experiment_selected_again (data : QueueSnapshot) (p : page) :
  experiment_selected numeral data (run (repopulate_fields numeral data) p)
  = experiment_selected numeral data p.
Proof.
  unfold experiment_selected.
  rewrite repopulate_fields_data_xp_id, adopted_xp_id_idempotent. reflexivity.
Qed.

Ltac settle_twin :=
  let H := fresh "H" in
  intros ? ? H; split;
  [ destruct H; split; cbv beta delta [html_set]; cbn;
    repeat match goal with
           | |- context [match ?x with _ => _ end] => destruct x; cbn
           end; assumption
  | cbv beta delta [html_set]; cbn;
    repeat match goal with
           | |- context [match ?x with _ => _ end] => destruct x; cbn
           end;
    first [left; reflexivity | right; split; reflexivity] ].

Ltac twin_step :=
  match goal with
  | |- twin _ (bind _ _) => apply twin_bind; [|intro]
  | |- twin _ (ret _) => apply twin_ret
  | |- twin _ (throw _) => apply twin_throw
  | |- twin _ (when _ _) => apply twin_when
  | |- twin _ (for_in _ _) => apply twin_for_in; intro
  | |- twin _ (start_periodic_monitor _) =>
      apply twin_start_periodic_monitor; reflexivity
  | |- twin _ stop_periodic_monitor =>
      apply twin_stop_periodic_monitor; reflexivity
  | |- twin _ (read _) =>
      apply twin_read;
      let H := fresh "H" in
      intros ? ? H; destruct H as (H & ?); cbn; rewrite ?H; congruence
  | |- twin _ (update _) => apply twin_update; settle_twin
  | |- twin _ (match ?x with _ => _ end) => destruct x
  end.

Ltac open_rendering :=
  unfold render_fields, render_current_job, render_no_current_job,
    render_staged_job, render_queue, check_xp_id, get_xp_id, queue_length,
    attr_data_xp_id, css, html, cjq_empty, cjq_append,
    cjq_html_queue_placeholder, queue_placeholder_remove.

(** What [repopulate_fields] does once the experiment is adopted. *)
Lemma repopulate_fields_adopted (data : QueueSnapshot) (p : page) :
  repopulate_fields numeral data p
  = (repop_xp_id <- check_xp_id numeral ;;
     when (loose_neq numeral repop_xp_id (Bool false))
       (render_fields numeral data repop_xp_id))
      (with_doc (set_data_xp_id (adopted_xp_id data (data_xp_id (doc p)))) p).
Proof.
  unfold repopulate_fields, bind at 1. rewrite adopt_xp_id_yields. reflexivity.
Qed.

Lemma twin_style (data : QueueSnapshot) (i pr : string) :
  twin (fun p => style (doc p) i pr)
    (repop_xp_id <- check_xp_id numeral ;;
     when (loose_neq numeral repop_xp_id (Bool false))
       (render_fields numeral data repop_xp_id)).
Proof. repeat progress open_rendering. repeat twin_step. Qed.

Lemma twin_inner_html (data : QueueSnapshot) (i : string) :
  twin (fun p => inner_html (doc p) i)
    (repop_xp_id <- check_xp_id numeral ;;
     when (loose_neq numeral repop_xp_id (Bool false))
       (render_fields numeral data repop_xp_id)).
Proof. repeat progress open_rendering. repeat twin_step. Qed.

Lemma repopulate_fields_ff (data : QueueSnapshot) (p : page) :
  ff (run (repopulate_fields numeral data) p)
  = if experiment_selected numeral data p
    then set_push_queue_on_update (Bool (present (current_job data))) (ff p)
    else ff p.
Proof.
  unfold run. rewrite repopulate_fields_checked.
  destruct (experiment_selected numeral data p); cbn [when].
  - rewrite render_fields_ff, checked_page_ff. reflexivity.
  - cbn. apply checked_page_ff.
Qed.

Lemma repopulate_fields_keeps_no_change_during_run (data : QueueSnapshot) :
  keeps (fun p => no_change_during_run (doc p)) (repopulate_fields numeral data).
Proof. frame. Qed.

Lemma repopulate_fields_keeps_xp_names (data : QueueSnapshot) :
  keeps (fun p => xp_names (ff p)) (repopulate_fields numeral data).
Proof. frame. Qed.

(** An observation that the two runs of [twin] settle is the same after the
    second application as after the first. *)
Lemma settled_again {B : Type} (f : page -> B) (data : QueueSnapshot)
  (p : page) :
  twin f
    (repop_xp_id <- check_xp_id numeral ;;
     when (loose_neq numeral repop_xp_id (Bool false))
       (render_fields numeral data repop_xp_id)) ->
  let once := run (repopulate_fields numeral data) p in
  f (run (repopulate_fields numeral data) once) = f once.
Proof.
  intros Htwin once.
  pose proof (repopulate_fields_data_xp_id numeral data p) as Hid.
  pose proof (repopulate_fields_keeps_xp_names data p) as Hnames.
  fold (run (repopulate_fields numeral data) p) in Hnames.
  fold once in Hid, Hnames. cbv beta in Hnames.
  assert (Honce : with_doc
            (set_data_xp_id (adopted_xp_id data (data_xp_id (doc once)))) once
          = once).
  { rewrite Hid, adopted_xp_id_idempotent, <- Hid. reflexivity. }
  unfold run at 1. rewrite repopulate_fields_adopted, Honce.
  set (a := with_doc
              (set_data_xp_id (adopted_xp_id data (data_xp_id (doc p)))) p).
  assert (Hrun : once
                 = page_of
                     ((repop_xp_id <- check_xp_id numeral ;;
                       when (loose_neq numeral repop_xp_id (Bool false))
                         (render_fields numeral data repop_xp_id)) a)).
  { subst once a. unfold run. now rewrite repopulate_fields_adopted. }
  assert (Hsame : same_experiment a once).
  { split; [subst a; cbn; now rewrite Hid | subst a; cbn; now rewrite Hnames]. }
  specialize (Htwin a once Hsame).
  set (M := (repop_xp_id <- check_xp_id numeral ;;
             when (loose_neq numeral repop_xp_id (Bool false))
               (render_fields numeral data repop_xp_id))) in *.
  clearbody once a.
  destruct (M a) as [u q|e q], (M once) as [u' q'|e' q'];
    try contradiction; cbn in Hrun |- *.
  - destruct Htwin as (_ & _ & [H | (_ & H)]); congruence.
  - destruct Htwin as (_ & [H | (_ & H)]); congruence.
Qed.

(** X4.  Applying the same snapshot a second time changes nothing that the
    first application left: [window.ff], the monitor with its timers and
    the call log, the stored experiment id, the queue list, every style and
    every rendered text are as after the first application, and the second
    call completes exactly when the first did.  So the 500 ms monitor may
    deliver an unchanged snapshot any number of times. *)
Theorem apply_same_snapshot_twice (data : QueueSnapshot) (p : page) :
  let once := run (repopulate_fields numeral data) p in
  let twice := run (repopulate_fields numeral data) once in
  ff twice = ff once
  /\ win twice = win once
  /\ data_xp_id (doc twice) = data_xp_id (doc once)
  /\ capture_job_queue (doc twice) = capture_job_queue (doc once)
  /\ no_change_during_run (doc twice) = no_change_during_run (doc once)
  /\ (forall i pr : string, style (doc twice) i pr = style (doc once) i pr)
  /\ (forall i : string, inner_html (doc twice) i = inner_html (doc once) i)
  /\ completes (repopulate_fields numeral data once)
     = completes (repopulate_fields numeral data p).
Proof.
  intros once twice. subst twice.
  pose proof (experiment_selected_again data p) as Hsel. fold once in Hsel.
  pose proof (repopulate_fields_data_xp_id numeral data p) as Hid.
  fold once in Hid.
  repeat split.
  - rewrite repopulate_fields_ff, Hsel. unfold once.
    rewrite repopulate_fields_ff.
    destruct (experiment_selected numeral data p); reflexivity.
  - rewrite repopulate_fields_win, Hsel. unfold once.
    rewrite repopulate_fields_win.
    destruct (experiment_selected numeral data p); [|reflexivity].
    destruct (current_job data), (staged_job data);
      rewrite ?armed_idempotent, ?disarmed_idempotent; reflexivity.
  - rewrite repopulate_fields_data_xp_id, Hid.
    apply adopted_xp_id_idempotent.
  - rewrite repopulate_fields_capture_job_queue, Hsel, Hid,
      adopted_xp_id_idempotent.
    unfold once. rewrite repopulate_fields_capture_job_queue.
    destruct (experiment_selected numeral data p); [|reflexivity].
    destruct (queue data) as [dq|]; [|reflexivity].
    destruct ((0 <? length dq)%nat
              && to_boolean
                   (checked_xp_id numeral
                      (adopted_xp_id data (data_xp_id (doc p)))));
      reflexivity.
  - unfold run.
    apply (repopulate_fields_keeps_no_change_during_run data once).
  - intros i pr.
    apply (settled_again (fun q => style (doc q) i pr) data p), twin_style.
  - intro i.
    apply (settled_again (fun q => inner_html (doc q) i) data p),
      twin_inner_html.
  - rewrite !repopulate_fields_completes, Hsel. reflexivity.
Qed.

End Twice.

(** *** What is pending and what was called, along every run *)

Lemma known_timer_reading (t : timer) :
  known_timer t = true ->
  t = monitor_interval (timer_id t) \/ t = one_shot_repoll (timer_id t)
  \/ t = notice_dismissal (timer_id t).
Proof.
  destruct t as [h again ms f]. unfold known_timer. cbn.
  destruct again, f; intro H; try discriminate H;
    apply Z.eqb_eq in H; subst ms; auto.
Qed.

Lemma known_request_reading (r : request) :
  known_request r = true ->
  r = fetch_status
  \/ (exists q xp species, r = replace_queue q xp species)
  \/ (exists xp species, r = clear_queue_request xp species)
  \/ r = abort_all_request.
Proof.
  destruct r as [name f rest]. unfold known_request. cbn. intro H.
  destruct f.
  - destruct rest as [|[b| |[q|s] xp species] rest].
    + apply String.eqb_eq in H. subst name. auto.
    + destruct b; [discriminate H|].
      destruct rest as [|[b| |[q|s] xp species] rest]; try discriminate H.
      destruct rest; [|discriminate H].
      apply andb_true_iff in H. destruct H as (Hname & Hs).
      apply String.eqb_eq in Hname, Hs. subst name s.
      right. right. left. exists xp, species. reflexivity.
    + discriminate H.
    + destruct rest; [|discriminate H].
      apply String.eqb_eq in H. subst name.
      right. left. exists q, xp, species. reflexivity.
    + discriminate H.
  - destruct rest as [|[b| |q xp species] rest]; try discriminate H.
    destruct rest as [|[[|]| |q xp species] rest]; try discriminate H.
    destruct rest; [|discriminate H].
    apply String.eqb_eq in H. subst name. auto.
Qed.

Section Along.

Variable numeral : string -> option Z.

Lemma run_events_maintains (P : window_globals -> Prop) :
  (forall e, maintains P (react numeral e)) ->
  forall (es : list event) (p : page),
    P (win p) -> P (win (run_events numeral es p)).
Proof.
  intros Hreact es. induction es as [|e es IH]; intros p Hp; [exact Hp|].
  cbn [run_events fold_left]. apply IH. apply (Hreact e p Hp).
Qed.

(** X5.  Whatever the user does and whatever the controller answers, only
    three kinds of timers are ever pending: the monitor's interval of
    500 ms and the one-shot timeout of 1000 ms, both running [repop_now],
    and the timeout of 3000 ms that takes the notice away.  (So
    [repop_in_milliseconds], which could set any delay, is never reached.) *)
Theorem pending_timers_along_runs (es : list event) (p : page) (t : timer) :
  (forall t', In t' (timers (win p)) -> known_timer t' = true) ->
  In t (timers (win (run_events numeral es p))) ->
  t = monitor_interval (timer_id t) \/ t = one_shot_repoll (timer_id t)
  \/ t = notice_dismissal (timer_id t).
Proof.
  intros Hp Hin. apply known_timer_reading.
  assert (H : timers_known (win (run_events numeral es p))).
  { apply run_events_maintains; [apply react_timers_known|].
    unfold timers_known. apply forallb_forall. exact Hp. }
  unfold timers_known in H. rewrite forallb_forall in H. now apply H.
Qed.

(** X6.  Along every run the call log holds four kinds of calls only: the
    status fetch ([cjc.complete_status] with an empty object and [true],
    answered by [repopulate_fields]), the queue push ([cjc.set_queue] with
    the queue as an array), the queue clearing ([cjc.set_queue] with
    [false] and then the object holding the text of the empty array) and
    the abort ([cjc.abort_all] without arguments), the last three answered
    by [repop_in_1_second]. *)
Theorem calls_along_runs (es : list event) (p : page) (r : request) :
  (forall r', In r' (requests (win p)) -> known_request r' = true) ->
  In r (requests (win (run_events numeral es p))) ->
  r = fetch_status
  \/ (exists q xp species, r = replace_queue q xp species)
  \/ (exists xp species, r = clear_queue_request xp species)
  \/ r = abort_all_request.
Proof.
  intros Hp Hin. apply known_request_reading.
  assert (H : requests_known (win (run_events numeral es p))).
  { apply run_events_maintains; [apply react_requests_known|].
    unfold requests_known. apply forallb_forall. exact Hp. }
  unfold requests_known in H. rewrite forallb_forall in H. now apply H.
Qed.

(** X7.  From the moment the document is ready (no timer pending, no
    interval handle stored), along every run in which timers come due only
    while they are pending, at most one interval is pending: the monitor's
    500 ms interval under the stored handle while
    [window.fishface_monitoring] is set, and none while it is clear.  The
    monitor never polls twice over. *)
Theorem one_monitor_interval_from_startup (es : list event) (p : page) :
  timers (win p) = [] ->
  fishface_update_loop (win p) = None ->
  dues_are_pending numeral es (run ready p) ->
  let w := win (run_events numeral es (run ready p)) in
  (length (intervals w) <= 1)%nat
  /\ (fishface_monitoring w = true ->
      exists h, fishface_update_loop w = Some h
                /\ intervals w = [monitor_interval h])
  /\ (fishface_monitoring w = false -> intervals w = []).
Proof.
  intros Htimers Hloop Hdue.
  apply single_polling_interval; [|exact Hdue].
  now apply ready_consistent.
Qed.

End Along.

(** *** What a rendered snapshot shows *)

Section Panels.

Variable numeral : string -> option Z.

Lemma check_xp_id_inner_html (i : string) (p : page) :
  i <> "xp_id_header" ->
  inner_html (doc (page_of (check_xp_id numeral p))) i = inner_html (doc p) i.
Proof.
  intro Hi. apply String.eqb_neq in Hi.
  assert (H : keeps (fun q => inner_html (doc q) i) (check_xp_id numeral)).
  { unfold check_xp_id, get_xp_id, attr_data_xp_id, css, html.
    repeat first
      [ frame_step
      | apply keeps_update; intro; cbv beta delta [html_set]; cbn;
        repeat match goal with
               | |- context [match ?x with Some _ => _ | None => _ end] =>
                   destruct x; cbn
               end; rewrite ?Hi; reflexivity ]. }
  apply H.
Qed.

Lemma render_fields_current_job_texts (data : QueueSnapshot) (v : value)
  (q : page) :
  match current_job data with
  | Some cj =>
      let r := page_of (render_fields numeral data v q) in
      inner_html (doc r) "current_job_status"
      = match cj_status cj with
        | Some s => s
        | None => inner_html (doc q) "current_job_status"
        end
      /\ inner_html (doc r) "current_job_remaining_total"
         = ((to_string (cj_remaining cj) ++ "/")
            ++ to_string (cj_total cj))%string
      /\ inner_html (doc r) "current_job_psu_setting"
         = (((to_string (cj_voltage cj) ++ "V with a maximum of ")
             ++ to_string (cj_current cj)) ++ "A")%string
      /\ inner_html (doc r) "current_job_seconds_left"
         = to_string (cj_seconds_left cj)
      /\ inner_html (doc r) "current_job_slug"
         = (if defined (cj_cjr_id cj)
            then (((("(XP_" ++ to_string (cj_xp_id cj)) ++ "_CJR_")
                   ++ to_string (cj_cjr_id cj)) ++ ")")%string
            else "")
  | None =>
      forall i, In i current_job_texts ->
        inner_html (doc (page_of (render_fields numeral data v q))) i
        = inner_html (doc q) i
  end.
Proof.
  destruct data as [x [cj|] [sj|] [dq|]]; cbn [current_job].
  1-4: destruct cj as [status remaining total voltage current left xp cjr];
    destruct status as [s|]; cbn [cj_status]; open_script; cases;
    repeat split; settle.
  all: intros i Hi; cbn in Hi;
    repeat (destruct Hi as [<- | Hi]; [open_script; cases; settle|]);
    destruct Hi.
Qed.

Lemma render_fields_staged_job_texts (data : QueueSnapshot) (v : value)
  (q : page) :
  let r := page_of (render_fields numeral data v q) in
  match staged_job data with
  | Some sj =>
      style (doc r) "staged_job_wrapper" "display" = "block"
      /\ inner_html (doc r) "staged_job_status"
         = match sj_status sj with
           | Some s => s
           | None => inner_html (doc q) "staged_job_status"
           end
      /\ inner_html (doc r) "staged_job_psu_setting"
         = (((to_string (sj_voltage sj) ++ "V with a maximum of ")
             ++ to_string (sj_current sj)) ++ "A")%string
  | None =>
      style (doc r) "staged_job_wrapper" "display" = "none"
      /\ forall i, In i staged_job_texts ->
           inner_html (doc r) i = inner_html (doc q) i
  end.
Proof.
  destruct data as [x [cj|] [sj|] [dq|]]; cbn [staged_job];
    try (destruct sj as [status voltage current];
         destruct status as [s|]; cbn [sj_status]);
    open_script; cases; repeat split; try settle.
  all: intros i Hi; cbn in Hi;
    repeat (destruct Hi as [<- | Hi]; [settle|]); destruct Hi.
Qed.

Lemma render_fields_go_button (data : QueueSnapshot) (v : value) (q : page) :
  style (doc (page_of (render_fields numeral data v q)))
    "go_button" "background-color"
  = if present (current_job data)
    then style (doc q) "go_button" "background-color" else "".
Proof.
  destruct data as [x [cj|] [sj|] [dq|]]; open_script; cases; settle.
Qed.

Lemma check_xp_id_keeps_go_button :
  keeps (fun p => style (doc p) "go_button" "background-color")
    (check_xp_id numeral).
Proof. frame. Qed.

Lemma checked_page_inner_html (data : QueueSnapshot) (p : page) (i : string) :
  i <> "xp_id_header" ->
  inner_html (doc (checked_page numeral data p)) i = inner_html (doc p) i.
Proof.
  intro Hi. unfold checked_page. now rewrite check_xp_id_inner_html.
Qed.

(** X8.  When an experiment is selected at the call, a snapshot with a
    current job shows the current-job panel with the job's remaining and
    total counts joined by a slash, its power-supply setting, its seconds
    left and, when the job has a [cjr_id], the slug built from the job's own
    experiment id; a status the job does not carry leaves the status text
    of the page as it was.  A snapshot without a current job hides the
    panel, resets the colour of the go button and leaves the five texts of
    the panel as they were.  All this holds also when the call then fails
    on a missing queue. *)
Theorem current_job_panel_after_apply (data : QueueSnapshot) (p : page) :
  experiment_selected numeral data p = true ->
  let q := run (repopulate_fields numeral data) p in
  match current_job data with
  | Some cj =>
      style (doc q) "current_job_wrapper" "display" = "block"
      /\ inner_html (doc q) "current_job_status"
         = match cj_status cj with
           | Some s => s
           | None => inner_html (doc p) "current_job_status"
           end
      /\ inner_html (doc q) "current_job_remaining_total"
         = ((to_string (cj_remaining cj) ++ "/")
            ++ to_string (cj_total cj))%string
      /\ inner_html (doc q) "current_job_psu_setting"
         = (((to_string (cj_voltage cj) ++ "V with a maximum of ")
             ++ to_string (cj_current cj)) ++ "A")%string
      /\ inner_html (doc q) "current_job_seconds_left"
         = to_string (cj_seconds_left cj)
      /\ inner_html (doc q) "current_job_slug"
         = (if defined (cj_cjr_id cj)
            then (((("(XP_" ++ to_string (cj_xp_id cj)) ++ "_CJR_")
                   ++ to_string (cj_cjr_id cj)) ++ ")")%string
            else "")
  | None =>
      style (doc q) "current_job_wrapper" "display" = "none"
      /\ style (doc q) "go_button" "background-color" = ""
      /\ forall i, In i current_job_texts ->
           inner_html (doc q) i = inner_html (doc p) i
  end.
Proof.
  intros Hsel q. subst q. unfold run.
  rewrite repopulate_fields_checked, Hsel. cbn [when].
  set (v := checked_xp_id numeral (adopted_xp_id data (data_xp_id (doc p)))).
  pose proof (render_fields_current_job_texts data v
                (checked_page numeral data p)) as Htexts.
  pose proof (render_fields_current_job_wrapper numeral data v
                (checked_page numeral data p)) as Hpanel.
  pose proof (render_fields_go_button data v (checked_page numeral data p))
    as Hgo.
  destruct (current_job data) as [cj|]; cbn [present] in Hpanel, Hgo.
  - cbv zeta in Htexts. destruct Htexts as (H1 & H2 & H3 & H4 & H5).
    rewrite checked_page_inner_html in H1 by discriminate.
    repeat split; assumption.
  - repeat split; try assumption.
    intros i Hi. rewrite (Htexts i Hi). apply checked_page_inner_html.
    cbn in Hi. intuition (subst; discriminate).
Qed.

(** X9.  When an experiment is selected at the call, a snapshot with a
    staged job shows the staged-job panel with the job's power-supply
    setting and its status (a status the job does not carry leaves the text
    as it was); a snapshot without one hides the panel and leaves its two
    texts as they were. *)
Theorem staged_job_panel_after_apply (data : QueueSnapshot) (p : page) :
  experiment_selected numeral data p = true ->
  let q := run (repopulate_fields numeral data) p in
  match staged_job data with
  | Some sj =>
      style (doc q) "staged_job_wrapper" "display" = "block"
      /\ inner_html (doc q) "staged_job_status"
         = match sj_status sj with
           | Some s => s
           | None => inner_html (doc p) "staged_job_status"
           end
      /\ inner_html (doc q) "staged_job_psu_setting"
         = (((to_string (sj_voltage sj) ++ "V with a maximum of ")
             ++ to_string (sj_current sj)) ++ "A")%string
  | None =>
      style (doc q) "staged_job_wrapper" "display" = "none"
      /\ forall i, In i staged_job_texts ->
           inner_html (doc q) i = inner_html (doc p) i
  end.
Proof.
  intros Hsel q. subst q. unfold run.
  rewrite repopulate_fields_checked, Hsel. cbn [when].
  set (v := checked_xp_id numeral (adopted_xp_id data (data_xp_id (doc p)))).
  pose proof (render_fields_staged_job_texts data v
                (checked_page numeral data p)) as Htexts.
  cbv zeta in Htexts.
  destruct (staged_job data) as [sj|].
  - destruct Htexts as (H1 & H2 & H3).
    rewrite checked_page_inner_html in H2 by discriminate.
    repeat split; assumption.
  - destruct Htexts as (H1 & H2). split; [exact H1|].
    intros i Hi. rewrite (H2 i Hi). apply checked_page_inner_html.
    cbn in Hi. intuition (subst; discriminate).
Qed.

End Panels.

(** *** Dragging, starting the queue, choosing the experiment *)

Lemma decimal_first_character (z : Z) :
  exists c rest, decimal z = String c rest /\ c <> "f"%char.
Proof.
  unfold decimal. destruct (Z.to_int z) as [d|d]; cbn.
  - destruct d; cbn; eexists; eexists; (split; [reflexivity | discriminate]).
  - eexists; eexists; (split; [reflexivity | discriminate]).
Qed.

Lemma number_text (n : number) :
  (to_string (Num n) =? "") = false /\ (to_string (Num n) =? "false") = false.
Proof.
  destruct n as [|z]; [split; reflexivity|]. cbn [to_string].
  destruct (decimal_first_character z) as (c & rest & -> & Hc).
  split; [reflexivity|]. apply String.eqb_neq. congruence.
Qed.

Section Choosing.

Variable numeral : string -> option Z.

(** What [check_xp_id] shows for a stored text that is neither empty nor
    "false". *)
Lemma check_xp_id_shown (s : string) (p : page) :
  data_xp_id (doc p) = Some s ->
  (s =? "") = false -> (s =? "false") = false ->
  let q := page_of (check_xp_id numeral p) in
  style (doc q) "xp_select_wrapper" "display" = "none"
  /\ style (doc q) "xp_display_wrapper" "display" = "block"
  /\ style (doc q) "capturejob_queue_wrapper" "display" = "block"
  /\ inner_html (doc q) "xp_id_header"
     = match xp_names (ff p) s with
       | Some name => name
       | None => inner_html (doc p) "xp_id_header"
       end.
Proof.
  intros Hstored Hempty Hfalse q. subst q.
  unfold check_xp_id, get_xp_id, attr_data_xp_id, css, html. exec.
  rewrite Hstored. cbn [loose_eq]. rewrite Hempty.
  unfold loose_neq. cbn [loose_eq]. rewrite Hempty, Hfalse. cbn.
  destruct (xp_names (ff p) s); repeat split.
Qed.

(** X10.  A drag pauses the monitor and the drop resumes it only under the
    push policy.  After [start] and then [update]: when the push flag
    [== true], the monitor is running on a fresh interval (the stored
    handle is the new one, the interval of the old handle is gone) and the
    log has grown by the queue push and a status fetch; when it is not,
    the window globals are those [stop_periodic_monitor] left, so a
    monitor that was running before the drag stays stopped. *)
Theorem monitor_over_drag_and_drop (p : page) :
  let q := run (sortable_update numeral) (run sortable_start p) in
  let xp := stored_xp_id numeral (data_xp_id (doc p)) in
  if loose_eq numeral (push_queue_on_update (ff p)) (Bool true) then
    fishface_monitoring (win q) = true
    /\ fishface_update_loop (win q) = Some (next_timer (win p))
    /\ timers (win q)
       = timers (disarmed (win p)) ++ [monitor_interval (next_timer (win p))]
    /\ requests (win q)
       = requests (win p)
         ++ [replace_queue (queue_array_of (capture_job_queue (doc p))) xp
               (xp_species (ff p) (to_string xp));
             fetch_status]
  else
    win q = disarmed (win p)
    /\ fishface_monitoring (win q) = false.
Proof.
  intros q xp. subst q xp.
  unfold run, sortable_start, sortable_update, queue_placeholder_remove.
  rewrite stop_periodic_monitor_yields. walk.
  destruct (loose_eq numeral (push_queue_on_update (ff p)) (Bool true)).
  - rewrite push_entire_queue_yields. walk.
    rewrite repop_now_yields, start_periodic_monitor_yields. walk.
    rewrite no_jobs_placeholder_yields. cbn.
    rewrite queue_array_of_without_queue_placeholder.
    destruct p as [d f w]; destruct w as [monitoring loop pending next sent out].
    destruct loop; with_strategy opaque [without_timer] cbn;
      rewrite <- app_assoc; repeat split.
  - rewrite no_jobs_placeholder_yields. cbn. split; reflexivity.
Qed.

(** X11.  The go button always pushes: on every page, whatever the push
    flag, also when the working copy is empty (the test
    [queue_array != []] compares with a new array and never fails) and
    when no experiment is selected, [start_queue] issues exactly one
    [cjc.set_queue] call with the whole working copy, turns the button
    green and changes nothing else: no timer, not the monitor, not the
    list, not the stored experiment. *)
Theorem start_queue_always_pushes (p : page) :
  let q := run (start_queue numeral) p in
  let xp := stored_xp_id numeral (data_xp_id (doc p)) in
  issued (start_queue numeral) p
  = [replace_queue (queue_array_of (capture_job_queue (doc p))) xp
       (xp_species (ff p) (to_string xp))]
  /\ style (doc q) "go_button" "background-color" = "green"
  /\ ff q = ff p
  /\ timers (win q) = timers (win p)
  /\ fishface_monitoring (win q) = fishface_monitoring (win p)
  /\ fishface_update_loop (win q) = fishface_update_loop (win p)
  /\ capture_job_queue (doc q) = capture_job_queue (doc p)
  /\ data_xp_id (doc q) = data_xp_id (doc p)
  /\ inner_html (doc q) = inner_html (doc p).
Proof.
  intros q xp. subst q xp. split.
  - apply issued_of_log. unfold run, start_queue, css. walk.
    rewrite push_entire_queue_yields. reflexivity.
  - unfold run, start_queue, css. walk. rewrite push_entire_queue_yields.
    cbn. repeat split.
Qed.

(** X12.  Submitting the selector form always ends with the experiment
    shown and the selector hidden, whatever was submitted: the number of
    the checked radio button is stored as its decimal text, and when no
    button is checked the text "NaN" is stored and shown as an experiment
    all the same.  One status fetch is made, and nothing is scheduled. *)
Theorem form_submit_shows_experiment (checked : option Z) (p : page) :
  let q := run (xp_select_form_submit numeral checked) p in
  let text := match checked with
              | Some z => decimal z
              | None => "NaN"
              end in
  data_xp_id (doc q) = Some text
  /\ style (doc q) "xp_select_wrapper" "display" = "none"
  /\ style (doc q) "xp_display_wrapper" "display" = "block"
  /\ style (doc q) "capturejob_queue_wrapper" "display" = "block"
  /\ inner_html (doc q) "xp_id_header"
     = match xp_names (ff p) text with
       | Some name => name
       | None => inner_html (doc p) "xp_id_header"
       end
  /\ issued (xp_select_form_submit numeral checked) p = [fetch_status]
  /\ timers (win q) = timers (win p)
  /\ ff q = ff p.
Proof.
  intros q text.
  pose proof (xp_select_form_submit_yields numeral checked p) as Hyields.
  cbv zeta in Hyields. destruct Hyields as (Hid & Hlog & Htimers).
  fold q in Hid, Hlog, Htimers.
  assert (Htext : to_string (Num (match checked with
                                  | Some z => Int z
                                  | None => NaN
                                  end)) = text).
  { subst text. destruct checked; reflexivity. }
  destruct (number_text (match checked with
                         | Some z => Int z
                         | None => NaN
                         end)) as (Hempty & Hfalse).
  rewrite Htext in *.
  set (p' := with_doc (set_data_xp_id (Some text)) p).
  pose proof (check_xp_id_shown text p' eq_refl Hempty Hfalse) as Hshown.
  cbv zeta in Hshown.
  assert (Hq : q = with_win (fun w => set_requests (requests w ++ [fetch_status]) w)
                     (page_of (check_xp_id numeral p'))).
  { subst q p'. unfold run, xp_select_form_submit, attr_data_xp_id_set. walk.
    rewrite check_xp_id_yields. walk.
    destruct checked; cbn [attr_set]; rewrite ?Htext; reflexivity. }
  split; [exact Hid|].
  rewrite Hq. cbn [doc with_win ff].
  destruct Hshown as (H1 & H2 & H3 & H4).
  repeat split; try assumption.
  - apply issued_of_log. fold q. exact Hlog.
  - rewrite <- Hq. exact Htimers.
  - rewrite check_xp_id_keeps_ff. reflexivity.
Qed.

(** What [check_xp_id] makes of the page, read off the stored id. *)
Lemma check_xp_id_reading (p : page) :
  numeral "" = Some 0%Z ->
  let q := page_of (check_xp_id numeral p) in
  let shown := match data_xp_id (doc p) with
               | Some s => negb (s =? "") && negb (s =? "false")
               | None => true
               end in
  let id := match data_xp_id (doc p) with
            | Some s => Str s
            | None => Undefined
            end in
  check_xp_id numeral p = returned (if shown then id else Bool false) q
  /\ style (doc q) "xp_select_wrapper" "display"
     = (if shown then "none" else "block")
  /\ style (doc q) "xp_display_wrapper" "display"
     = (if shown then "block" else "none")
  /\ style (doc q) "capturejob_queue_wrapper" "display"
     = (if shown then "block" else "none")
  /\ forall i,
       inner_html (doc q) i
       = match xp_names (ff p) (to_string id) with
         | Some name =>
             if shown && (i =? "xp_id_header") then name
             else inner_html (doc p) i
         | None => inner_html (doc p) i
         end.
Proof.
  intros Hzero q shown id. subst q shown id.
  unfold check_xp_id, get_xp_id, attr_data_xp_id, css, html. exec.
  destruct (data_xp_id (doc p)) as [s|]; cbn [loose_eq].
  - destruct (s =? "") eqn:Hempty; cbn [negb andb].
    + unfold loose_neq, loose_eq, string_to_number. rewrite Hzero. cbn.
      repeat split. intro i. destruct (xp_names (ff p) s); reflexivity.
    + unfold loose_neq. cbn [loose_eq]. rewrite Hempty.
      destruct (s =? "false") eqn:Hfalse; cbn.
      * repeat split. intro i. destruct (xp_names (ff p) s); reflexivity.
      * destruct (xp_names (ff p) s); repeat split.
  - cbn. destruct (xp_names (ff p) "undefined"); repeat split.
Qed.


(** X13.  [check_xp_id] shows either the experiment or the selector,
    never both and never neither: the experiment header and the queue
    wrapper are shown and the selector is hidden when the stored id is
    neither the empty text nor the text "false" (also when the attribute is
    missing altogether), and the other way round otherwise; it returns
    [false] exactly in the second case, and the stored id itself in the
    first.  The only text it writes is the header, with the name the table
    has for the id, and only when the experiment is shown and the table
    has one. *)
Theorem selector_or_experiment (p : page) :
  numeral "" = Some 0%Z ->
  let q := page_of (check_xp_id numeral p) in
  let shown := match data_xp_id (doc p) with
               | Some s => negb (s =? "") && negb (s =? "false")
               | None => true
               end in
  let id := match data_xp_id (doc p) with
            | Some s => Str s
            | None => Undefined
            end in
  check_xp_id numeral p = returned (if shown then id else Bool false) q
  /\ style (doc q) "xp_select_wrapper" "display"
     = (if shown then "none" else "block")
  /\ style (doc q) "xp_display_wrapper" "display"
     = (if shown then "block" else "none")
  /\ style (doc q) "capturejob_queue_wrapper" "display"
     = (if shown then "block" else "none")
  /\ forall i,
       inner_html (doc q) i
       = match xp_names (ff p) (to_string id) with
         | Some name =>
             if shown && (i =? "xp_id_header") then name
             else inner_html (doc p) i
         | None => inner_html (doc p) i
         end.
Proof. apply check_xp_id_reading. Qed.

(** X14.  An experiment whose stored id reads as zero (the text "0", as the
    selector form stores experiment 0, or as a snapshot's id 0 is adopted)
    is shown as selected by [check_xp_id], yet [repop_xp_id != false]
    takes it for no experiment: the call completes and nothing is
    rendered, [window.ff], the window globals, the queue list, the two job
    panels and the colour of the go button stay as they were. *)
Theorem zero_id_shown_but_not_rendered (data : QueueSnapshot) (p : page)
  (s : string) :
  adopted_xp_id data (data_xp_id (doc p)) = Some s ->
  numeral s = Some 0%Z ->
  (s =? "") = false ->
  (s =? "false") = false ->
  let q := run (repopulate_fields numeral data) p in
  completes (repopulate_fields numeral data p) = true
  /\ data_xp_id (doc q) = Some s
  /\ style (doc q) "xp_display_wrapper" "display" = "block"
  /\ style (doc q) "xp_select_wrapper" "display" = "none"
  /\ ff q = ff p
  /\ win q = win p
  /\ capture_job_queue (doc q) = capture_job_queue (doc p)
  /\ style (doc q) "current_job_wrapper" "display"
     = style (doc p) "current_job_wrapper" "display"
  /\ style (doc q) "go_button" "background-color"
     = style (doc p) "go_button" "background-color".
Proof.
  intros Hid Hzero Hempty Hfalse q.
  assert (Hsel : experiment_selected numeral data p = false).
  { rewrite experiment_selected_reading, Hid.
    unfold string_to_number. rewrite Hzero. cbn.
    now rewrite !andb_false_r. }
  subst q. unfold run.
  rewrite repopulate_fields_completes, repopulate_fields_checked, Hsel.
  cbn [when negb orb ret page_of].
  rewrite checked_page_ff, checked_page_win, checked_page_data_xp_id,
    checked_page_capture_job_queue, checked_page_current_job_wrapper.
  unfold checked_page. rewrite Hid.
  set (p' := with_doc (set_data_xp_id (Some s)) p).
  pose proof (check_xp_id_shown s p' eq_refl Hempty Hfalse) as Hshown.
  cbv zeta in Hshown. destruct Hshown as (H1 & H2 & _).
  rewrite (check_xp_id_keeps_go_button numeral p').
  repeat split; assumption.
Qed.

(** X15.  On a page that shows no running job, the change-experiment
    button takes the page back to the selector: the stored id becomes the
    empty text, the selector is shown, the experiment header and the queue
    wrapper are hidden, and no text, no item of the list, no global and no
    timer changes; no call is made. *)
Theorem change_experiment_returns_to_selector (p : page) :
  numeral "" = Some 0%Z ->
  (style (doc p) "current_job_wrapper" "display" =? "none") = true ->
  let q := run (change_experiment numeral) p in
  data_xp_id (doc q) = Some ""
  /\ style (doc q) "xp_select_wrapper" "display" = "block"
  /\ style (doc q) "xp_display_wrapper" "display" = "none"
  /\ style (doc q) "capturejob_queue_wrapper" "display" = "none"
  /\ (forall i, inner_html (doc q) i = inner_html (doc p) i)
  /\ capture_job_queue (doc q) = capture_job_queue (doc p)
  /\ no_change_during_run (doc q) = no_change_during_run (doc p)
  /\ ff q = ff p
  /\ win q = win p.
Proof.
  intros Hzero Hpanel q.
  set (p' := with_doc (set_data_xp_id (Some "")) p).
  assert (Hq : q = page_of (check_xp_id numeral p')).
  { subst q p'. unfold run, change_experiment, css_get, attr_data_xp_id_set.
    walk. cbn [loose_eq]. rewrite Hpanel. rewrite check_xp_id_yields.
    reflexivity. }
  pose proof (check_xp_id_reading p' Hzero) as Hcheck. cbv zeta in Hcheck.
  destruct Hcheck as (_ & H1 & H2 & H3 & H4).
  rewrite Hq, (check_xp_id_keeps_data_xp_id numeral p'),
    (check_xp_id_keeps_capture_job_queue numeral p'),
    (check_xp_id_keeps_no_change_during_run numeral p'),
    check_xp_id_keeps_ff, check_xp_id_keeps_win.
  repeat split; try assumption.
  intro i. rewrite (H4 i). cbn.
  destruct (xp_names (ff p) ""); reflexivity.
Qed.

(** X16.  The clear-queue button works either on the controller or on the
    page, never on both.  When the push flag is truthy it makes exactly one
    [cjc.set_queue] call and leaves the document, the list included, and
    the timers as they are; when it is not, it makes no call and the list
    becomes the empty-queue placeholder alone, so that the working copy is
    empty. *)
Theorem clear_queue_remote_or_local (p : page) :
  let q := run (clear_queue numeral) p in
  let xp := stored_xp_id numeral (data_xp_id (doc p)) in
  ff q = ff p
  /\ timers (win q) = timers (win p)
  /\ fishface_monitoring (win q) = fishface_monitoring (win p)
  /\ data_xp_id (doc q) = data_xp_id (doc p)
  /\ if to_boolean (push_queue_on_update (ff p)) then
       issued (clear_queue numeral) p
       = [clear_queue_request xp (xp_species (ff p) (to_string xp))]
       /\ doc q = doc p
     else
       issued (clear_queue numeral) p = []
       /\ capture_job_queue (doc q) = [queue_placeholder]
       /\ queue_array_of (capture_job_queue (doc q)) = [].
Proof.
  intros q xp. pose proof (clear_queue_yields numeral p) as H.
  cbv zeta in H. fold q xp in H.
  destruct (to_boolean (push_queue_on_update (ff p))).
  - destruct H as (Hlog & Htimers & Hflag & Hdoc & Hff).
    rewrite Hdoc. repeat split; try assumption.
    apply issued_of_log. exact Hlog.
  - destruct H as (Hwin & Hff & Hlist).
    rewrite Hwin, Hlist. repeat split; try assumption.
    + subst q. unfold run, clear_queue, bind. rewrite get_xp_id_yields. walk.
      destruct (to_boolean (push_queue_on_update (ff p))); reflexivity.
    + apply issued_of_log. fold q. rewrite Hwin, app_nil_r. reflexivity.
Qed.

End Choosing.

(** *** The queue list *)

Section QueueList.

Variable numeral : string -> option Z.

Lemma checked_xp_id_selected (s : string) :
  (s =? "") = false -> (s =? "false") = false ->
  checked_xp_id numeral (Some s) = Str s.
Proof.
  intros Hempty Hfalse. unfold checked_xp_id, stored_xp_id. cbn [loose_eq].
  rewrite Hempty. unfold loose_neq. cbn [loose_eq].
  rewrite Hempty, Hfalse. reflexivity.
Qed.

Lemma experiment_selected_text (data : QueueSnapshot) (p : page) (s : string) :
  adopted_xp_id data (data_xp_id (doc p)) = Some s ->
  experiment_selected numeral data p = true ->
  (s =? "") = false /\ (s =? "false") = false.
Proof.
  intros Hid Hsel. rewrite experiment_selected_reading, Hid in Hsel.
  destruct (s =? ""), (s =? "false"); try discriminate Hsel.
  split; reflexivity.
Qed.

(** X17.  With a stored experiment id that is selected, applying a snapshot
    replaces the children of the queue list by the items built for the
    jobs of the snapshot's queue, one for each job and in the queue's
    order, with no placeholder left and none of the former items; for the
    empty queue the list is the placeholder alone.  The stored id stays. *)
Theorem queue_rendered_in_order (data : QueueSnapshot) (p : page)
  (s : string) (dq : list JobSpec) :
  adopted_xp_id data (data_xp_id (doc p)) = Some s ->
  experiment_selected numeral data p = true ->
  queue data = Some dq ->
  let q := run (repopulate_fields numeral data) p in
  capture_job_queue (doc q)
  = match dq with
    | [] => [queue_placeholder]
    | _ => map cjt_li_chunk_from_job_spec dq
    end
  /\ data_xp_id (doc q) = Some s
  /\ completes (repopulate_fields numeral data p) = true.
Proof.
  intros Hid Hsel Hqueue q.
  destruct (experiment_selected_text data p s Hid Hsel) as (Hempty & Hfalse).
  repeat split.
  - subst q. rewrite repopulate_fields_capture_job_queue, Hsel, Hqueue, Hid.
    rewrite (checked_xp_id_selected s Hempty Hfalse). cbn [to_boolean].
    rewrite Hempty. destruct dq; reflexivity.
  - subst q. rewrite repopulate_fields_data_xp_id. exact Hid.
  - rewrite repopulate_fields_completes, Hqueue. apply orb_true_r.
Qed.

(** X18.  On a page whose wrapper element has no [data-xp_id] attribute at
    all, a snapshot that does not bring its own experiment is rendered
    ([undefined != false] holds), but its queue is never shown: however
    many jobs are queued, the list becomes the empty-queue placeholder,
    because the second test of line 48 takes [undefined] for false. *)
Theorem queue_hidden_without_attribute (data : QueueSnapshot) (p : page)
  (dq : list JobSpec) :
  data_xp_id (doc p) = None ->
  defined (xp_id data) && present (current_job data) = false ->
  queue data = Some dq ->
  let q := run (repopulate_fields numeral data) p in
  experiment_selected numeral data p = true
  /\ completes (repopulate_fields numeral data p) = true
  /\ push_queue_on_update (ff q) = Bool (present (current_job data))
  /\ capture_job_queue (doc q) = [queue_placeholder]
  /\ queue_array_of (capture_job_queue (doc q)) = [].
Proof.
  intros Hstored Hadopt Hqueue q.
  assert (Hid : adopted_xp_id data (data_xp_id (doc p)) = None).
  { unfold adopted_xp_id. now rewrite Hadopt. }
  assert (Hsel : experiment_selected numeral data p = true).
  { rewrite experiment_selected_reading, Hid. reflexivity. }
  assert (Hlist : capture_job_queue (doc q) = [queue_placeholder]).
  { subst q. rewrite repopulate_fields_capture_job_queue, Hsel, Hqueue, Hid.
    cbn. now rewrite andb_false_r. }
  subst q.
  rewrite repopulate_fields_completes, repopulate_fields_push, Hsel, Hqueue.
  rewrite Hlist. repeat split.
Qed.

(** X19.  Whether a dragged item is deleted is decided by the last of
    [over] and [out] before the drop.  After [out], [beforeStop] removes the
    dragged item and no other, and shows the placeholder alone when no job
    is left; after [over] it keeps the document and the window globals as
    they are and records the item and the helper's job specification in
    [window.ff].  The item is kept as well when neither handler ran and the
    flag is still undefined. *)
Theorem drag_out_deletes_drag_over_keeps (ui : sortable_ui) (p : page) :
  (let q := run (sortable_beforeStop numeral ui) (run sortable_out p) in
   let l := without_item (item ui) (capture_job_queue (doc p)) in
   capture_job_queue (doc q)
   = match queue_array_of l with
     | [] => [queue_placeholder]
     | _ => l
     end
   /\ data_xp_id (doc q) = data_xp_id (doc p)
   /\ new_item (ff q) = new_item (ff p)
   /\ push_queue_on_update (ff q) = push_queue_on_update (ff p))
  /\ (let q := run (sortable_beforeStop numeral ui) (run sortable_over p) in
      doc q = doc p /\ win q = win p
      /\ new_item (ff q) = Some (item ui)
      /\ attrib_job_spec (ff q) = helper_attrib_job_spec ui
      /\ push_queue_on_update (ff q) = push_queue_on_update (ff p))
  /\ (let unset := with_ff (set_keep_job_in_queue Undefined) p in
      let q := run (sortable_beforeStop numeral ui) unset in
      doc q = doc p /\ win q = win p /\ new_item (ff q) = Some (item ui)).
Proof.
  split; [|split].
  - pose proof (sortable_beforeStop_removes numeral ui (run sortable_out p)
                  eq_refl)
      as H.
    cbv zeta in H. destruct H as (Hlist & Hid & Hff).
    cbv zeta. rewrite Hlist, Hid, Hff. repeat split.
  - unfold run, sortable_over, sortable_beforeStop. walk. cbn. repeat split.
  - unfold run, sortable_beforeStop. walk. cbn. repeat split.
Qed.
End QueueList.
(** *** Notices, the push tests, the dropped item *)

Lemma hasClass_removeClass (c d : string) (classes : list string) :
  hasClass c (removeClass d classes)
  = negb (c =? d) && hasClass c classes.
Proof.
  unfold hasClass, removeClass.
  induction classes as [|x classes IH]; cbn.
  - now rewrite andb_false_r.
  - destruct (x =? d) eqn:Hxd; cbn.
    + rewrite IH. apply String.eqb_eq in Hxd. subst x.
      destruct (c =? d); reflexivity.
    + rewrite IH. destruct (c =? x) eqn:Hcx; cbn.
      * apply String.eqb_eq in Hcx. subst x. rewrite Hxd. reflexivity.
      * reflexivity.
Qed.

Lemma hasClass_addClass (c d : string) (classes : list string) :
  hasClass c (addClass d classes) = (c =? d) || hasClass c classes.
Proof.
  unfold addClass. destruct (hasClass d classes) eqn:Hd.
  - destruct (c =? d) eqn:Hcd; [|reflexivity].
    apply String.eqb_eq in Hcd. subst c. exact Hd.
  - unfold hasClass. rewrite existsb_app. cbn.
    rewrite orb_false_r. apply orb_comm.
Qed.

(** X20.  [stop] turns a freshly dragged template into a queue item: after
    it the dropped item never has the class [fresh_cjt], it has the class
    [job_queue_item] exactly when it had it before or was fresh, and every
    other class is as it was; running [stop] again changes nothing. *)
Theorem stop_turns_template_into_queue_item (item_classes : list string) :
  (forall c,
     hasClass c (sortable_stop item_classes)
     = if c =? "fresh_cjt" then false
       else if c =? "job_queue_item"
            then hasClass "fresh_cjt" item_classes
                 || hasClass "job_queue_item" item_classes
            else hasClass c item_classes)
  /\ sortable_stop (sortable_stop item_classes) = sortable_stop item_classes.
Proof.
  assert (Hclasses : forall c,
     hasClass c (sortable_stop item_classes)
     = if c =? "fresh_cjt" then false
       else if c =? "job_queue_item"
            then hasClass "fresh_cjt" item_classes
                 || hasClass "job_queue_item" item_classes
            else hasClass c item_classes).
  { intro c. unfold sortable_stop.
    destruct (hasClass "fresh_cjt" item_classes) eqn:Hfresh.
    - rewrite hasClass_addClass, hasClass_removeClass.
      destruct (c =? "fresh_cjt") eqn:Hc.
      + apply String.eqb_eq in Hc. subst c. reflexivity.
      + destruct (c =? "job_queue_item"); reflexivity.
    - destruct (c =? "fresh_cjt") eqn:Hc.
      + apply String.eqb_eq in Hc. subst c. exact Hfresh.
      + destruct (c =? "job_queue_item") eqn:Hc'; [|reflexivity].
        apply String.eqb_eq in Hc'. subst c. reflexivity. }
  split; [exact Hclasses|].
  unfold sortable_stop at 1.
  rewrite (Hclasses "fresh_cjt"). reflexivity.
Qed.

Section Notices.

Variable numeral : string -> option Z.

Lemma rejected_clicks (n : nat) (p : page) :
  (style (doc p) "current_job_wrapper" "display" =? "none") = false ->
  let q := Nat.iter n (run (change_experiment numeral)) p in
  style (doc q) = style (doc p)
  /\ data_xp_id (doc q) = data_xp_id (doc p)
  /\ no_change_during_run (doc q) = n + no_change_during_run (doc p)
  /\ timers (win q)
     = timers (win p) ++ map notice_dismissal (seq (next_timer (win p)) n)
  /\ next_timer (win q) = n + next_timer (win p)
  /\ requests (win q) = requests (win p)
  /\ ff q = ff p.
Proof.
  intros Hpanel. induction n as [|n IH].
  - cbn. rewrite app_nil_r. repeat split.
  - cbv zeta in IH |- *. rewrite Nat.iter_succ.
    set (q := Nat.iter n (run (change_experiment numeral)) p) in *.
    destruct IH as (Hstyle & Hid & Hnotices & Htimers & Hnext & Hlog & Hff).
    pose proof (change_experiment_yields numeral q) as Hclick.
    cbv zeta in Hclick. rewrite Hstyle in Hclick. cbn [loose_eq] in Hclick.
    rewrite Hpanel in Hclick. destruct Hclick as (Hdoc & Hff' & Hwin).
    rewrite seq_S, map_app, app_assoc, <- Htimers, Hdoc, Hff', Hwin.
    cbn [style data_xp_id no_change_during_run set_no_change_during_run
         timers next_timer requests set_timers map].
    rewrite Hnotices, Hnext, (Nat.add_comm (next_timer (win p)) n).
    repeat split; assumption.
Qed.

Lemma dismissals_run (hs : list nat) (q : page) :
  let r := run_events numeral (dismissals hs) q in
  no_change_during_run (doc r)
  = Nat.iter (length hs) pred (no_change_during_run (doc q))
  /\ timers (win r)
     = fold_left (fun l h => without_timer h l) hs (timers (win q))
  /\ requests (win r) = requests (win q)
  /\ data_xp_id (doc r) = data_xp_id (doc q)
  /\ ff r = ff q.
Proof.
  revert q. induction hs as [|h hs IH]; intro q; [repeat split|].
  cbn [dismissals map run_events fold_left length].
  specialize (IH (run (react numeral (timer_due (notice_dismissal h))) q)).
  cbv zeta in IH. unfold dismissals, run_events in IH.
  destruct IH as (Hnotices & Htimers & Hlog & Hid & Hff).
  cbv zeta. rewrite Hnotices, Htimers, Hlog, Hid, Hff.
  repeat split. cbn [length]. rewrite Nat.iter_succ_r. reflexivity.
Qed.

Lemma spent_dismissals (old : list timer) (next n : nat) :
  (forall t, In t old -> (timer_id t < next)%nat) ->
  fold_left (fun l h => without_timer h l) (seq next n)
    (old ++ map notice_dismissal (seq next n))
  = old.
Proof.
  intro Hbelow.
  assert (Hfold : forall hs l,
            fold_left (fun l h => without_timer h l) hs l
            = filter (fun t => negb (existsb (Nat.eqb (timer_id t)) hs)) l).
  { induction hs as [|h hs IHhs]; intro l; cbn.
    - induction l as [|t l IHl]; cbn; [reflexivity | now rewrite <- IHl].
    - rewrite IHhs. unfold without_timer.
      induction l as [|t l IHl]; cbn; [reflexivity|].
      destruct (timer_id t =? h)%nat; cbn; rewrite IHl; reflexivity. }
  rewrite Hfold, filter_app.
  assert (Hold : filter (fun t => negb (existsb (Nat.eqb (timer_id t)) (seq next n)))
                   old = old).
  { clear Hfold. induction old as [|t old IHold]; cbn; [reflexivity|].
    assert (Ht : existsb (Nat.eqb (timer_id t)) (seq next n) = false).
    { destruct (existsb (Nat.eqb (timer_id t)) (seq next n)) eqn:E;
        [|reflexivity].
      apply existsb_exists in E. destruct E as (h & Hin & Heq).
      apply Nat.eqb_eq in Heq. apply in_seq in Hin.
      specialize (Hbelow t (or_introl eq_refl)). lia. }
    rewrite Ht. cbn. rewrite IHold; [reflexivity|].
    intros t' Hin. apply Hbelow. now right. }
  assert (Hnew : filter (fun t => negb (existsb (Nat.eqb (timer_id t)) (seq next n)))
                   (map notice_dismissal (seq next n)) = []).
  { assert (forall l, (forall h, In h l -> In h (seq next n)) ->
              filter (fun t => negb (existsb (Nat.eqb (timer_id t)) (seq next n)))
                (map notice_dismissal l) = []) as Hall.
    { induction l as [|h l IHl]; intro Hsub; cbn; [reflexivity|].
      assert (Hh : existsb (Nat.eqb h) (seq next n) = true).
      { apply existsb_exists. exists h. split; [apply Hsub; now left|].
        apply Nat.eqb_refl. }
      rewrite Hh. cbn. apply IHl. intros h' Hin. apply Hsub. now right. }
    apply Hall. auto. }
  rewrite Hold, Hnew. apply app_nil_r.
Qed.

(** X21.  While a job is shown as running, every click on the
    change-experiment button is turned down with a notice of its own: [n]
    clicks leave [n] more notices and [n] more timeouts of 3000 ms pending,
    the stored experiment, the styles and the call log as they were.  When
    those timeouts have come due the notices are gone again one by one,
    and the pending timers are those from before the clicks. *)
Theorem rejected_changes_stack_and_clear (n : nat) (p : page) :
  (style (doc p) "current_job_wrapper" "display" =? "none") = false ->
  (forall t, In t (timers (win p)) -> (timer_id t < next_timer (win p))%nat) ->
  let asked := Nat.iter n (run (change_experiment numeral)) p in
  let handles := seq (next_timer (win p)) n in
  let dismissed := run_events numeral (dismissals handles) asked in
  (no_change_during_run (doc asked) = n + no_change_during_run (doc p)
   /\ timers (win asked) = timers (win p) ++ map notice_dismissal handles
   /\ data_xp_id (doc asked) = data_xp_id (doc p)
   /\ style (doc asked) = style (doc p)
   /\ requests (win asked) = requests (win p))
  /\ (no_change_during_run (doc dismissed) = no_change_during_run (doc p)
      /\ timers (win dismissed) = timers (win p)
      /\ data_xp_id (doc dismissed) = data_xp_id (doc p)
      /\ requests (win dismissed) = requests (win p)).
Proof.
  intros Hpanel Hbelow asked handles dismissed.
  destruct (rejected_clicks n p Hpanel)
    as (Hstyle & Hid & Hnotices & Htimers & _ & Hlog & _).
  fold asked in Hstyle, Hid, Hnotices, Htimers, Hlog.
  destruct (dismissals_run handles asked) as (Hgone & Hspent & Hlog' & Hid' & _).
  fold dismissed in Hgone, Hspent, Hlog', Hid'.
  split; [repeat split; assumption|].
  repeat split.
  - rewrite Hgone, Hnotices. unfold handles. rewrite length_seq.
    generalize (no_change_during_run (doc p)). clear.
    induction n as [|n IH]; intro c; [reflexivity|].
    rewrite Nat.iter_succ_r. cbn [Nat.add Nat.pred]. apply IH.
  - rewrite Hspent, Htimers. now apply spent_dismissals.
  - congruence.
  - congruence.
Qed.

End Notices.
(** *** The two tests of the push flag, and the delayed re-poll *)

Section Policy.

Variable numeral : string -> option Z.

Lemma flag_like_tests_agree (v : value) :
  flag_like v = true -> to_boolean v = loose_eq numeral v (Bool true).
Proof. destruct v as [| |[|]|n|s]; intro H; try discriminate H; reflexivity. Qed.

Lemma react_flag_like (e : event) (p : page) :
  flag_like (push_queue_on_update (ff p)) = true ->
  flag_like (push_queue_on_update (ff (run (react numeral e) p))) = true.
Proof.
  intro Hp. destruct (applies_snapshot e) eqn:He.
  - destruct e as [i|t|r data]; try discriminate He.
    cbn [react]. unfold complete. unfold applies_snapshot in He.
    destruct (done r); [discriminate He|].
    rewrite repopulate_fields_push.
    destruct (experiment_selected numeral data p); [reflexivity | exact Hp].
  - unfold run. rewrite (react_keeps_push_queue_on_update numeral e He p).
    exact Hp.
Qed.

(** X22.  [clear_queue] tests the push flag for truthiness and the drop
    handlers test it with [== true].  On a page where the flag is unset or
    a boolean the two tests agree, and they go on agreeing along every run,
    because the script only ever stores [true] or [false] in the flag: the
    clear-queue button calls the controller exactly when a drop would. *)
Theorem push_tests_agree_along_runs (es : list event) (p : page) :
  flag_like (push_queue_on_update (ff p)) = true ->
  let q := run_events numeral es p in
  flag_like (push_queue_on_update (ff q)) = true
  /\ to_boolean (push_queue_on_update (ff q))
     = loose_eq numeral (push_queue_on_update (ff q)) (Bool true).
Proof.
  intros Hp q.
  assert (Hq : flag_like (push_queue_on_update (ff q)) = true).
  { subst q. revert p Hp. induction es as [|e es IH]; intros p Hp; [exact Hp|].
    cbn [run_events fold_left]. apply IH. now apply react_flag_like. }
  split; [exact Hq | now apply flag_like_tests_agree].
Qed.

End Policy.

(** X23.  [repop_in_milliseconds] schedules one status fetch and makes no
    call itself: it adds one timeout of the given delay running
    [repop_now]; when that timeout comes due one [cjc.complete_status] call
    is made and the pending timers are those from before.
    [repop_in_1_second] is the same with a delay of 1000 ms. *)
Theorem delayed_repoll_round_trip (msec : Z) (p : page) :
  (forall t, In t (timers (win p)) -> (timer_id t < next_timer (win p))%nat) ->
  let scheduled := run (repop_in_milliseconds msec) p in
  let due := {| timer_id := next_timer (win p); repeats := false;
                delay := msec; callback := call_repop_now |} in
  let fired := run (fire due) scheduled in
  timers (win scheduled) = timers (win p) ++ [due]
  /\ requests (win scheduled) = requests (win p)
  /\ timers (win fired) = timers (win p)
  /\ requests (win fired) = requests (win p) ++ [fetch_status]
  /\ doc fired = doc p
  /\ ff fired = ff p
  /\ fishface_monitoring (win fired) = fishface_monitoring (win p)
  /\ run repop_in_1_second p = run (repop_in_milliseconds 1000) p.
Proof.
  intros Hbelow scheduled due fired. subst scheduled due fired.
  repeat split.
  with_strategy opaque [without_timer] cbn.
  unfold without_timer. rewrite filter_app. cbn.
  rewrite Nat.eqb_refl. cbn. rewrite app_nil_r.
  induction (timers (win p)) as [|t l IH]; cbn; [reflexivity|].
  assert (Ht : (timer_id t =? next_timer (win p))%nat = false).
  { apply Nat.eqb_neq. specialize (Hbelow t (or_introl eq_refl)). lia. }
  rewrite Ht. cbn. f_equal. apply IH.
  intros t' Hin. apply Hbelow. now right.
Qed.

(** *** The theorems with hypotheses, at concrete pages and runs *)

Lemma push_flag_written_by_snapshots_only_witness :
  applies_snapshot (user go_button_click) = false
  /\ push_queue_on_update
       (ff (run (react read_integer (user go_button_click))
              page_with_running_job))
     = push_queue_on_update (ff page_with_running_job).
Proof.
  split; [reflexivity|].
  apply (push_flag_written_by_snapshots_only read_integer
           (user go_button_click) page_with_running_job).
  reflexivity.
Defined.

Lemma experiment_id_writers_witness :
  writes_experiment (user clear_queue_button_click) = false
  /\ data_xp_id
       (doc (run (react read_integer (user clear_queue_button_click))
               page_with_running_job))
     = data_xp_id (doc page_with_running_job).
Proof.
  split; [reflexivity|].
  apply (experiment_id_writers read_integer
           (user clear_queue_button_click) page_with_running_job).
  reflexivity.
Defined.

Lemma queue_list_left_alone_witness :
  leaves_queue_list (user change_xp_button_click) = true
  /\ capture_job_queue
       (doc (run (react read_integer (user change_xp_button_click))
               page_with_running_job))
     = capture_job_queue (doc page_with_running_job).
Proof.
  split; [reflexivity|].
  apply (queue_list_left_alone read_integer
           (user change_xp_button_click) page_with_running_job).
  reflexivity.
Defined.

Lemma pending_timers_along_runs_witness :
  (forall t', In t' (timers (win page_with_experiment)) ->
     known_timer t' = true)
  /\ In (one_shot_repoll 2)
       (timers (win (run_events read_integer
                       [completed fetch_status (running_snapshot (Num (Int 5)));
                        user go_button_click;
                        completed (replace_queue [] (Str "5") Undefined)
                          (running_snapshot (Num (Int 5)))]
                       page_with_experiment)))
  /\ (one_shot_repoll 2 = monitor_interval (timer_id (one_shot_repoll 2))
      \/ one_shot_repoll 2 = one_shot_repoll (timer_id (one_shot_repoll 2))
      \/ one_shot_repoll 2 = notice_dismissal (timer_id (one_shot_repoll 2))).
Proof.
  split; [intros t' []|].
  split; [right; left; reflexivity|].
  apply (pending_timers_along_runs read_integer
           [completed fetch_status (running_snapshot (Num (Int 5)));
            user go_button_click;
            completed (replace_queue [] (Str "5") Undefined)
              (running_snapshot (Num (Int 5)))]
           page_with_experiment (one_shot_repoll 2));
    [intros t' [] | right; left; reflexivity].
Defined.

Lemma calls_along_runs_witness :
  (forall r', In r' (requests (win page_with_running_job)) ->
     known_request r' = true)
  /\ In (clear_queue_request (Str "5") Undefined)
       (requests (win (run_events read_integer
                         [user clear_queue_button_click;
                          user abort_all_button_click]
                         page_with_running_job)))
  /\ (clear_queue_request (Str "5") Undefined = fetch_status
      \/ (exists q xp species,
            clear_queue_request (Str "5") Undefined
            = replace_queue q xp species)
      \/ (exists xp species,
            clear_queue_request (Str "5") Undefined
            = clear_queue_request xp species)
      \/ clear_queue_request (Str "5") Undefined = abort_all_request).
Proof.
  split; [intros r' []|].
  split; [left; reflexivity|].
  apply (calls_along_runs read_integer
           [user clear_queue_button_click; user abort_all_button_click]
           page_with_running_job (clear_queue_request (Str "5") Undefined));
    [intros r' [] | left; reflexivity].
Defined.

Lemma one_monitor_interval_from_startup_witness :
  timers (win page_with_experiment) = []
  /\ fishface_update_loop (win page_with_experiment) = None
  /\ dues_are_pending read_integer
       [completed fetch_status (running_snapshot (Num (Int 5)));
        timer_due (monitor_interval 1);
        user monitor_button_click;
        user sortable_started;
        user sortable_updated]
       (run ready page_with_experiment)
  /\ (let w := win (run_events read_integer
                      [completed fetch_status (running_snapshot (Num (Int 5)));
                       timer_due (monitor_interval 1);
                       user monitor_button_click;
                       user sortable_started;
                       user sortable_updated]
                      (run ready page_with_experiment)) in
      (length (intervals w) <= 1)%nat
      /\ (fishface_monitoring w = true ->
          exists h, fishface_update_loop w = Some h
                    /\ intervals w = [monitor_interval h])
      /\ (fishface_monitoring w = false -> intervals w = [])).
Proof.
  split; [reflexivity|].
  split; [reflexivity|].
  split; [simpl; repeat split; left; reflexivity|].
  apply (one_monitor_interval_from_startup read_integer
           [completed fetch_status (running_snapshot (Num (Int 5)));
            timer_due (monitor_interval 1);
            user monitor_button_click;
            user sortable_started;
            user sortable_updated]
           page_with_experiment);
    [reflexivity | reflexivity | simpl; repeat split; left; reflexivity].
Defined.

Lemma current_job_panel_after_apply_witness :
  experiment_selected read_integer (running_snapshot (Num (Int 5)))
    page_with_experiment = true
  /\ (let q := run (repopulate_fields read_integer
                      (running_snapshot (Num (Int 5))))
                 page_with_experiment in
      style (doc q) "current_job_wrapper" "display" = "block"
      /\ inner_html (doc q) "current_job_status" = "running"
      /\ inner_html (doc q) "current_job_remaining_total" = "3/10"
      /\ inner_html (doc q) "current_job_psu_setting"
         = "12V with a maximum of 2A"
      /\ inner_html (doc q) "current_job_seconds_left" = "45"
      /\ inner_html (doc q) "current_job_slug" = "(XP_5_CJR_7)").
Proof.
  split; [reflexivity|].
  apply (current_job_panel_after_apply read_integer
           (running_snapshot (Num (Int 5))) page_with_experiment).
  reflexivity.
Defined.

Lemma staged_job_panel_after_apply_witness :
  experiment_selected read_integer (staged_snapshot (Num (Int 5)))
    page_with_experiment = true
  /\ (let q := run (repopulate_fields read_integer
                      (staged_snapshot (Num (Int 5))))
                 page_with_experiment in
      style (doc q) "staged_job_wrapper" "display" = "block"
      /\ inner_html (doc q) "staged_job_status" = "staged"
      /\ inner_html (doc q) "staged_job_psu_setting"
         = "12V with a maximum of 2A").
Proof.
  split; [reflexivity|].
  apply (staged_job_panel_after_apply read_integer
           (staged_snapshot (Num (Int 5))) page_with_experiment).
  reflexivity.
Defined.

Lemma selector_or_experiment_witness :
  read_integer "" = Some 0%Z
  /\ (let q := page_of (check_xp_id read_integer page_without_experiment) in
      check_xp_id read_integer page_without_experiment
      = returned (Bool false) q
      /\ style (doc q) "xp_select_wrapper" "display" = "block"
      /\ style (doc q) "xp_display_wrapper" "display" = "none"
      /\ style (doc q) "capturejob_queue_wrapper" "display" = "none"
      /\ forall i,
           inner_html (doc q) i = inner_html (doc page_without_experiment) i).
Proof.
  split; [reflexivity|].
  apply (selector_or_experiment read_integer page_without_experiment).
  reflexivity.
Defined.

Lemma zero_id_shown_but_not_rendered_witness :
  let p := sample_page (Some "0") (Bool false) "none" [queue_placeholder] in
  let data := idle_snapshot (Num (Int 0)) (Some [sample_spec 3]) in
  adopted_xp_id data (data_xp_id (doc p)) = Some "0"
  /\ read_integer "0" = Some 0%Z
  /\ ("0" =? "") = false
  /\ ("0" =? "false") = false
  /\ (let q := run (repopulate_fields read_integer data) p in
      completes (repopulate_fields read_integer data p) = true
      /\ data_xp_id (doc q) = Some "0"
      /\ style (doc q) "xp_display_wrapper" "display" = "block"
      /\ style (doc q) "xp_select_wrapper" "display" = "none"
      /\ ff q = ff p
      /\ win q = win p
      /\ capture_job_queue (doc q) = capture_job_queue (doc p)
      /\ style (doc q) "current_job_wrapper" "display"
         = style (doc p) "current_job_wrapper" "display"
      /\ style (doc q) "go_button" "background-color"
         = style (doc p) "go_button" "background-color").
Proof.
  intros p data.
  split; [reflexivity|].
  split; [reflexivity|].
  split; [reflexivity|].
  split; [reflexivity|].
  apply (zero_id_shown_but_not_rendered read_integer data p "0");
    reflexivity.
Defined.

Lemma queue_rendered_in_order_witness :
  let data := idle_snapshot (Num (Int 5))
                (Some [sample_spec 4; sample_spec 6; sample_spec 3]) in
  adopted_xp_id data (data_xp_id (doc page_with_experiment)) = Some "5"
  /\ experiment_selected read_integer data page_with_experiment = true
  /\ queue data = Some [sample_spec 4; sample_spec 6; sample_spec 3]
  /\ (let q := run (repopulate_fields read_integer data)
                 page_with_experiment in
      capture_job_queue (doc q)
      = [cjt_li_chunk_from_job_spec (sample_spec 4);
         cjt_li_chunk_from_job_spec (sample_spec 6);
         cjt_li_chunk_from_job_spec (sample_spec 3)]
      /\ data_xp_id (doc q) = Some "5"
      /\ completes (repopulate_fields read_integer data page_with_experiment)
         = true).
Proof.
  intro data.
  split; [reflexivity|].
  split; [reflexivity|].
  split; [reflexivity|].
  apply (queue_rendered_in_order read_integer data page_with_experiment "5"
           [sample_spec 4; sample_spec 6; sample_spec 3]);
    reflexivity.
Defined.

Lemma queue_hidden_without_attribute_witness :
  let p := sample_page None (Bool false) "none" [job_item (sample_spec 3)] in
  let data := idle_snapshot (Num (Int 5))
                (Some [sample_spec 4; sample_spec 6]) in
  data_xp_id (doc p) = None
  /\ defined (xp_id data) && present (current_job data) = false
  /\ queue data = Some [sample_spec 4; sample_spec 6]
  /\ (let q := run (repopulate_fields read_integer data) p in
      experiment_selected read_integer data p = true
      /\ completes (repopulate_fields read_integer data p) = true
      /\ push_queue_on_update (ff q) = Bool (present (current_job data))
      /\ capture_job_queue (doc q) = [queue_placeholder]
      /\ queue_array_of (capture_job_queue (doc q)) = []).
Proof.
  intros p data.
  split; [reflexivity|].
  split; [reflexivity|].
  split; [reflexivity|].
  apply (queue_hidden_without_attribute read_integer data p
           [sample_spec 4; sample_spec 6]);
    reflexivity.
Defined.

Lemma change_experiment_returns_to_selector_witness :
  read_integer "" = Some 0%Z
  /\ (style (doc page_with_experiment) "current_job_wrapper" "display"
      =? "none") = true
  /\ (let q := run (change_experiment read_integer) page_with_experiment in
      data_xp_id (doc q) = Some ""
      /\ style (doc q) "xp_select_wrapper" "display" = "block"
      /\ style (doc q) "xp_display_wrapper" "display" = "none"
      /\ style (doc q) "capturejob_queue_wrapper" "display" = "none"
      /\ (forall i,
            inner_html (doc q) i = inner_html (doc page_with_experiment) i)
      /\ capture_job_queue (doc q)
         = capture_job_queue (doc page_with_experiment)
      /\ no_change_during_run (doc q)
         = no_change_during_run (doc page_with_experiment)
      /\ ff q = ff page_with_experiment
      /\ win q = win page_with_experiment).
Proof.
  split; [reflexivity|].
  split; [reflexivity|].
  apply (change_experiment_returns_to_selector read_integer
           page_with_experiment);
    reflexivity.
Defined.

Lemma rejected_changes_stack_and_clear_witness :
  (style (doc page_with_running_job) "current_job_wrapper" "display"
   =? "none") = false
  /\ (forall t, In t (timers (win page_with_running_job)) ->
        (timer_id t < next_timer (win page_with_running_job))%nat)
  /\ (let asked := Nat.iter 3 (run (change_experiment read_integer))
                     page_with_running_job in
      let handles := seq (next_timer (win page_with_running_job)) 3 in
      let dismissed := run_events read_integer (dismissals handles) asked in
      (no_change_during_run (doc asked)
       = 3 + no_change_during_run (doc page_with_running_job)
       /\ timers (win asked)
          = timers (win page_with_running_job)
            ++ map notice_dismissal handles
       /\ data_xp_id (doc asked) = data_xp_id (doc page_with_running_job)
       /\ style (doc asked) = style (doc page_with_running_job)
       /\ requests (win asked) = requests (win page_with_running_job))
      /\ (no_change_during_run (doc dismissed)
          = no_change_during_run (doc page_with_running_job)
          /\ timers (win dismissed) = timers (win page_with_running_job)
          /\ data_xp_id (doc dismissed)
             = data_xp_id (doc page_with_running_job)
          /\ requests (win dismissed)
             = requests (win page_with_running_job))).
Proof.
  split; [reflexivity|].
  split; [intros t []|].
  apply (rejected_changes_stack_and_clear read_integer 3
           page_with_running_job);
    [reflexivity | intros t []].
Defined.

Lemma push_tests_agree_along_runs_witness :
  flag_like (push_queue_on_update (ff page_with_experiment)) = true
  /\ (let q := run_events read_integer
                 [completed fetch_status (running_snapshot (Num (Int 5)));
                  user sortable_went_out;
                  user (sortable_about_to_stop
                          {| item := 0; helper_attrib_job_spec := None |})]
                 page_with_experiment in
      flag_like (push_queue_on_update (ff q)) = true
      /\ to_boolean (push_queue_on_update (ff q))
         = loose_eq read_integer (push_queue_on_update (ff q)) (Bool true)).
Proof.
  split; [reflexivity|].
  apply (push_tests_agree_along_runs read_integer
           [completed fetch_status (running_snapshot (Num (Int 5)));
            user sortable_went_out;
            user (sortable_about_to_stop
                    {| item := 0; helper_attrib_job_spec := None |})]
           page_with_experiment).
  reflexivity.
Defined.

Lemma delayed_repoll_round_trip_witness :
  (forall t, In t (timers (win page_with_experiment)) ->
     (timer_id t < next_timer (win page_with_experiment))%nat)
  /\ (let scheduled := run (repop_in_milliseconds 250) page_with_experiment in
      let due := {| timer_id := next_timer (win page_with_experiment);
                    repeats := false; delay := 250;
                    callback := call_repop_now |} in
      let fired := run (fire due) scheduled in
      timers (win scheduled) = timers (win page_with_experiment) ++ [due]
      /\ requests (win scheduled) = requests (win page_with_experiment)
      /\ timers (win fired) = timers (win page_with_experiment)
      /\ requests (win fired)
         = requests (win page_with_experiment) ++ [fetch_status]
      /\ doc fired = doc page_with_experiment
      /\ ff fired = ff page_with_experiment
      /\ fishface_monitoring (win fired)
         = fishface_monitoring (win page_with_experiment)
      /\ run repop_in_1_second page_with_experiment
         = run (repop_in_milliseconds 1000) page_with_experiment).
Proof.
  split; [intros t []|].
  apply (delayed_repoll_round_trip 250 page_with_experiment).
  intros t [].
Defined.
